(** * ai-bpms-backend: a shallow embedding of the Go sources

    The development follows the packages of the repository:
    - [Middleware]  shared/common/middleware  (the [joinStrings] helper)
    - [Config]      shared/common/config      ([Load], [setDefaults],
                    [GetDSN], [GetRedisAddr])
    - [Server]      cmd/server                ([setupRoutes] and the handlers)
    - [Handlers]    shared/common/middleware  ([CORS], [SecurityHeaders],
                    [RequestID], [Authentication], [Authorization])
    - [Migration]   shared/database/migration ([Migrator.Run],
                    [Migrator.Rollback])
    - [ProcessEngine]  the data model of the process engine with the
                    routing of advance, the claim of a task and the
                    cancellation of an instance, which the repository
                    describes but does not implement;
    - [Fixtures]    concrete inputs.

    Definitions come first, the theorems about them follow. *)

From Stdlib Require Import ZArith Ascii String List Bool Lia.
From Stdlib Require Import DecimalString DecimalPos DecimalZ.
From stdpp Require Import gmap strings list fin_maps.

Local Open Scope Z_scope.
Local Open Scope string_scope.
Local Open Scope list_scope.

(* ===================================================================== *)
(** * Package middleware *)
(* ===================================================================== *)

Module Middleware.

(** [joinStrings] of middleware.go: the first element, then for every
    further element the separator followed by the element, appended to
    the running [result]. *)
Definition joinStrings (strs : list string) (sep : string) : string :=
  match strs with
  | [] => ""
  | s0 :: rest =>
      fold_left (fun result s => result +:+ (sep +:+ s)) rest s0
  end.

(** The reference [strings.Join], written after its description: the
    empty string for no element, otherwise the elements in order with
    [sep] between each adjacent pair. *)
Fixpoint strings_Join (elems : list string) (sep : string) : string :=
  match elems with
  | [] => ""
  | e :: rest =>
      match rest with
      | [] => e
      | _ :: _ => e +:+ sep +:+ strings_Join rest sep
      end
  end.

End Middleware.

(* ===================================================================== *)
(** * Package config *)
(* ===================================================================== *)

Module Config.

(** [time.Duration] is a count of nanoseconds. *)
Abbreviation Duration := Z.

Definition Nanosecond : Z := 1.
Definition Second : Z := 1000000000.
Definition Minute : Z := 60 * Second.
Definition Hour : Z := 60 * Minute.

(** ** The configuration structs of config.go

    Field names are prefixed with the name of their struct, since
    [Host], [Port], [Enabled] and others occur in several of them. *)

Record TLSConfig := {
  TLS_Enabled : bool;
  TLS_CertFile : string;
  TLS_KeyFile : string }.

Record ServerConfig := {
  Server_Host : string;
  Server_Port : Z;
  Server_ReadTimeout : Duration;
  Server_WriteTimeout : Duration;
  Server_IdleTimeout : Duration;
  Server_TLS : TLSConfig }.

Record DatabaseConfig := {
  Database_Host : string;
  Database_Port : Z;
  Database_User : string;
  Database_Password : string;
  Database_DBName : string;
  Database_SSLMode : string;
  Database_MaxOpenConns : Z;
  Database_MaxIdleConns : Z;
  Database_MaxLifetime : Duration }.

Record JWTConfig := {
  JWT_Secret : string;
  JWT_AccessTokenDuration : Duration;
  JWT_RefreshTokenDuration : Duration;
  JWT_Issuer : string;
  JWT_Audience : string }.

Record KeycloakConfig := {
  Keycloak_BaseURL : string;
  Keycloak_Realm : string;
  Keycloak_ClientID : string;
  Keycloak_ClientSecret : string }.

Record OIDCConfig := {
  OIDC_Provider : string;
  OIDC_ClientID : string;
  OIDC_ClientSecret : string;
  OIDC_Domain : string;
  OIDC_Audience : string }.

Record BuiltInConfig := {
  BuiltIn_Enabled : bool;
  BuiltIn_RequireOTP : bool;
  BuiltIn_PasswordlessOnly : bool }.

Record AuthSecurityConfig := {
  AuthSecurity_RequireMFA : bool;
  AuthSecurity_SessionTimeout : Duration;
  AuthSecurity_MaxConcurrentSessions : Z;
  AuthSecurity_IPAllowlist : list string }.

Record AuthConfig := {
  Auth_Provider : string;
  Auth_JWT : JWTConfig;
  Auth_Keycloak : KeycloakConfig;
  Auth_OIDC : OIDCConfig;
  Auth_BuiltIn : BuiltInConfig;
  Auth_Security : AuthSecurityConfig }.

Record NATSConfig := {
  NATS_URL : string;
  NATS_ClusterID : string;
  NATS_ClientID : string }.

Record RedisConfig := {
  Redis_Host : string;
  Redis_Port : Z;
  Redis_Password : string;
  Redis_DB : Z;
  Redis_PoolSize : Z }.

Record OpenAIConfig := {
  OpenAI_APIKey : string;
  OpenAI_BaseURL : string;
  OpenAI_Model : string }.

Record CustomAIConfig := {
  CustomAI_Endpoint : string;
  CustomAI_APIKey : string }.

Record AIConfig := {
  AI_OpenAI : OpenAIConfig;
  AI_Custom : CustomAIConfig }.

Record LoggingConfig := {
  Logging_Level : string;
  Logging_Format : string;
  Logging_Output : string;
  Logging_File : string }.

Record CacheConfig := {
  Cache_TTL : Duration;
  Cache_CleanupInterval : Duration;
  Cache_MaxSize : Z;
  Cache_Strategy : string }.

Record RateLimitConfig := {
  RateLimit_Enabled : bool;
  RateLimit_RPS : Z;
  RateLimit_Burst : Z }.

Record CORSConfig := {
  CORS_AllowedOrigins : list string;
  CORS_AllowedMethods : list string;
  CORS_AllowedHeaders : list string }.

Record EncryptionConfig := {
  Encryption_Key : string;
  Encryption_Algorithm : string }.

Record SecurityConfig := {
  Security_RateLimit : RateLimitConfig;
  Security_CORS : CORSConfig;
  Security_Encryption : EncryptionConfig }.

Record MetricsConfig := {
  Metrics_Enabled : bool;
  Metrics_Path : string;
  Metrics_Port : Z }.

Record Config := {
  Server : ServerConfig;
  Database : DatabaseConfig;
  Auth : AuthConfig;
  NATS : NATSConfig;
  Redis : RedisConfig;
  AI : AIConfig;
  Logging : LoggingConfig;
  Cache : CacheConfig;
  Security : SecurityConfig;
  Metrics : MetricsConfig }.

(** ** Errors *)

Inductive error :=
  | ConfigFileNotFoundError (name : string) (locations : list string)
  | ConfigReadError (msg : string)
  | DecodeError (key : string)
  | Errorf (format : string) (wrapped : error).

(** The type assertion [err.(viper.ConfigFileNotFoundError)]. *)
Definition is_ConfigFileNotFoundError (err : error) : bool :=
  match err with
  | ConfigFileNotFoundError _ _ => true
  | _ => false
  end.

Definition result (A : Type) : Type := error + A.

#[global] Instance result_ret : MRet result := fun A a => inr a.
#[global] Instance result_bind : MBind result :=
  fun A B f m => match m with inl e => inl e | inr a => f a end.

(** ** The viper registry

    viper is not part of the repository.  What [Load] uses of it is
    modelled here: a registry of settings with three layers, read in the
    order environment, configuration file, defaults.  Keys are the
    lower-case dotted paths; a configuration file is taken as the map of
    its leaf keys. *)

Inductive Value :=
  | VString (s : string)
  | VInt (n : Z)
  | VBool (b : bool)
  | VStrings (l : list string).

Record Replacer := NewReplacer { r_old : string; r_new : string }.

Record Viper := {
  configName : string;
  configType : string;
  configPaths : list string;
  envPrefix : string;
  envKeyReplacer : option Replacer;
  automaticEnvApplied : bool;
  defaults : gmap string Value;
  config : gmap string Value }.

(** The state of the package-level viper instance at program start. *)
Definition viper_New : Viper :=
  {| configName := "config"; configType := ""; configPaths := [];
     envPrefix := ""; envKeyReplacer := None; automaticEnvApplied := false;
     defaults := ∅; config := ∅ |}.

Definition SetConfigName (n : string) (v : Viper) : Viper :=
  {| configName := n; configType := configType v;
     configPaths := configPaths v; envPrefix := envPrefix v;
     envKeyReplacer := envKeyReplacer v;
     automaticEnvApplied := automaticEnvApplied v;
     defaults := defaults v; config := config v |}.

Definition SetConfigType (t : string) (v : Viper) : Viper :=
  {| configName := configName v; configType := t;
     configPaths := configPaths v; envPrefix := envPrefix v;
     envKeyReplacer := envKeyReplacer v;
     automaticEnvApplied := automaticEnvApplied v;
     defaults := defaults v; config := config v |}.

(** A path already registered is not added a second time. *)
Definition AddConfigPath (p : string) (v : Viper) : Viper :=
  {| configName := configName v; configType := configType v;
     configPaths := if decide (p ∈ configPaths v) then configPaths v
                    else configPaths v ++ [p];
     envPrefix := envPrefix v;
     envKeyReplacer := envKeyReplacer v;
     automaticEnvApplied := automaticEnvApplied v;
     defaults := defaults v; config := config v |}.

Definition SetEnvPrefix (p : string) (v : Viper) : Viper :=
  {| configName := configName v; configType := configType v;
     configPaths := configPaths v; envPrefix := p;
     envKeyReplacer := envKeyReplacer v;
     automaticEnvApplied := automaticEnvApplied v;
     defaults := defaults v; config := config v |}.

Definition SetEnvKeyReplacer (r : Replacer) (v : Viper) : Viper :=
  {| configName := configName v; configType := configType v;
     configPaths := configPaths v; envPrefix := envPrefix v;
     envKeyReplacer := Some r;
     automaticEnvApplied := automaticEnvApplied v;
     defaults := defaults v; config := config v |}.

Definition AutomaticEnv (v : Viper) : Viper :=
  {| configName := configName v; configType := configType v;
     configPaths := configPaths v; envPrefix := envPrefix v;
     envKeyReplacer := envKeyReplacer v;
     automaticEnvApplied := true;
     defaults := defaults v; config := config v |}.

Definition SetDefault (key : string) (val : Value) (v : Viper) : Viper :=
  {| configName := configName v; configType := configType v;
     configPaths := configPaths v; envPrefix := envPrefix v;
     envKeyReplacer := envKeyReplacer v;
     automaticEnvApplied := automaticEnvApplied v;
     defaults := <[key := val]> (defaults v); config := config v |}.

Definition set_config (m : gmap string Value) (v : Viper) : Viper :=
  {| configName := configName v; configType := configType v;
     configPaths := configPaths v; envPrefix := envPrefix v;
     envKeyReplacer := envKeyReplacer v;
     automaticEnvApplied := automaticEnvApplied v;
     defaults := defaults v; config := m |}.

(** ** The process environment

    What a directory of the search path holds: no configuration file, a
    file that reads and parses into settings, or a file that fails to
    read or parse. *)

Inductive ConfigFile :=
  | Parsed (settings : gmap string Value)
  | Unreadable (msg : string).

Record OS := {
  files : string -> option ConfigFile;
  environ : gmap string string }.

(** Nothing but the program: no configuration file, no variable. *)
Definition bareOS : OS := {| files := fun _ => None; environ := ∅ |}.

(** ** Strings *)

Definition toUpperAscii (c : ascii) : ascii :=
  let n := nat_of_ascii c in
  if ((97 <=? n) && (n <=? 122))%nat then ascii_of_nat (n - 32) else c.

Fixpoint ToUpper (s : string) : string :=
  match s with
  | EmptyString => EmptyString
  | String c s' => String (toUpperAscii c) (ToUpper s')
  end.

(** [Replacer.Replace]: every occurrence of the old string, from left to
    right and without overlap, becomes the new one.  [skip] counts the
    characters of an occurrence that were already replaced. *)
Fixpoint replace_from (old new : string) (skip : nat) (s : string) : string :=
  match s with
  | EmptyString => EmptyString
  | String c s' =>
      match skip with
      | S k => replace_from old new k s'
      | O =>
          if (negb (String.eqb old "") && String.prefix old s)%bool
          then new +:+ replace_from old new (String.length old - 1) s'
          else String c (replace_from old new 0 s')
      end
  end.

Definition Replace (r : Replacer) (s : string) : string :=
  replace_from (r_old r) (r_new r) 0 s.

(** ** Reading settings *)

Definition mergeWithEnvPrefix (v : Viper) (key : string) : string :=
  if String.eqb (envPrefix v) "" then ToUpper key
  else ToUpper (envPrefix v +:+ "_" +:+ key).

(** An environment variable that is set to the empty string counts as
    unset. *)
Definition getEnv (os : OS) (v : Viper) (name : string) : option string :=
  let name := match envKeyReplacer v with
              | Some r => Replace r name
              | None => name
              end in
  match environ os !! name with
  | Some val => if String.eqb val "" then None else Some val
  | None => None
  end.

(** The parents of a dotted key, shortest first: for
    [path = strings.Split(key, ".")], the keys
    [strings.Join(path[0:i], ".")] with [0 < i < len(path)]. *)
Fixpoint parents_from (seen key : string) : list string :=
  match key with
  | EmptyString => []
  | String c rest =>
      if Ascii.eqb c "."
      then seen :: parents_from (seen +:+ ".") rest
      else parents_from (seen +:+ String c EmptyString) rest
  end.

Definition parentKeys (key : string) : list string := parents_from "" key.

(** [isPathShadowedInAutoEnv]: the first parent of the key that has a
    value in the environment, or the empty string.  A key below a
    variable that is set is shadowed by it. *)
Fixpoint shadowedInAutoEnv (os : OS) (v : Viper) (parents : list string)
  : string :=
  match parents with
  | [] => ""
  | parentKey :: rest =>
      match getEnv os v (mergeWithEnvPrefix v parentKey) with
      | Some _ => parentKey
      | None => shadowedInAutoEnv os v rest
      end
  end.

Definition isPathShadowedInAutoEnv (os : OS) (v : Viper) (key : string)
  : string :=
  shadowedInAutoEnv os v (parentKeys key).

(** [isPathShadowedInDeepMap]: the first parent of the key that holds a
    regular value, or the empty string.  In the map of the leaf keys a
    parent holds a regular value when it is a key itself.  A parent that
    is no key is a section of the document or absent from it; a longer
    parent is a key only below a section, so that passing over both
    finds the parent the nested map would. *)
Fixpoint shadowedInDeepMap (m : gmap string Value) (parents : list string)
  : string :=
  match parents with
  | [] => ""
  | parentKey :: rest =>
      match m !! parentKey with
      | Some _ => parentKey
      | None => shadowedInDeepMap m rest
      end
  end.

Definition isPathShadowedInDeepMap (m : gmap string Value) (key : string)
  : string :=
  shadowedInDeepMap m (parentKeys key).

(** [viper.Get], through [find]: the variable of the key, unless a
    parent of the key is shadowed in the environment; then the file,
    unless a parent holds a regular value there; then the default.
    (Overrides, flags, bound variables and a key/value store are not
    used by [Load]; below the defaults [find] has nothing left to
    return, shadowed or not.) *)
Definition Get (os : OS) (v : Viper) (key : string) : option Value :=
  let below :=
    match config v !! key with
    | Some val => Some val
    | None =>
        if String.eqb (isPathShadowedInDeepMap (config v) key) ""
        then defaults v !! key
        else None
    end in
  if automaticEnvApplied v then
    match getEnv os v (mergeWithEnvPrefix v key) with
    | Some val => Some (VString val)
    | None =>
        if String.eqb (isPathShadowedInAutoEnv os v key) ""
        then below
        else None
    end
  else below.

(** [Unmarshal] decodes [AllSettings], which holds the keys of the file
    and of the defaults; a key known only to the environment is not
    among them. *)
Definition AllKeys (v : Viper) : gset string :=
  dom (config v) ∪ dom (defaults v).

Definition setting (os : OS) (v : Viper) (key : string) : option Value :=
  if decide (key ∈ AllKeys v) then Get os v key else None.

(** ** Decoding into the fields of [Config]

    viper decodes with weakly typed input and two hooks: a string that
    meets a [time.Duration] goes through [time.ParseDuration], a string
    that meets a slice is split at the commas. *)

Definition ParseBool (s : string) : option bool :=
  if existsb (String.eqb s) ["1"; "t"; "T"; "TRUE"; "true"; "True"]
  then Some true
  else if existsb (String.eqb s) ["0"; "f"; "F"; "FALSE"; "false"; "False"]
  then Some false
  else None.

Definition FormatInt (n : Z) : string :=
  NilZero.string_of_int (Z.to_int n).

Fixpoint split_from (sep : ascii) (cur : string) (s : string) : list string :=
  match s with
  | EmptyString => [cur]
  | String c s' =>
      if Ascii.eqb c sep then cur :: split_from sep "" s'
      else split_from sep (cur +:+ String c "") s'
  end.

Definition StringToSlice (s : string) : list string :=
  if String.eqb s "" then [] else split_from "," "" s.

Section Decoding.

(** Go's [strconv.ParseInt] (base 0, 64 bits) and [time.ParseDuration]
    are parameters of the decoders. *)
Variable ParseInt : string -> option Z.
Variable ParseDuration : string -> option Z.

Definition decodeString (key : string) (o : option Value) : result string :=
  match o with
  | None => inr ""
  | Some (VString s) => inr s
  | Some (VInt n) => inr (FormatInt n)
  | Some (VBool b) => inr (if b then "1" else "0")
  | Some (VStrings _) => inl (DecodeError key)
  end.

Definition decodeInt (key : string) (o : option Value) : result Z :=
  match o with
  | None => inr 0
  | Some (VInt n) => inr n
  | Some (VBool b) => inr (if b then 1 else 0)
  | Some (VString s) =>
      match ParseInt (if String.eqb s "" then "0" else s) with
      | Some n => inr n
      | None => inl (DecodeError key)
      end
  | Some (VStrings _) => inl (DecodeError key)
  end.

Definition decodeBool (key : string) (o : option Value) : result bool :=
  match o with
  | None => inr false
  | Some (VBool b) => inr b
  | Some (VInt n) => inr (negb (n =? 0)%Z)
  | Some (VString s) =>
      if String.eqb s "" then inr false
      else match ParseBool s with
           | Some b => inr b
           | None => inl (DecodeError key)
           end
  | Some (VStrings _) => inl (DecodeError key)
  end.

Definition decodeDuration (key : string) (o : option Value) : result Duration :=
  match o with
  | None => inr 0
  | Some (VString s) =>
      match ParseDuration s with
      | Some d => inr d
      | None => inl (DecodeError key)
      end
  | Some (VInt n) => inr n
  | Some (VBool b) => inr (if b then 1 else 0)
  | Some (VStrings _) => inl (DecodeError key)
  end.

Definition decodeStrings (key : string) (o : option Value) : result (list string) :=
  match o with
  | None => inr []
  | Some (VStrings l) => inr l
  | Some (VString s) => inr (StringToSlice s)
  | Some (VInt n) => inr [FormatInt n]
  | Some (VBool b) => inr [if b then "1" else "0"]
  end.

Section Unmarshal.
Variable os : OS.
Variable v : Viper.

Definition str (key : string) := decodeString key (setting os v key).
Definition int (key : string) := decodeInt key (setting os v key).
Definition bool_ (key : string) := decodeBool key (setting os v key).
Definition dur (key : string) := decodeDuration key (setting os v key).
Definition strs (key : string) := decodeStrings key (setting os v key).

Definition unmarshalTLS : result TLSConfig :=
  enabled ← bool_ "server.tls.enabled";
  cert ← str "server.tls.cert_file";
  key ← str "server.tls.key_file";
  mret {| TLS_Enabled := enabled; TLS_CertFile := cert; TLS_KeyFile := key |}.

Definition unmarshalServer : result ServerConfig :=
  host ← str "server.host";
  port ← int "server.port";
  rt ← dur "server.read_timeout";
  wt ← dur "server.write_timeout";
  it ← dur "server.idle_timeout";
  tls ← unmarshalTLS;
  mret {| Server_Host := host; Server_Port := port; Server_ReadTimeout := rt;
          Server_WriteTimeout := wt; Server_IdleTimeout := it;
          Server_TLS := tls |}.

Definition unmarshalDatabase : result DatabaseConfig :=
  host ← str "database.host";
  port ← int "database.port";
  user ← str "database.user";
  password ← str "database.password";
  dbname ← str "database.dbname";
  sslmode ← str "database.sslmode";
  open ← int "database.max_open_conns";
  idle ← int "database.max_idle_conns";
  life ← dur "database.max_lifetime";
  mret {| Database_Host := host; Database_Port := port;
          Database_User := user; Database_Password := password;
          Database_DBName := dbname; Database_SSLMode := sslmode;
          Database_MaxOpenConns := open; Database_MaxIdleConns := idle;
          Database_MaxLifetime := life |}.

Definition unmarshalJWT : result JWTConfig :=
  secret ← str "auth.jwt.secret";
  access ← dur "auth.jwt.access_token_duration";
  refresh ← dur "auth.jwt.refresh_token_duration";
  issuer ← str "auth.jwt.issuer";
  audience ← str "auth.jwt.audience";
  mret {| JWT_Secret := secret; JWT_AccessTokenDuration := access;
          JWT_RefreshTokenDuration := refresh; JWT_Issuer := issuer;
          JWT_Audience := audience |}.

Definition unmarshalKeycloak : result KeycloakConfig :=
  base ← str "auth.keycloak.base_url";
  realm ← str "auth.keycloak.realm";
  id ← str "auth.keycloak.client_id";
  secret ← str "auth.keycloak.client_secret";
  mret {| Keycloak_BaseURL := base; Keycloak_Realm := realm;
          Keycloak_ClientID := id; Keycloak_ClientSecret := secret |}.

Definition unmarshalOIDC : result OIDCConfig :=
  provider ← str "auth.oidc.provider";
  id ← str "auth.oidc.client_id";
  secret ← str "auth.oidc.client_secret";
  domain ← str "auth.oidc.domain";
  audience ← str "auth.oidc.audience";
  mret {| OIDC_Provider := provider; OIDC_ClientID := id;
          OIDC_ClientSecret := secret; OIDC_Domain := domain;
          OIDC_Audience := audience |}.

Definition unmarshalBuiltIn : result BuiltInConfig :=
  enabled ← bool_ "auth.built_in.enabled";
  otp ← bool_ "auth.built_in.require_otp";
  pwless ← bool_ "auth.built_in.passwordless_only";
  mret {| BuiltIn_Enabled := enabled; BuiltIn_RequireOTP := otp;
          BuiltIn_PasswordlessOnly := pwless |}.

Definition unmarshalAuthSecurity : result AuthSecurityConfig :=
  mfa ← bool_ "auth.security.require_mfa";
  timeout ← dur "auth.security.session_timeout";
  sessions ← int "auth.security.max_concurrent_sessions";
  allow ← strs "auth.security.ip_allowlist";
  mret {| AuthSecurity_RequireMFA := mfa;
          AuthSecurity_SessionTimeout := timeout;
          AuthSecurity_MaxConcurrentSessions := sessions;
          AuthSecurity_IPAllowlist := allow |}.

Definition unmarshalAuth : result AuthConfig :=
  provider ← str "auth.provider";
  jwt ← unmarshalJWT;
  keycloak ← unmarshalKeycloak;
  oidc ← unmarshalOIDC;
  builtin ← unmarshalBuiltIn;
  security ← unmarshalAuthSecurity;
  mret {| Auth_Provider := provider; Auth_JWT := jwt;
          Auth_Keycloak := keycloak; Auth_OIDC := oidc;
          Auth_BuiltIn := builtin; Auth_Security := security |}.

Definition unmarshalNATS : result NATSConfig :=
  url ← str "nats.url";
  cluster ← str "nats.cluster_id";
  client ← str "nats.client_id";
  mret {| NATS_URL := url; NATS_ClusterID := cluster;
          NATS_ClientID := client |}.

Definition unmarshalRedis : result RedisConfig :=
  host ← str "redis.host";
  port ← int "redis.port";
  password ← str "redis.password";
  db ← int "redis.db";
  pool ← int "redis.pool_size";
  mret {| Redis_Host := host; Redis_Port := port; Redis_Password := password;
          Redis_DB := db; Redis_PoolSize := pool |}.

Definition unmarshalAI : result AIConfig :=
  key ← str "ai.openai.api_key";
  base ← str "ai.openai.base_url";
  model ← str "ai.openai.model";
  endpoint ← str "ai.custom.endpoint";
  ckey ← str "ai.custom.api_key";
  mret {| AI_OpenAI := {| OpenAI_APIKey := key; OpenAI_BaseURL := base;
                          OpenAI_Model := model |};
          AI_Custom := {| CustomAI_Endpoint := endpoint;
                          CustomAI_APIKey := ckey |} |}.

Definition unmarshalLogging : result LoggingConfig :=
  level ← str "logging.level";
  format ← str "logging.format";
  output ← str "logging.output";
  file ← str "logging.file";
  mret {| Logging_Level := level; Logging_Format := format;
          Logging_Output := output; Logging_File := file |}.

Definition unmarshalCache : result CacheConfig :=
  ttl ← dur "cache.ttl";
  cleanup ← dur "cache.cleanup_interval";
  size ← int "cache.max_size";
  strategy ← str "cache.strategy";
  mret {| Cache_TTL := ttl; Cache_CleanupInterval := cleanup;
          Cache_MaxSize := size; Cache_Strategy := strategy |}.

Definition unmarshalSecurity : result SecurityConfig :=
  enabled ← bool_ "security.rate_limit.enabled";
  rps ← int "security.rate_limit.rps";
  burst ← int "security.rate_limit.burst";
  origins ← strs "security.cors.allowed_origins";
  methods ← strs "security.cors.allowed_methods";
  headers ← strs "security.cors.allowed_headers";
  key ← str "security.encryption.key";
  algorithm ← str "security.encryption.algorithm";
  mret {| Security_RateLimit :=
            {| RateLimit_Enabled := enabled; RateLimit_RPS := rps;
               RateLimit_Burst := burst |};
          Security_CORS :=
            {| CORS_AllowedOrigins := origins; CORS_AllowedMethods := methods;
               CORS_AllowedHeaders := headers |};
          Security_Encryption :=
            {| Encryption_Key := key; Encryption_Algorithm := algorithm |} |}.

Definition unmarshalMetrics : result MetricsConfig :=
  enabled ← bool_ "metrics.enabled";
  path ← str "metrics.path";
  port ← int "metrics.port";
  mret {| Metrics_Enabled := enabled; Metrics_Path := path;
          Metrics_Port := port |}.

(** [viper.Unmarshal(&config)] *)
Definition Unmarshal : result Config :=
  server ← unmarshalServer;
  database ← unmarshalDatabase;
  auth ← unmarshalAuth;
  nats ← unmarshalNATS;
  redis ← unmarshalRedis;
  ai ← unmarshalAI;
  logging ← unmarshalLogging;
  cache ← unmarshalCache;
  security ← unmarshalSecurity;
  metrics ← unmarshalMetrics;
  mret {| Server := server; Database := database; Auth := auth;
          NATS := nats; Redis := redis; AI := ai; Logging := logging;
          Cache := cache; Security := security; Metrics := metrics |}.

End Unmarshal.

(** [viper.ReadInConfig]: the first directory of the search path that
    holds a configuration file decides. *)
Fixpoint findConfigFile (os : OS) (paths : list string) : option ConfigFile :=
  match paths with
  | [] => None
  | p :: rest =>
      match files os p with
      | Some f => Some f
      | None => findConfigFile os rest
      end
  end.

Definition ReadInConfig (os : OS) (v : Viper) : option error * Viper :=
  match findConfigFile os (configPaths v) with
  | None => (Some (ConfigFileNotFoundError (configName v) (configPaths v)), v)
  | Some (Unreadable msg) => (Some (ConfigReadError msg), v)
  | Some (Parsed settings) => (None, set_config settings v)
  end.

(** ** config.go *)

(** [setDefaults] *)
Definition setDefaults (v : Viper) : Viper :=
  (* Server defaults *)
  let v := SetDefault "server.host" (VString "localhost") v in
  let v := SetDefault "server.port" (VInt 8081) v in
  let v := SetDefault "server.read_timeout" (VString "30s") v in
  let v := SetDefault "server.write_timeout" (VString "30s") v in
  let v := SetDefault "server.idle_timeout" (VString "60s") v in
  let v := SetDefault "server.tls.enabled" (VBool false) v in
  (* Database defaults *)
  let v := SetDefault "database.host" (VString "localhost") v in
  let v := SetDefault "database.port" (VInt 5432) v in
  let v := SetDefault "database.user" (VString "bpms_user") v in
  let v := SetDefault "database.password" (VString "bpms_pass") v in
  let v := SetDefault "database.dbname" (VString "ai_bpms") v in
  let v := SetDefault "database.sslmode" (VString "disable") v in
  let v := SetDefault "database.max_open_conns" (VInt 25) v in
  let v := SetDefault "database.max_idle_conns" (VInt 10) v in
  let v := SetDefault "database.max_lifetime" (VString "5m") v in
  (* Auth defaults *)
  let v := SetDefault "auth.provider" (VString "jwt") v in
  let v := SetDefault "auth.jwt.secret" (VString "change-me-in-production") v in
  let v := SetDefault "auth.jwt.access_token_duration" (VString "15m") v in
  let v := SetDefault "auth.jwt.refresh_token_duration" (VString "168h") v in
  let v := SetDefault "auth.jwt.issuer" (VString "ai-bpms") v in
  let v := SetDefault "auth.jwt.audience" (VString "ai-bpms-users") v in
  let v := SetDefault "auth.built_in.enabled" (VBool true) v in
  let v := SetDefault "auth.security.session_timeout" (VString "4h") v in
  let v := SetDefault "auth.security.max_concurrent_sessions" (VInt 3) v in
  (* NATS defaults *)
  let v := SetDefault "nats.url" (VString "nats://localhost:4222") v in
  let v := SetDefault "nats.cluster_id" (VString "bpms-cluster") v in
  let v := SetDefault "nats.client_id" (VString "bpms-client") v in
  (* Redis defaults *)
  let v := SetDefault "redis.host" (VString "localhost") v in
  let v := SetDefault "redis.port" (VInt 6379) v in
  let v := SetDefault "redis.db" (VInt 0) v in
  let v := SetDefault "redis.pool_size" (VInt 10) v in
  (* AI defaults *)
  let v := SetDefault "ai.openai.base_url" (VString "https://api.openai.com/v1") v in
  let v := SetDefault "ai.openai.model" (VString "gpt-4") v in
  (* Logging defaults *)
  let v := SetDefault "logging.level" (VString "info") v in
  let v := SetDefault "logging.format" (VString "json") v in
  let v := SetDefault "logging.output" (VString "stdout") v in
  (* Cache defaults *)
  let v := SetDefault "cache.ttl" (VString "1h") v in
  let v := SetDefault "cache.cleanup_interval" (VString "10m") v in
  let v := SetDefault "cache.max_size" (VInt 1000) v in
  let v := SetDefault "cache.strategy" (VString "lru") v in
  (* Security defaults *)
  let v := SetDefault "security.rate_limit.enabled" (VBool true) v in
  let v := SetDefault "security.rate_limit.rps" (VInt 100) v in
  let v := SetDefault "security.rate_limit.burst" (VInt 200) v in
  let v := SetDefault "security.cors.allowed_origins" (VStrings ["*"]) v in
  let v := SetDefault "security.cors.allowed_methods"
             (VStrings ["GET"; "POST"; "PUT"; "DELETE"; "OPTIONS"]) v in
  let v := SetDefault "security.cors.allowed_headers" (VStrings ["*"]) v in
  let v := SetDefault "security.encryption.algorithm" (VString "AES-256-GCM") v in
  (* Metrics defaults *)
  let v := SetDefault "metrics.enabled" (VBool true) v in
  let v := SetDefault "metrics.path" (VString "/metrics") v in
  let v := SetDefault "metrics.port" (VInt 9090) v in
  v.

(** [Load]: the pair of the returned [*Config] and [error], and the
    viper registry it leaves behind. *)
Definition Load (os : OS) (v : Viper) : (option Config * option error) * Viper :=
  let v := SetConfigName "config" v in
  let v := SetConfigType "yaml" v in
  let v := AddConfigPath "./configs" v in
  let v := AddConfigPath "." v in
  (* Environment variable configuration *)
  let v := SetEnvPrefix "BPMS" v in
  let v := SetEnvKeyReplacer (NewReplacer "." "_") v in
  let v := AutomaticEnv v in
  (* Set defaults *)
  let v := setDefaults v in
  (* Read configuration file *)
  let '(err, v) := ReadInConfig os v in
  match (match err with
         | Some e => if is_ConfigFileNotFoundError e then None else Some e
         | None => None
         end) with
  | Some e => ((None, Some (Errorf "failed to read config file: %w" e)), v)
  | None =>
      match Unmarshal os v with
      | inl e => ((None, Some (Errorf "failed to unmarshal config: %w" e)), v)
      | inr config => ((Some config, None), v)
      end
  end.

End Decoding.

(** ** Reading a load *)

(** The registry [Load] has built when it comes to read the file. *)
Definition configured (v : Viper) : Viper :=
  setDefaults
    (AutomaticEnv
       (SetEnvKeyReplacer (NewReplacer "." "_")
          (SetEnvPrefix "BPMS"
             (AddConfigPath "."
                (AddConfigPath "./configs"
                   (SetConfigType "yaml" (SetConfigName "config" v))))))).

Definition no_BPMS_variable (os : OS) : Prop :=
  forall name : string, String.prefix "BPMS_" name = true -> environ os !! name = None.

Definition no_config_file (os : OS) : Prop :=
  files os "./configs" = None /\ files os "." = None.

(** ** The configuration the defaults stand for *)

Definition defaultConfig : Config :=
  {| Server :=
       {| Server_Host := "localhost"; Server_Port := 8081;
          Server_ReadTimeout := 30 * Second;
          Server_WriteTimeout := 30 * Second;
          Server_IdleTimeout := 60 * Second;
          Server_TLS := {| TLS_Enabled := false; TLS_CertFile := "";
                           TLS_KeyFile := "" |} |};
     Database :=
       {| Database_Host := "localhost"; Database_Port := 5432;
          Database_User := "bpms_user"; Database_Password := "bpms_pass";
          Database_DBName := "ai_bpms"; Database_SSLMode := "disable";
          Database_MaxOpenConns := 25; Database_MaxIdleConns := 10;
          Database_MaxLifetime := 5 * Minute |};
     Auth :=
       {| Auth_Provider := "jwt";
          Auth_JWT :=
            {| JWT_Secret := "change-me-in-production";
               JWT_AccessTokenDuration := 15 * Minute;
               JWT_RefreshTokenDuration := 168 * Hour;
               JWT_Issuer := "ai-bpms"; JWT_Audience := "ai-bpms-users" |};
          Auth_Keycloak :=
            {| Keycloak_BaseURL := ""; Keycloak_Realm := "";
               Keycloak_ClientID := ""; Keycloak_ClientSecret := "" |};
          Auth_OIDC :=
            {| OIDC_Provider := ""; OIDC_ClientID := "";
               OIDC_ClientSecret := ""; OIDC_Domain := "";
               OIDC_Audience := "" |};
          Auth_BuiltIn :=
            {| BuiltIn_Enabled := true; BuiltIn_RequireOTP := false;
               BuiltIn_PasswordlessOnly := false |};
          Auth_Security :=
            {| AuthSecurity_RequireMFA := false;
               AuthSecurity_SessionTimeout := 4 * Hour;
               AuthSecurity_MaxConcurrentSessions := 3;
               AuthSecurity_IPAllowlist := [] |} |};
     NATS :=
       {| NATS_URL := "nats://localhost:4222";
          NATS_ClusterID := "bpms-cluster"; NATS_ClientID := "bpms-client" |};
     Redis :=
       {| Redis_Host := "localhost"; Redis_Port := 6379; Redis_Password := "";
          Redis_DB := 0; Redis_PoolSize := 10 |};
     AI :=
       {| AI_OpenAI :=
            {| OpenAI_APIKey := "";
               OpenAI_BaseURL := "https://api.openai.com/v1";
               OpenAI_Model := "gpt-4" |};
          AI_Custom := {| CustomAI_Endpoint := ""; CustomAI_APIKey := "" |} |};
     Logging :=
       {| Logging_Level := "info"; Logging_Format := "json";
          Logging_Output := "stdout"; Logging_File := "" |};
     Cache :=
       {| Cache_TTL := 1 * Hour; Cache_CleanupInterval := 10 * Minute;
          Cache_MaxSize := 1000; Cache_Strategy := "lru" |};
     Security :=
       {| Security_RateLimit :=
            {| RateLimit_Enabled := true; RateLimit_RPS := 100;
               RateLimit_Burst := 200 |};
          Security_CORS :=
            {| CORS_AllowedOrigins := ["*"];
               CORS_AllowedMethods := ["GET"; "POST"; "PUT"; "DELETE"; "OPTIONS"];
               CORS_AllowedHeaders := ["*"] |};
          Security_Encryption :=
            {| Encryption_Key := ""; Encryption_Algorithm := "AES-256-GCM" |} |};
     Metrics :=
       {| Metrics_Enabled := true; Metrics_Path := "/metrics";
          Metrics_Port := 9090 |} |}.

(** The eight duration literals of [setDefaults] with the values
    [time.ParseDuration] gives them. *)
Definition default_durations : list (string * Z) :=
  [("30s", 30 * Second); ("60s", 60 * Second); ("5m", 5 * Minute);
   ("15m", 15 * Minute); ("168h", 168 * Hour); ("4h", 4 * Hour);
   ("1h", 1 * Hour); ("10m", 10 * Minute)].

(** ** A duration parser for the plain form <digits><unit>

    An instance of the [ParseDuration] parameter that reads one run of
    decimal digits followed by one of the units ns, us, ms, s, m, h, and
    rejects everything else. *)

Definition digit_of (c : ascii) : option Z :=
  let n := nat_of_ascii c in
  if ((48 <=? n) && (n <=? 57))%nat then Some (Z.of_nat (n - 48)) else None.

Definition unit_of (u : string) : option Z :=
  if String.eqb u "ns" then Some Nanosecond
  else if String.eqb u "us" then Some 1000
  else if String.eqb u "ms" then Some 1000000
  else if String.eqb u "s" then Some Second
  else if String.eqb u "m" then Some Minute
  else if String.eqb u "h" then Some Hour
  else None.

Fixpoint digits_then_unit (seen : bool) (acc : Z) (s : string) : option Z :=
  match s with
  | EmptyString => None
  | String c s' =>
      match digit_of c with
      | Some d => digits_then_unit true (10 * acc + d) s'
      | None =>
          if seen then
            match unit_of s with
            | Some u => Some (acc * u)
            | None => None
            end
          else None
      end
  end.

Definition plainParseDuration (s : string) : option Z :=
  digits_then_unit false 0 s.

(** A decimal reader for the [ParseInt] parameter: an optional minus
    sign and a run of decimal digits. *)
Fixpoint decimal_digits (seen : bool) (acc : Z) (s : string) : option Z :=
  match s with
  | EmptyString => if seen then Some acc else None
  | String c s' =>
      match digit_of c with
      | Some d => decimal_digits true (10 * acc + d) s'
      | None => None
      end
  end.

Definition plainParseInt (s : string) : option Z :=
  match s with
  | String "-" s' => Z.opp <$> decimal_digits false 0 s'
  | _ => decimal_digits false 0 s
  end.

(** ** The methods of config.go

    [fmt.Sprintf] with the verbs %s, the string as it is, and %d, the
    decimal numeral of the integer. *)

(** [GetDSN] returns database connection string *)
Definition GetDSN (c : DatabaseConfig) : string :=
  "host=" +:+ Database_Host c
  +:+ " port=" +:+ FormatInt (Database_Port c)
  +:+ " user=" +:+ Database_User c
  +:+ " password=" +:+ Database_Password c
  +:+ " dbname=" +:+ Database_DBName c
  +:+ " sslmode=" +:+ Database_SSLMode c.

(** [GetRedisAddr] returns Redis address *)
Definition GetRedisAddr (c : RedisConfig) : string :=
  Redis_Host c +:+ ":" +:+ FormatInt (Redis_Port c).

(** ** Reading an address *)

(** The character occurs in the string. *)
Fixpoint has_char (c : ascii) (s : string) : bool :=
  match s with
  | EmptyString => false
  | String x s' => (Ascii.eqb x c || has_char c s')%bool
  end.

Definition with_Password (p : string) (c : DatabaseConfig) : DatabaseConfig :=
  {| Database_Host := Database_Host c; Database_Port := Database_Port c;
     Database_User := Database_User c; Database_Password := p;
     Database_DBName := Database_DBName c;
     Database_SSLMode := Database_SSLMode c;
     Database_MaxOpenConns := Database_MaxOpenConns c;
     Database_MaxIdleConns := Database_MaxIdleConns c;
     Database_MaxLifetime := Database_MaxLifetime c |}.

Definition with_DBName (n : string) (c : DatabaseConfig) : DatabaseConfig :=
  {| Database_Host := Database_Host c; Database_Port := Database_Port c;
     Database_User := Database_User c;
     Database_Password := Database_Password c;
     Database_DBName := n;
     Database_SSLMode := Database_SSLMode c;
     Database_MaxOpenConns := Database_MaxOpenConns c;
     Database_MaxIdleConns := Database_MaxIdleConns c;
     Database_MaxLifetime := Database_MaxLifetime c |}.

(** ** The settings and their fields

    The mapstructure tags of config.go: the key of every setting of type
    string, and of every setting of type int, with the field of [Config]
    it is decoded into. *)

Definition string_fields : list (string * (Config -> string)) :=
  [ ("server.host", fun c => Server_Host (Server c));
    ("server.tls.cert_file", fun c => TLS_CertFile (Server_TLS (Server c)));
    ("server.tls.key_file", fun c => TLS_KeyFile (Server_TLS (Server c)));
    ("database.host", fun c => Database_Host (Database c));
    ("database.user", fun c => Database_User (Database c));
    ("database.password", fun c => Database_Password (Database c));
    ("database.dbname", fun c => Database_DBName (Database c));
    ("database.sslmode", fun c => Database_SSLMode (Database c));
    ("auth.provider", fun c => Auth_Provider (Auth c));
    ("auth.jwt.secret", fun c => JWT_Secret (Auth_JWT (Auth c)));
    ("auth.jwt.issuer", fun c => JWT_Issuer (Auth_JWT (Auth c)));
    ("auth.jwt.audience", fun c => JWT_Audience (Auth_JWT (Auth c)));
    ("auth.keycloak.base_url", fun c => Keycloak_BaseURL (Auth_Keycloak (Auth c)));
    ("auth.keycloak.realm", fun c => Keycloak_Realm (Auth_Keycloak (Auth c)));
    ("auth.keycloak.client_id", fun c => Keycloak_ClientID (Auth_Keycloak (Auth c)));
    ("auth.keycloak.client_secret",
     fun c => Keycloak_ClientSecret (Auth_Keycloak (Auth c)));
    ("auth.oidc.provider", fun c => OIDC_Provider (Auth_OIDC (Auth c)));
    ("auth.oidc.client_id", fun c => OIDC_ClientID (Auth_OIDC (Auth c)));
    ("auth.oidc.client_secret", fun c => OIDC_ClientSecret (Auth_OIDC (Auth c)));
    ("auth.oidc.domain", fun c => OIDC_Domain (Auth_OIDC (Auth c)));
    ("auth.oidc.audience", fun c => OIDC_Audience (Auth_OIDC (Auth c)));
    ("nats.url", fun c => NATS_URL (NATS c));
    ("nats.cluster_id", fun c => NATS_ClusterID (NATS c));
    ("nats.client_id", fun c => NATS_ClientID (NATS c));
    ("redis.host", fun c => Redis_Host (Redis c));
    ("redis.password", fun c => Redis_Password (Redis c));
    ("ai.openai.api_key", fun c => OpenAI_APIKey (AI_OpenAI (AI c)));
    ("ai.openai.base_url", fun c => OpenAI_BaseURL (AI_OpenAI (AI c)));
    ("ai.openai.model", fun c => OpenAI_Model (AI_OpenAI (AI c)));
    ("ai.custom.endpoint", fun c => CustomAI_Endpoint (AI_Custom (AI c)));
    ("ai.custom.api_key", fun c => CustomAI_APIKey (AI_Custom (AI c)));
    ("logging.level", fun c => Logging_Level (Logging c));
    ("logging.format", fun c => Logging_Format (Logging c));
    ("logging.output", fun c => Logging_Output (Logging c));
    ("logging.file", fun c => Logging_File (Logging c));
    ("cache.strategy", fun c => Cache_Strategy (Cache c));
    ("security.encryption.key",
     fun c => Encryption_Key (Security_Encryption (Security c)));
    ("security.encryption.algorithm",
     fun c => Encryption_Algorithm (Security_Encryption (Security c)));
    ("metrics.path", fun c => Metrics_Path (Metrics c)) ].

Definition int_fields : list (string * (Config -> Z)) :=
  [ ("server.port", fun c => Server_Port (Server c));
    ("database.port", fun c => Database_Port (Database c));
    ("database.max_open_conns", fun c => Database_MaxOpenConns (Database c));
    ("database.max_idle_conns", fun c => Database_MaxIdleConns (Database c));
    ("auth.security.max_concurrent_sessions",
     fun c => AuthSecurity_MaxConcurrentSessions (Auth_Security (Auth c)));
    ("redis.port", fun c => Redis_Port (Redis c));
    ("redis.db", fun c => Redis_DB (Redis c));
    ("redis.pool_size", fun c => Redis_PoolSize (Redis c));
    ("cache.max_size", fun c => Cache_MaxSize (Cache c));
    ("security.rate_limit.rps",
     fun c => RateLimit_RPS (Security_RateLimit (Security c)));
    ("security.rate_limit.burst",
     fun c => RateLimit_Burst (Security_RateLimit (Security c)));
    ("metrics.port", fun c => Metrics_Port (Metrics c)) ].

(** The name of the environment variable [Load] makes viper read for a
    key: the prefix BPMS, an underscore and the key, in upper case, with
    the dots replaced. *)
Definition env_name (key : string) : string :=
  Replace (NewReplacer "." "_") (ToUpper ("BPMS" +:+ "_" +:+ key)).

(** What the environment holds for a key: a variable set to the empty
    string counts as unset. *)
Definition env_value (os : OS) (key : string) : option string :=
  match environ os !! env_name key with
  | Some val => if String.eqb val "" then None else Some val
  | None => None
  end.

(** The default [setDefaults] registers for a key. *)
Definition default_of (key : string) : option Value :=
  defaults (setDefaults viper_New) !! key.

(** What the configuration file [Load] reads holds for a key. *)
Definition file_value (os : OS) (key : string) : option Value :=
  match findConfigFile os ["./configs"; "."] with
  | Some (Parsed settings) => settings !! key
  | _ => None
  end.

(** The key has no parent with a variable set in the environment. *)
Definition env_clear (os : OS) (key : string) : Prop :=
  Forall (fun parentKey => env_value os parentKey = None) (parentKeys key).

(** A parent of the key has a variable set in the environment. *)
Definition env_shadowed (os : OS) (key : string) : Prop :=
  Exists (fun parentKey => is_Some (env_value os parentKey)) (parentKeys key).

(** The key has no parent to which the file gives a value of its own. *)
Definition file_clear (os : OS) (key : string) : Prop :=
  Forall (fun parentKey => file_value os parentKey = None) (parentKeys key).

(** The registry [Load] hands to [Unmarshal]. *)
Definition loaded (os : OS) : Viper :=
  snd (ReadInConfig os (configured viper_New)).

End Config.
(* ===================================================================== *)
(** * Package main (cmd/server) *)
(* ===================================================================== *)

Module Server.
Import Config.

(** ** What the handlers use of gin

    gin is not part of the repository.  A handler is a function on the
    request context; [c.JSON] is the one operation the handlers of
    main.go call on it. *)

Inductive JSONValue :=
  | JString (s : string)
  | JTime (t : Z).

(** [gin.H], a map from field names to values. *)
Abbreviation H := (gmap string JSONValue).

Record Request := {
  Method : string;
  URL_Path : string;
  Header : gmap string string;
  Body : string }.

Record ResponseWriter := {
  status : Z;
  written : bool;
  body : list H }.

Record Context := {
  Request_ : Request;
  Writer : ResponseWriter;
  Keys : gmap string string;   (* values set by the middleware *)
  Now : Z }.                   (* what [time.Now] reads *)

Definition HandlerFunc : Type := Context -> Context.

Definition StatusOK : Z := 200.

(** The writer gin hands to the handler chain of a request. *)
Definition freshWriter : ResponseWriter :=
  {| status := StatusOK; written := false; body := [] |}.

Definition newContext (req : Request) (keys : gmap string string) (now : Z)
  : Context :=
  {| Request_ := req; Writer := freshWriter; Keys := keys; Now := now |}.

(** [WriteHeader]: a status can no longer change once the response is
    under way. *)
Definition WriteHeader (code : Z) (w : ResponseWriter) : ResponseWriter :=
  if ((0 <? code)%Z && negb (status w =? code)%Z)%bool then
    if written w then w
    else {| status := code; written := written w; body := body w |}
  else w.

Definition bodyAllowedForStatus (code : Z) : bool :=
  if ((100 <=? code)%Z && (code <=? 199)%Z)%bool then false
  else if (code =? 204)%Z then false
  else if (code =? 304)%Z then false
  else true.

(** [c.JSON(code, obj)] *)
Definition JSON (code : Z) (obj : H) (c : Context) : Context :=
  let w := WriteHeader code (Writer c) in
  let w := {| status := status w; written := true;
              body := if bodyAllowedForStatus code then body w ++ [obj]
                      else body w |} in
  {| Request_ := Request_ c; Writer := w; Keys := Keys c; Now := Now c |}.

(** ** Routes *)

Record Route := {
  route_method : string;
  route_path : string;
  route_handler : HandlerFunc }.

(** The router: its routes in the order of registration. *)
Record Engine := { routes : list Route }.

Record RouterGroup := { basePath : string }.

Definition gin_New : Engine := {| routes := [] |}.

(** The group of the engine itself. *)
Definition root : RouterGroup := {| basePath := "/" |}.

(** gin joins the base path of a group and a relative path with
    [path.Join], which also cleans the result; the literal paths of
    [setupRoutes] are clean as written, so joining is concatenation
    here.  gin refuses a second registration of one method and path; the
    list of routes keeps whatever is registered. *)
Definition joinPaths (absolutePath relativePath : string) : string :=
  if String.eqb relativePath "" then absolutePath
  else
    let rel := if String.prefix "/" relativePath then relativePath
               else "/" +:+ relativePath in
    if String.eqb absolutePath "/" then rel else absolutePath +:+ rel.

Definition Group (g : RouterGroup) (relativePath : string) : RouterGroup :=
  {| basePath := joinPaths (basePath g) relativePath |}.

Definition handle (method : string) (g : RouterGroup) (relativePath : string)
  (h : HandlerFunc) (e : Engine) : Engine :=
  {| routes := routes e ++
       [ {| route_method := method;
            route_path := joinPaths (basePath g) relativePath;
            route_handler := h |} ] |}.

Definition GET := handle "GET".
Definition POST := handle "POST".
Definition PUT := handle "PUT".
Definition DELETE := handle "DELETE".

(** ** The handlers of main.go *)

Definition healthCheck (c : Context) : Context :=
  JSON StatusOK
    (<["status" := JString "healthy"]>
       (<["timestamp" := JTime (Now c)]>
          (<["service" := JString "ai-bpms-backend"]>
             {["version" := JString "1.0.0"]}))) c.

Definition metricsHandler (c : Context) : Context :=
  JSON StatusOK
    {["message" := JString "Metrics endpoint - TODO: Implement Prometheus metrics"]} c.

(** Placeholder handlers *)

Definition loginHandler (c : Context) : Context :=
  JSON StatusOK {["message" := JString "Login endpoint - TODO: Implement"]} c.

Definition logoutHandler (c : Context) : Context :=
  JSON StatusOK {["message" := JString "Logout endpoint - TODO: Implement"]} c.

Definition refreshHandler (c : Context) : Context :=
  JSON StatusOK {["message" := JString "Refresh endpoint - TODO: Implement"]} c.

Definition profileHandler (c : Context) : Context :=
  JSON StatusOK {["message" := JString "Profile endpoint - TODO: Implement"]} c.

Definition listProcesses (c : Context) : Context :=
  JSON StatusOK {["message" := JString "List processes - TODO: Implement"]} c.

Definition createProcess (c : Context) : Context :=
  JSON StatusOK {["message" := JString "Create process - TODO: Implement"]} c.

Definition getProcess (c : Context) : Context :=
  JSON StatusOK {["message" := JString "Get process - TODO: Implement"]} c.

Definition updateProcess (c : Context) : Context :=
  JSON StatusOK {["message" := JString "Update process - TODO: Implement"]} c.

Definition deleteProcess (c : Context) : Context :=
  JSON StatusOK {["message" := JString "Delete process - TODO: Implement"]} c.

Definition listInstances (c : Context) : Context :=
  JSON StatusOK {["message" := JString "List instances - TODO: Implement"]} c.

Definition startInstance (c : Context) : Context :=
  JSON StatusOK {["message" := JString "Start instance - TODO: Implement"]} c.

Definition getInstance (c : Context) : Context :=
  JSON StatusOK {["message" := JString "Get instance - TODO: Implement"]} c.

Definition updateInstance (c : Context) : Context :=
  JSON StatusOK {["message" := JString "Update instance - TODO: Implement"]} c.

Definition cancelInstance (c : Context) : Context :=
  JSON StatusOK {["message" := JString "Cancel instance - TODO: Implement"]} c.

Definition listTasks (c : Context) : Context :=
  JSON StatusOK {["message" := JString "List tasks - TODO: Implement"]} c.

Definition getTask (c : Context) : Context :=
  JSON StatusOK {["message" := JString "Get task - TODO: Implement"]} c.

Definition completeTask (c : Context) : Context :=
  JSON StatusOK {["message" := JString "Complete task - TODO: Implement"]} c.

Definition assignTask (c : Context) : Context :=
  JSON StatusOK {["message" := JString "Assign task - TODO: Implement"]} c.

Definition getFormSchema (c : Context) : Context :=
  JSON StatusOK {["message" := JString "Get form schema - TODO: Implement"]} c.

Definition validateForm (c : Context) : Context :=
  JSON StatusOK {["message" := JString "Validate form - TODO: Implement"]} c.

Definition listRules (c : Context) : Context :=
  JSON StatusOK {["message" := JString "List rules - TODO: Implement"]} c.

Definition createRule (c : Context) : Context :=
  JSON StatusOK {["message" := JString "Create rule - TODO: Implement"]} c.

Definition updateRule (c : Context) : Context :=
  JSON StatusOK {["message" := JString "Update rule - TODO: Implement"]} c.

Definition evaluateRule (c : Context) : Context :=
  JSON StatusOK {["message" := JString "Evaluate rule - TODO: Implement"]} c.

Definition aiGenerateProcess (c : Context) : Context :=
  JSON StatusOK {["message" := JString "AI generate process - TODO: Implement"]} c.

Definition aiGenerateRules (c : Context) : Context :=
  JSON StatusOK {["message" := JString "AI generate rules - TODO: Implement"]} c.

Definition aiOptimizeProcess (c : Context) : Context :=
  JSON StatusOK {["message" := JString "AI optimize process - TODO: Implement"]} c.

Definition getDashboard (c : Context) : Context :=
  JSON StatusOK {["message" := JString "Get dashboard - TODO: Implement"]} c.

Definition getProcessAnalytics (c : Context) : Context :=
  JSON StatusOK {["message" := JString "Get process analytics - TODO: Implement"]} c.

Definition getInstanceAnalytics (c : Context) : Context :=
  JSON StatusOK {["message" := JString "Get instance analytics - TODO: Implement"]} c.

Definition listUsers (c : Context) : Context :=
  JSON StatusOK {["message" := JString "List users - TODO: Implement"]} c.

Definition createUser (c : Context) : Context :=
  JSON StatusOK {["message" := JString "Create user - TODO: Implement"]} c.

Definition updateUser (c : Context) : Context :=
  JSON StatusOK {["message" := JString "Update user - TODO: Implement"]} c.

Definition deleteUser (c : Context) : Context :=
  JSON StatusOK {["message" := JString "Delete user - TODO: Implement"]} c.

Definition updateUserRoles (c : Context) : Context :=
  JSON StatusOK {["message" := JString "Update user roles - TODO: Implement"]} c.

Definition wsNotifications (c : Context) : Context :=
  JSON StatusOK {["message" := JString "WebSocket notifications - TODO: Implement"]} c.

Definition wsTasks (c : Context) : Context :=
  JSON StatusOK {["message" := JString "WebSocket tasks - TODO: Implement"]} c.

(** ** [setupRoutes] *)

Section SetupRoutes.

(** [ginSwagger.WrapHandler(swaggerFiles.Handler)], a handler of the
    swagger library. *)
Variable swaggerHandler : HandlerFunc.

(** The type of the database handle, which [setupRoutes] receives as an
    [interface{}] and does not use. *)
Context {DB : Type}.

Definition setupRoutes (router : Engine) (cfg : Config) (db : DB) : Engine :=
  (* Health check endpoint *)
  let router := GET root "/health" healthCheck router in
  (* Metrics endpoint (if enabled) *)
  let router :=
    if Metrics_Enabled (Metrics cfg)
    then GET root (Metrics_Path (Metrics cfg)) metricsHandler router
    else router in
  (* Swagger documentation *)
  let router := GET root "/swagger/*any" swaggerHandler router in
  (* API v1 routes *)
  let v1 := Group root "/api/v1" in
  (* Authentication routes *)
  let auth := Group v1 "/auth" in
  let router := POST auth "/login" loginHandler router in
  let router := POST auth "/logout" logoutHandler router in
  let router := POST auth "/refresh" refreshHandler router in
  let router := GET auth "/profile" profileHandler router in
  (* Process routes *)
  let processes := Group v1 "/processes" in
  let router := GET processes "" listProcesses router in
  let router := POST processes "" createProcess router in
  let router := GET processes "/:id" getProcess router in
  let router := PUT processes "/:id" updateProcess router in
  let router := DELETE processes "/:id" deleteProcess router in
  (* Process instance routes *)
  let instances := Group v1 "/instances" in
  let router := GET instances "" listInstances router in
  let router := POST instances "" startInstance router in
  let router := GET instances "/:id" getInstance router in
  let router := PUT instances "/:id" updateInstance router in
  let router := DELETE instances "/:id" cancelInstance router in
  (* Task routes *)
  let tasks := Group v1 "/tasks" in
  let router := GET tasks "" listTasks router in
  let router := GET tasks "/:id" getTask router in
  let router := POST tasks "/:id/complete" completeTask router in
  let router := POST tasks "/:id/assign" assignTask router in
  (* Form schema routes *)
  let forms := Group v1 "/forms" in
  let router := GET forms "/schema/:id" getFormSchema router in
  let router := POST forms "/validate" validateForm router in
  (* Business rules routes *)
  let rules := Group v1 "/rules" in
  let router := GET rules "" listRules router in
  let router := POST rules "" createRule router in
  let router := PUT rules "/:id" updateRule router in
  let router := POST rules "/evaluate" evaluateRule router in
  (* AI integration routes *)
  let ai := Group v1 "/ai" in
  let router := POST ai "/process" aiGenerateProcess router in
  let router := POST ai "/rules" aiGenerateRules router in
  let router := POST ai "/optimize" aiOptimizeProcess router in
  (* Analytics routes *)
  let analytics := Group v1 "/analytics" in
  let router := GET analytics "/dashboard" getDashboard router in
  let router := GET analytics "/processes" getProcessAnalytics router in
  let router := GET analytics "/instances" getInstanceAnalytics router in
  (* Admin routes *)
  let admin := Group v1 "/admin" in
  let router := GET admin "/users" listUsers router in
  let router := POST admin "/users" createUser router in
  let router := PUT admin "/users/:id" updateUser router in
  let router := DELETE admin "/users/:id" deleteUser router in
  let router := PUT admin "/users/:id/roles" updateUserRoles router in
  (* WebSocket routes *)
  let router := GET root "/ws/notifications" wsNotifications router in
  let router := GET root "/ws/tasks" wsTasks router in
  router.

End SetupRoutes.

(** ** Reading a response *)

(** [strings.Contains] *)
Fixpoint Contains (s substr : string) : bool :=
  (String.prefix substr s ||
   match s with
   | EmptyString => false
   | String _ s' => Contains s' substr
   end)%bool.

(** A placeholder response: status 200 and a body that is one JSON
    object whose only field is a message carrying the to-do mark. *)
Definition placeholder_response (w : ResponseWriter) : Prop :=
  status w = 200 /\
  exists m : string,
    body w = [ {["message" := JString m]} ] /\
    Contains m "TODO: Implement" = true.

(** A route lies under /api/v1 when its path starts there. *)
Definition under_api_v1 (r : Route) : bool :=
  String.prefix "/api/v1" (route_path r).

(** The part of a context a handler may not touch if it does nothing but
    answer. *)
Definition same_request_state (c c' : Context) : Prop :=
  Request_ c' = Request_ c /\ Keys c' = Keys c /\ Now c' = Now c.

(** A handler that does nothing but answer with one message. *)
Definition stub (m : string) (h : HandlerFunc) : Prop :=
  forall c : Context, h c = JSON StatusOK {["message" := JString m]} c.

(** One registered route: either its path is not under /api/v1, or its
    handler is a stub with the message found in its body. *)
Definition stub_if_under_api_v1 (r : Route) : Prop :=
  under_api_v1 r = true ->
  exists m : string, Contains m "TODO: Implement" = true /\ stub m (route_handler r).

End Server.
(* ===================================================================== *)
(** * Package middleware: the handlers of middleware.go *)
(* ===================================================================== *)

Module Handlers.
Import Config Middleware.

(** ** What the handlers use of net/http

    [http.Header] keeps its values under the canonical form of the key:
    the first letter and every letter after a hyphen in upper case, the
    others in lower case; a key with a byte that no header name may hold
    is left as it is. *)

Definition toLowerAscii (c : ascii) : ascii :=
  let n := nat_of_ascii c in
  if ((65 <=? n) && (n <=? 90))%nat then ascii_of_nat (n + 32) else c.

Definition isLetterOrDigit (c : ascii) : bool :=
  let n := nat_of_ascii c in
  (((48 <=? n) && (n <=? 57)) || ((65 <=? n) && (n <=? 90))
   || ((97 <=? n) && (n <=? 122)))%nat%bool.

(** The token characters of a header name. *)
Definition validHeaderFieldByte (c : ascii) : bool :=
  (isLetterOrDigit c
   || existsb (Ascii.eqb c) (list_ascii_of_string "!#$%&'*+-.^_`|~"))%bool.

Fixpoint allValid (s : string) : bool :=
  match s with
  | EmptyString => true
  | String c s' => (validHeaderFieldByte c && allValid s')%bool
  end.

Fixpoint canonical (upper : bool) (s : string) : string :=
  match s with
  | EmptyString => EmptyString
  | String c s' =>
      String (if upper then toUpperAscii c else toLowerAscii c)
        (canonical (Ascii.eqb c "-") s')
  end.

(** [textproto.CanonicalMIMEHeaderKey] *)
Definition CanonicalMIMEHeaderKey (s : string) : string :=
  if allValid s then canonical true s else s.

(** The header of a response: the values of each key. *)
Abbreviation Header := (gmap string (list string)).

Definition Header_Set (key value : string) (h : Header) : Header :=
  <[CanonicalMIMEHeaderKey key := [value]]> h.

Definition Header_Del (key : string) (h : Header) : Header :=
  delete (CanonicalMIMEHeaderKey key) h.

(** [Header.Get]: the first value of the key, the empty string when
    there is none. *)
Definition Header_Get (key : string) (h : Header) : string :=
  match h !! CanonicalMIMEHeaderKey key with
  | Some (value :: _) => value
  | _ => ""
  end.

(** ** What the handlers use of logrus

    The levels in the order of logrus, the most severe first; a logger
    writes an entry when its level is at least the level of the
    entry. *)

Inductive Level :=
  | PanicLevel | FatalLevel | ErrorLevel | WarnLevel
  | InfoLevel | DebugLevel | TraceLevel.

Definition rank (l : Level) : nat :=
  match l with
  | PanicLevel => 0 | FatalLevel => 1 | ErrorLevel => 2 | WarnLevel => 3
  | InfoLevel => 4 | DebugLevel => 5 | TraceLevel => 6
  end.

Inductive Formatter :=
  | JSONFormatter (TimestampFormat : string)
  | TextFormatter (FullTimestamp : bool).

Inductive Output :=
  | Stderr
  | File (name : string).

Inductive FieldValue :=
  | FInt (n : Z)
  | FString (s : string)
  | FDuration (d : Z).

(** [logrus.Fields] *)
Abbreviation Fields := (gmap string FieldValue).

Record Entry := {
  entry_level : Level;
  entry_message : string;
  entry_fields : Fields }.

Record Logger := {
  level : Level;
  formatter : Formatter;
  out : Output;
  entries : list Entry }.

(** The standard logger at program start. *)
Definition logrus_New : Logger :=
  {| level := InfoLevel; formatter := TextFormatter false; out := Stderr;
     entries := [] |}.

Definition SetLevel (l : Level) (lg : Logger) : Logger :=
  {| level := l; formatter := formatter lg; out := out lg;
     entries := entries lg |}.

Definition SetFormatter (f : Formatter) (lg : Logger) : Logger :=
  {| level := level lg; formatter := f; out := out lg;
     entries := entries lg |}.

Definition SetOutput (o : Output) (lg : Logger) : Logger :=
  {| level := level lg; formatter := formatter lg; out := o;
     entries := entries lg |}.

Definition IsLevelEnabled (l : Level) (lg : Logger) : bool :=
  (rank l <=? rank (level lg))%nat.

(** [logrus.WithFields(fields).Info(message)] *)
Definition WithFields_Info (fields : Fields) (message : string) (lg : Logger)
  : Logger :=
  if IsLevelEnabled InfoLevel lg then
    {| level := level lg; formatter := formatter lg; out := out lg;
       entries := entries lg
                  ++ [ {| entry_level := InfoLevel; entry_message := message;
                          entry_fields := fields |} ] |}
  else lg.

(** ** What the handlers use of gin

    The context of a request: the context the route handlers work on,
    the query string of the URL, the address [c.ClientIP] answers, the
    header of the response, the position in the chain of handlers, the
    identifiers [uuid.New] hands out, call after call, and the standard
    logger. *)

Record FullContext := {
  base : Server.Context;
  rawQuery : string;
  clientIP : string;
  respHeader : Header;
  index : Z;
  uuids : nat -> string;
  drawn : nat;
  logger : Logger }.

(** A handler of the chain.  [c.Next()] runs the handlers that follow
    it in the chain and comes back; the handler is given that run as
    its first argument. *)
Definition MiddlewareFunc : Type :=
  (FullContext -> FullContext) -> FullContext -> FullContext.

Definition set_base (b : Server.Context) (c : FullContext) : FullContext :=
  {| base := b; rawQuery := rawQuery c; clientIP := clientIP c;
     respHeader := respHeader c; index := index c;
     uuids := uuids c; drawn := drawn c; logger := logger c |}.

Definition set_respHeader (h : Header) (c : FullContext) : FullContext :=
  {| base := base c; rawQuery := rawQuery c; clientIP := clientIP c;
     respHeader := h; index := index c;
     uuids := uuids c; drawn := drawn c; logger := logger c |}.

Definition set_index (i : Z) (c : FullContext) : FullContext :=
  {| base := base c; rawQuery := rawQuery c; clientIP := clientIP c;
     respHeader := respHeader c; index := i;
     uuids := uuids c; drawn := drawn c; logger := logger c |}.

Definition set_drawn (n : nat) (c : FullContext) : FullContext :=
  {| base := base c; rawQuery := rawQuery c; clientIP := clientIP c;
     respHeader := respHeader c; index := index c;
     uuids := uuids c; drawn := n; logger := logger c |}.

Definition set_logger (lg : Logger) (c : FullContext) : FullContext :=
  {| base := base c; rawQuery := rawQuery c; clientIP := clientIP c;
     respHeader := respHeader c; index := index c;
     uuids := uuids c; drawn := drawn c; logger := lg |}.

(** [c.Request.Header.Get(key)] *)
Definition Request_Header_Get (key : string) (c : FullContext) : string :=
  default "" (Server.Header (Server.Request_ (base c))
                !! CanonicalMIMEHeaderKey key).

(** [c.Header(key, value)]: an empty value removes the key. *)
Definition Context_Header (key value : string) (c : FullContext) : FullContext :=
  if String.eqb value ""
  then set_respHeader (Header_Del key (respHeader c)) c
  else set_respHeader (Header_Set key value (respHeader c)) c.

(** [c.Set(key, value)] *)
Definition Context_Set (key value : string) (c : FullContext) : FullContext :=
  set_base
    {| Server.Request_ := Server.Request_ (base c);
       Server.Writer := Server.Writer (base c);
       Server.Keys := <[key := value]> (Server.Keys (base c));
       Server.Now := Server.Now (base c) |} c.

Definition abortIndex : Z := 63.

(** [c.Abort()]: the handlers that have not run yet will not run. *)
Definition Abort (c : FullContext) : FullContext := set_index abortIndex c.

Definition IsAborted (c : FullContext) : bool := (abortIndex <=? index c)%Z.

(** [c.Writer.WriteHeaderNow()] *)
Definition WriteHeaderNow (w : Server.ResponseWriter) : Server.ResponseWriter :=
  if Server.written w then w
  else {| Server.status := Server.status w; Server.written := true;
          Server.body := Server.body w |}.

(** [c.AbortWithStatus(code)]: the status, the header written, and the
    chain stopped. *)
Definition AbortWithStatus (code : Z) (c : FullContext) : FullContext :=
  let w := WriteHeaderNow (Server.WriteHeader code (Server.Writer (base c))) in
  Abort
    (set_base
       {| Server.Request_ := Server.Request_ (base c);
          Server.Writer := w;
          Server.Keys := Server.Keys (base c);
          Server.Now := Server.Now (base c) |} c).

(** [uuid.New().String()] *)
Definition uuid_New (c : FullContext) : string * FullContext :=
  (uuids c (drawn c), set_drawn (S (drawn c)) c).

(** [c.GetString(key)] *)
Definition GetString (key : string) (c : FullContext) : string :=
  default "" (Server.Keys (base c) !! key).

(** [gin.Recovery()] answers a panic of the handlers that follow with
    status 500; without a panic they run as they are. *)
Definition Recovery : MiddlewareFunc := fun Next c => Next c.

Definition StatusNoContent : Z := 204.

(** ** middleware.go *)

(** [RequestLogger] logs HTTP requests *)
Definition RequestLogger : MiddlewareFunc := fun Next c =>
  let start := Server.Now (base c) in
  let path := Server.URL_Path (Server.Request_ (base c)) in
  let raw := rawQuery c in
  (* Process request *)
  let c := Next c in
  (* Log request *)
  let end_ := Server.Now (base c) in
  let latency := (end_ - start)%Z in
  let path := if negb (String.eqb raw "") then path +:+ "?" +:+ raw else path in
  set_logger
    (WithFields_Info
       (<["status" := FInt (Server.status (Server.Writer (base c)))]>
          (<["method" := FString (Server.Method (Server.Request_ (base c)))]>
             (<["path" := FString path]>
                (<["ip" := FString (clientIP c)]>
                   (<["user_agent" := FString (Request_Header_Get "User-Agent" c)]>
                      (<["latency" := FDuration latency]>
                         {["request_id" := FString (GetString "request_id" c)]}))))))
       "HTTP Request" (logger c)) c.

(** [CORS] handles Cross-Origin Resource Sharing *)
Definition CORS (corsConfig : CORSConfig) : MiddlewareFunc := fun Next c =>
  let origin := Request_Header_Get "Origin" c in
  (* Check if origin is allowed *)
  let allowed :=
    existsb (fun allowedOrigin =>
               (String.eqb allowedOrigin "*" || String.eqb allowedOrigin origin)%bool)
      (CORS_AllowedOrigins corsConfig) in
  let c := if allowed then Context_Header "Access-Control-Allow-Origin" origin c
           else c in
  (* Set other CORS headers *)
  let c := Context_Header "Access-Control-Allow-Methods"
             (joinStrings (CORS_AllowedMethods corsConfig) ", ") c in
  let c := Context_Header "Access-Control-Allow-Headers"
             (joinStrings (CORS_AllowedHeaders corsConfig) ", ") c in
  let c := Context_Header "Access-Control-Allow-Credentials" "true" c in
  let c := Context_Header "Access-Control-Max-Age" "86400" c in
  (* Handle preflight requests *)
  if String.eqb (Server.Method (Server.Request_ (base c))) "OPTIONS"
  then AbortWithStatus StatusNoContent c
  else Next c.

(** [SecurityHeaders] adds security headers *)
Definition SecurityHeaders : MiddlewareFunc := fun Next c =>
  let c := Context_Header "X-Content-Type-Options" "nosniff" c in
  let c := Context_Header "X-Frame-Options" "DENY" c in
  let c := Context_Header "X-XSS-Protection" "1; mode=block" c in
  let c := Context_Header "Strict-Transport-Security"
             "max-age=31536000; includeSubDomains" c in
  let c := Context_Header "Referrer-Policy" "strict-origin-when-cross-origin" c in
  let c := Context_Header "Content-Security-Policy" "default-src 'self'" c in
  Next c.

(** [RequestID] adds a unique request ID to each request *)
Definition RequestID : MiddlewareFunc := fun Next c =>
  let requestID := Request_Header_Get "X-Request-ID" c in
  let '(requestID, c) :=
    if String.eqb requestID "" then uuid_New c else (requestID, c) in
  let c := Context_Set "request_id" requestID c in
  let c := Context_Header "X-Request-ID" requestID c in
  Next c.

(** [Authentication] middleware (placeholder for now) *)
Definition Authentication : MiddlewareFunc := fun Next c =>
  (* TODO: Implement JWT/OIDC authentication *)
  Next c.

(** [Authorization] middleware (placeholder for now) *)
Definition Authorization (requiredPermissions : list string) : MiddlewareFunc :=
  fun Next c =>
    (* TODO: Implement RBAC authorization *)
    Next c.

(** ** Reading a request and a response *)


Definition is_preflight (c : FullContext) : bool :=
  String.eqb (Server.Method (Server.Request_ (base c))) "OPTIONS".

(** The context [CORS] has built when it comes to look at the method. *)
Definition CORS_headers (corsConfig : CORSConfig) (c : FullContext) : FullContext :=
  let origin := Request_Header_Get "Origin" c in
  let allowed :=
    existsb (fun allowedOrigin =>
               (String.eqb allowedOrigin "*" || String.eqb allowedOrigin origin)%bool)
      (CORS_AllowedOrigins corsConfig) in
  let c := if allowed then Context_Header "Access-Control-Allow-Origin" origin c
           else c in
  let c := Context_Header "Access-Control-Allow-Methods"
             (joinStrings (CORS_AllowedMethods corsConfig) ", ") c in
  let c := Context_Header "Access-Control-Allow-Headers"
             (joinStrings (CORS_AllowedHeaders corsConfig) ", ") c in
  let c := Context_Header "Access-Control-Allow-Credentials" "true" c in
  Context_Header "Access-Control-Max-Age" "86400" c.

(** The identifier [RequestID] gives a request: the one it came with,
    or else the next one of [uuid.New]. *)
Definition request_id (c : FullContext) : string :=
  if String.eqb (Request_Header_Get "X-Request-ID" c) ""
  then uuids c (drawn c)
  else Request_Header_Get "X-Request-ID" c.

(** The six headers of [SecurityHeaders], under their canonical keys. *)
Definition security_headers : list (string * string) :=
  [ ("X-Content-Type-Options", "nosniff");
    ("X-Frame-Options", "DENY");
    ("X-Xss-Protection", "1; mode=block");
    ("Strict-Transport-Security", "max-age=31536000; includeSubDomains");
    ("Referrer-Policy", "strict-origin-when-cross-origin");
    ("Content-Security-Policy", "default-src 'self'") ].

(** What [RequestLogger] writes for a request: the fields of its one
    entry, read from the context [c] it was entered with and the context
    [c'] the rest of the chain came back with. *)
Definition request_entry (c c' : FullContext) : Entry :=
  {| entry_level := InfoLevel; entry_message := "HTTP Request";
     entry_fields :=
       <["status" := FInt (Server.status (Server.Writer (base c')))]>
         (<["method" := FString (Server.Method (Server.Request_ (base c')))]>
            (<["path" :=
                 FString (if String.eqb (rawQuery c) ""
                          then Server.URL_Path (Server.Request_ (base c))
                          else Server.URL_Path (Server.Request_ (base c))
                               +:+ "?" +:+ rawQuery c)]>
               (<["ip" := FString (clientIP c')]>
                  (<["user_agent" := FString (Request_Header_Get "User-Agent" c')]>
                     (<["latency" :=
                          FDuration (Server.Now (base c') - Server.Now (base c))]>
                        {["request_id" :=
                            FString (GetString "request_id" c')]}))))) |}.

End Handlers.

(* ===================================================================== *)
(** * Package main (cmd/server): logging and middleware *)
(* ===================================================================== *)

Module ServerSetup.
Import Config Handlers.

(** [setupLogging].  [openFile] tells whether [os.OpenFile] can open or
    create the file for appending; no logger comes back when
    [log.Fatalf] ends the program. *)
Definition setupLogging (openFile : string -> bool) (cfg : LoggingConfig)
    (lg : Logger) : option Logger :=
  (* Set log level *)
  let lg :=
    if String.eqb (Logging_Level cfg) "debug" then SetLevel DebugLevel lg
    else if String.eqb (Logging_Level cfg) "info" then SetLevel InfoLevel lg
    else if String.eqb (Logging_Level cfg) "warn" then SetLevel WarnLevel lg
    else if String.eqb (Logging_Level cfg) "error" then SetLevel ErrorLevel lg
    else SetLevel InfoLevel lg in
  (* Set log format *)
  let lg :=
    if String.eqb (Logging_Format cfg) "json"
    then SetFormatter (JSONFormatter "2006-01-02T15:04:05Z07:00") lg
    else SetFormatter (TextFormatter true) lg in
  (* Set log output *)
  if (String.eqb (Logging_Output cfg) "file"
      && negb (String.eqb (Logging_File cfg) ""))%bool then
    if openFile (Logging_File cfg)
    then Some (SetOutput (File (Logging_File cfg)) lg)
    else None
  else Some lg.

(** [router.Use(middleware)] *)
Definition Use (middleware : MiddlewareFunc) (handlers : list MiddlewareFunc)
  : list MiddlewareFunc :=
  handlers ++ [middleware].

Section SetupMiddleware.

(** [middleware.RateLimit], built on the limiter of
    golang.org/x/time/rate. *)
Variable RateLimit : RateLimitConfig -> MiddlewareFunc.

(** [setupMiddleware], on the handlers of the router. *)
Definition setupMiddleware (router : list MiddlewareFunc) (cfg : Config)
  : list MiddlewareFunc :=
  (* Recovery middleware *)
  let router := Use Recovery router in
  (* Request logging middleware *)
  let router := Use RequestLogger router in
  (* CORS middleware *)
  let router := Use (CORS (Security_CORS (Security cfg))) router in
  (* Rate limiting middleware *)
  let router :=
    if RateLimit_Enabled (Security_RateLimit (Security cfg))
    then Use (RateLimit (Security_RateLimit (Security cfg))) router
    else router in
  (* Security headers middleware *)
  let router := Use SecurityHeaders router in
  (* Request ID middleware *)
  let router := Use RequestID router in
  router.

End SetupMiddleware.

(** ** Serving a request

    The handlers of a route are the handlers of the router followed by
    the handler of the route.  Every handler of the router calls
    [c.Next()] once or aborts, so that a handler runs inside the call of
    [c.Next()] of the one before it; the handler of the route works on
    the base context and calls nothing. *)

Definition last_handler (h : Server.HandlerFunc) (c : FullContext) : FullContext :=
  set_base (h (base c)) c.

Fixpoint chain (handlers : list MiddlewareFunc) (last : FullContext -> FullContext)
  : FullContext -> FullContext :=
  match handlers with
  | [] => last
  | h :: rest => h (chain rest last)
  end.

Definition serve (handlers : list MiddlewareFunc) (h : Server.HandlerFunc)
  : FullContext -> FullContext :=
  chain handlers (last_handler h).

(** A response that carries the six security headers. *)
Definition has_security_headers (c : FullContext) : Prop :=
  forall k v, In (k, v) security_headers -> respHeader c !! k = Some [v].

End ServerSetup.
(* ===================================================================== *)
(** * Package migration *)
(* ===================================================================== *)

Module Migration.

(** ** The database, as far as the migrator sees it

    gorm and the database server are not part of the repository.  The
    database is the table of migration records (absent until it is
    created), the statements run against the rest of the schema, and a
    script of faults: each call to the database takes the next entry of
    the script and fails when it is [true]; an exhausted script means no
    further fault. *)

Record MigrationRecord := {
  record_Version : string;      (* primary key *)
  record_AppliedAt : Z }.

Inductive Stmt :=
  | SExec (sql : string)
  | SAutoMigrate (models : list string)
  | SDropTable (models : list string)
  | SFirstOrCreate (table name : string).

Record DB := {
  migration_records : option (list MigrationRecord);
  executed : list Stmt;
  faults : list bool;
  clock : Z }.

(** The standard logger: the lines printed so far, each the format and
    its arguments. *)
Record LogLine := Printf { format : string; args : list string }.

Record World := {
  db : DB;
  log : list LogLine }.

Inductive error :=
  | DBError (msg : string)
  | Errorf (format : string) (args : list string) (wrapped : error).

(** A computation that may fail, in a world it may change. *)
Definition M (A : Type) : Type := World -> (error + A) * World.

#[global] Instance M_ret : MRet M := fun A a w => (inr a, w).
#[global] Instance M_bind : MBind M :=
  fun A B f m w =>
    match m w with
    | (inl e, w') => (inl e, w')
    | (inr a, w') => f a w'
    end.

(** [if err := c; err != nil { return fmt.Errorf(format, args..., err) }] *)
Definition wrap {A} (fmt : string) (a : list string) (c : M A) : M A :=
  fun w =>
    match c w with
    | (inl e, w') => (inl (Errorf fmt a e), w')
    | (inr x, w') => (inr x, w')
    end.

Definition log_Printf (fmt : string) (a : list string) : M unit :=
  fun w => (inr tt, {| db := db w; log := log w ++ [Printf fmt a] |}).

Definition log_Println (line : string) : M unit := log_Printf line [].

Definition set_db (d : DB) (w : World) : World :=
  {| db := d; log := log w |}.

(** One call to the database: the next entry of the fault script. *)
Definition db_call {A} (name : string) (body : DB -> (error + A) * DB) : M A :=
  fun w =>
    let d := db w in
    match faults d with
    | true :: rest =>
        (inl (DBError name),
         set_db {| migration_records := migration_records d;
                   executed := executed d; faults := rest;
                   clock := clock d |} w)
    | rest' =>
        let d := {| migration_records := migration_records d;
                    executed := executed d; faults := tl rest';
                    clock := clock d |} in
        let '(r, d') := body d in
        (r, set_db d' w)
    end.

Definition run_stmt (s : Stmt) (d : DB) : (error + unit) * DB :=
  (inr tt, {| migration_records := migration_records d;
              executed := executed d ++ [s]; faults := faults d;
              clock := clock d |}).

Definition db_Exec (sql : string) : M unit :=
  db_call "Exec" (run_stmt (SExec sql)).

(** [AutoMigrate] creates the tables that are missing and keeps the rows
    of those that exist. *)
Definition db_AutoMigrate (models : list string) : M unit :=
  db_call "AutoMigrate" (fun d =>
    let table :=
      if decide ("MigrationRecord" ∈ models)
      then Some (default [] (migration_records d))
      else migration_records d in
    (inr tt, {| migration_records := table;
                executed := executed d ++ [SAutoMigrate models];
                faults := faults d; clock := clock d |})).

Definition db_DropTable (models : list string) : M unit :=
  db_call "DropTable" (run_stmt (SDropTable models)).

Definition db_FirstOrCreate (table name : string) : M unit :=
  db_call "FirstOrCreate" (run_stmt (SFirstOrCreate table name)).

(** [db.Find(&records)] on the table of migration records. *)
Definition db_Find_records : M (list MigrationRecord) :=
  db_call "Find" (fun d =>
    match migration_records d with
    | None => (inl (DBError "relation migration_records does not exist"), d)
    | Some rows => (inr rows, d)
    end).

(** [db.Create(&record)]: the version is the primary key, a second row
    with the same version is refused; the time of creation is filled
    in. *)
Definition db_Create_record (version : string) : M unit :=
  db_call "Create" (fun d =>
    match migration_records d with
    | None => (inl (DBError "relation migration_records does not exist"), d)
    | Some rows =>
        if decide (version ∈ map record_Version rows)
        then (inl (DBError "duplicate key value"), d)
        else (inr tt,
              {| migration_records :=
                   Some (rows ++ [ {| record_Version := version;
                                      record_AppliedAt := clock d |} ])%list;
                 executed := executed d; faults := faults d;
                 clock := clock d |})
    end).

(** [for _, x := range xs { if err := f(x); err != nil { return err } }] *)
Fixpoint for_range {A} (xs : list A) (f : A -> M unit) : M unit :=
  match xs with
  | [] => mret tt
  | x :: rest => _ ← f x; for_range rest f
  end.

(** ** migration.go *)

Record Migration := {
  Version : string;
  Description : string;
  Up : M unit;
  Down : M unit }.

Record Migrator := { migrations : list Migration }.

Definition quote : string := String (ascii_of_nat 34) EmptyString.

(** migration001Up - Initial schema *)
Definition migration001Up : M unit :=
  (* Enable UUID extension *)
  _ ← db_Exec ("CREATE EXTENSION IF NOT EXISTS " +:+ quote +:+ "uuid-ossp" +:+ quote);
  (* Create schemas *)
  let schemas := ["process_engine"; "user_management"; "analytics"; "audit"] in
  _ ← for_range schemas (fun schema =>
        db_Exec ("CREATE SCHEMA IF NOT EXISTS " +:+ schema));
  (* Create base tables *)
  db_AutoMigrate ["User"; "RefreshToken"; "FormSchema"].

Definition migration001Down : M unit :=
  db_DropTable ["RefreshToken"; "FormSchema"; "User"].

(** migration002Up - RBAC system *)
Definition migration002Up : M unit :=
  _ ← db_AutoMigrate ["Permission"; "Role"];
  (* Create default permissions *)
  let permissions :=
    ["process:create"; "process:read"; "process:update"; "process:delete";
     "process:start"; "task:assign"; "task:complete"; "task:view";
     "task:delegate"; "analytics:view"; "analytics:export"; "user:manage";
     "system:config"; "role:manage"] in
  _ ← for_range permissions (fun perm => db_FirstOrCreate "Permission" perm);
  (* Create default roles *)
  let roles :=
    ["admin"; "manager"; "user"; "process-designer"; "analytics-viewer"] in
  _ ← for_range roles (fun role => db_FirstOrCreate "Role" role);
  mret tt.

Definition migration002Down : M unit :=
  db_DropTable ["Role"; "Permission"].

(** migration003Up - Process engine *)
Definition migration003Up : M unit :=
  db_AutoMigrate ["ProcessDefinition"; "ProcessInstance"; "TaskInstance";
                  "BusinessRule"].

Definition migration003Down : M unit :=
  db_DropTable ["BusinessRule"; "TaskInstance"; "ProcessInstance";
                "ProcessDefinition"].

(** migration004Up - Audit system *)
Definition migration004Up : M unit := db_AutoMigrate ["AuditLog"].

Definition migration004Down : M unit := db_DropTable ["AuditLog"].

(** migration005Up - Performance indexes *)
Definition migration005Up : M unit :=
  let indexes :=
    ["CREATE INDEX IF NOT EXISTS idx_users_email ON users(email)";
     "CREATE INDEX IF NOT EXISTS idx_users_is_active ON users(is_active)";
     "CREATE INDEX IF NOT EXISTS idx_process_instances_status ON process_instances(status)";
     "CREATE INDEX IF NOT EXISTS idx_process_instances_started_at ON process_instances(started_at)";
     "CREATE INDEX IF NOT EXISTS idx_task_instances_status ON task_instances(status)";
     "CREATE INDEX IF NOT EXISTS idx_task_instances_assignee_id ON task_instances(assignee_id)";
     "CREATE INDEX IF NOT EXISTS idx_task_instances_due_date ON task_instances(due_date)";
     "CREATE INDEX IF NOT EXISTS idx_audit_logs_timestamp ON audit_logs(timestamp)";
     "CREATE INDEX IF NOT EXISTS idx_audit_logs_user_id ON audit_logs(user_id)";
     "CREATE INDEX IF NOT EXISTS idx_audit_logs_resource ON audit_logs(resource)";
     "CREATE INDEX IF NOT EXISTS idx_refresh_tokens_expires_at ON refresh_tokens(expires_at)";
     "CREATE INDEX IF NOT EXISTS idx_refresh_tokens_user_id ON refresh_tokens(user_id)"] in
  _ ← for_range indexes (fun indexSQL => db_Exec indexSQL);
  mret tt.

Definition migration005Down : M unit :=
  let indexes :=
    ["DROP INDEX IF EXISTS idx_users_email";
     "DROP INDEX IF EXISTS idx_users_is_active";
     "DROP INDEX IF EXISTS idx_process_instances_status";
     "DROP INDEX IF EXISTS idx_process_instances_started_at";
     "DROP INDEX IF EXISTS idx_task_instances_status";
     "DROP INDEX IF EXISTS idx_task_instances_assignee_id";
     "DROP INDEX IF EXISTS idx_task_instances_due_date";
     "DROP INDEX IF EXISTS idx_audit_logs_timestamp";
     "DROP INDEX IF EXISTS idx_audit_logs_user_id";
     "DROP INDEX IF EXISTS idx_audit_logs_resource";
     "DROP INDEX IF EXISTS idx_refresh_tokens_expires_at";
     "DROP INDEX IF EXISTS idx_refresh_tokens_user_id"] in
  _ ← for_range indexes (fun indexSQL => db_Exec indexSQL);
  mret tt.

(** [getMigrations] returns all available migrations *)
Definition getMigrations : list Migration :=
  [ {| Version := "001_initial_schema";
       Description := "Create initial database schema";
       Up := migration001Up; Down := migration001Down |};
    {| Version := "002_rbac_system";
       Description := "Create RBAC (Role-Based Access Control) system";
       Up := migration002Up; Down := migration002Down |};
    {| Version := "003_process_engine";
       Description := "Create process engine tables";
       Up := migration003Up; Down := migration003Down |};
    {| Version := "004_audit_system";
       Description := "Create audit logging system";
       Up := migration004Up; Down := migration004Down |};
    {| Version := "005_indexes_optimization";
       Description := "Add performance indexes";
       Up := migration005Up; Down := migration005Down |} ].

(** [NewMigrator] *)
Definition NewMigrator : Migrator := {| migrations := getMigrations |}.

(** [getAppliedMigrations]: a map of applied migration versions. *)
Definition getAppliedMigrations : M (gmap string bool) :=
  records ← db_Find_records;
  mret (fold_left (fun applied record => <[record_Version record := true]> applied)
          records ∅).

(** Reading a Go map of booleans: a missing key reads [false]. *)
Definition index (applied : gmap string bool) (version : string) : bool :=
  default false (applied !! version).

(** [Migrator.Run] executes all pending migrations. *)
Definition Run (m : Migrator) : M unit :=
  (* Create migration tracking table *)
  _ ← wrap "failed to create migration table: %w" []
        (db_AutoMigrate ["MigrationRecord"]);
  (* Get applied migrations *)
  applied ← wrap "failed to get applied migrations: %w" [] getAppliedMigrations;
  (* Run pending migrations *)
  _ ← for_range (migrations m) (fun migration =>
        if negb (index applied (Version migration)) then
          _ ← log_Printf "Running migration %s: %s"
                [Version migration; Description migration];
          _ ← wrap "migration %s failed: %w" [Version migration] (Up migration);
          (* Record migration as applied *)
          _ ← wrap "failed to record migration %s: %w" [Version migration]
                (db_Create_record (Version migration));
          log_Printf "Migration %s completed successfully" [Version migration]
        else mret tt);
  log_Println "All migrations completed successfully".

(** ** Reading a run *)

(** The versions recorded in the table of migration records. *)
Definition recorded (w : World) : list string :=
  map record_Version (default [] (migration_records (db w))).

(** The versions whose [Up] function was started, in the order of the
    log: one line is printed right before each call. *)
Definition started (l : list LogLine) : list string :=
  omap (fun line =>
          if String.eqb (format line) "Running migration %s: %s"
          then head (args line) else None) l.

(** The migrations of the list that are not yet recorded. *)
Definition pending (w : World) : list string :=
  filter (fun v => v ∉ recorded w) (map Version getMigrations).

Definition with_faults (fs : list bool) (w : World) : World :=
  set_db {| migration_records := migration_records (db w);
            executed := executed (db w); faults := fs;
            clock := clock (db w) |} w.

Definition emptyWorld : World :=
  {| db := {| migration_records := None; executed := []; faults := [];
              clock := 0 |};
     log := [] |}.

(** The body of the loop of [Run]. *)
Definition run_one (applied : gmap string bool) (migration : Migration) : M unit :=
  if negb (index applied (Version migration)) then
    _ ← log_Printf "Running migration %s: %s"
          [Version migration; Description migration];
    _ ← wrap "migration %s failed: %w" [Version migration] (Up migration);
    _ ← wrap "failed to record migration %s: %w" [Version migration]
          (db_Create_record (Version migration));
    log_Printf "Migration %s completed successfully" [Version migration]
  else mret tt.

(** The versions the loop has to apply. *)
Definition todo (applied : gmap string bool) (ms : list Migration) : list string :=
  filter (fun v => index applied v = false) (map Version ms).

(** ** Computations that leave the bookkeeping alone

    The log and the rows of the record table stay as they are, and
    without a fault the computation succeeds. *)

Definition untouched (w w' : World) : Prop :=
  log w' = log w
  /\ (forall rows, migration_records (db w) = Some rows ->
                   migration_records (db w') = Some rows)
  /\ (faults (db w) = [] -> faults (db w') = []).

Definition benign {A} (c : M A) : Prop :=
  forall w r w', c w = (r, w') ->
    untouched w w' /\ (faults (db w) = [] -> exists a, r = inr a).

(** ** [Rollback] *)

(** [ORDER BY applied_at DESC, version]: [First] adds the primary key
    to the order it is given.  A row precedes another when it was
    applied later or, applied in the same second, has the version that
    comes first; versions compare byte by byte. *)
Definition precedes (a b : MigrationRecord) : bool :=
  ((record_AppliedAt b <? record_AppliedAt a)%Z
   || ((record_AppliedAt a =? record_AppliedAt b)%Z
       && String.leb (record_Version a) (record_Version b)))%bool.

Definition first_row (rows : list MigrationRecord) : option MigrationRecord :=
  match rows with
  | [] => None
  | r :: rest =>
      Some (fold_left (fun best r' => if precedes best r' then best else r')
              rest r)
  end.

(** [db.Order("applied_at DESC").First(&lastRecord)]: an empty table
    answers with the error of gorm for no record. *)
Definition db_First_record : M MigrationRecord :=
  db_call "First" (fun d =>
    match migration_records d with
    | None => (inl (DBError "relation migration_records does not exist"), d)
    | Some rows =>
        match first_row rows with
        | None => (inl (DBError "record not found"), d)
        | Some r => (inr r, d)
        end
    end).

(** [db.Delete(&record)] deletes the row with the primary key of the
    record. *)
Definition db_Delete_record (version : string) : M unit :=
  db_call "Delete" (fun d =>
    match migration_records d with
    | None => (inl (DBError "relation migration_records does not exist"), d)
    | Some rows =>
        (inr tt,
         {| migration_records :=
              Some (filter (fun r => record_Version r <> version) rows);
            executed := executed d; faults := faults d; clock := clock d |})
    end).

(** The errors of [Rollback]: an error of the database wrapped with %w,
    or the one made for a recorded version that the list does not
    have. *)
Inductive RollbackError :=
  | Wrapped (err : error)
  | NotFound (format : string) (args : list string).

(** The loop that looks for the migration of a version. *)
Definition find_migration (ms : list Migration) (version : string)
  : option Migration :=
  find (fun migration => String.eqb (Version migration) version) ms.

(** [Migrator.Rollback] rolls back the last migration. *)
Definition Rollback (m : Migrator) (w : World) : (RollbackError + unit) * World :=
  (* Get the last applied migration *)
  match wrap "no migrations to rollback: %w" [] db_First_record w with
  | (inl err, w) => (inl (Wrapped err), w)
  | (inr lastRecord, w) =>
      (* Find the migration *)
      match find_migration (migrations m) (record_Version lastRecord) with
      | None =>
          (inl (NotFound "migration %s not found" [record_Version lastRecord]), w)
      | Some targetMigration =>
          match
            (_ ← log_Printf "Rolling back migration %s: %s"
                   [Version targetMigration; Description targetMigration];
             (* Run the down migration *)
             _ ← wrap "rollback %s failed: %w" [Version targetMigration]
                   (Down targetMigration);
             (* Remove migration record *)
             _ ← wrap "failed to remove migration record %s: %w"
                   [Version targetMigration]
                   (db_Delete_record (record_Version lastRecord));
             log_Printf "Migration %s rolled back successfully"
               [Version targetMigration]) w
          with
          | (inl err, w) => (inl (Wrapped err), w)
          | (inr _, w) => (inr tt, w)
          end
      end
  end.

(** ** Reading what was executed *)

(** The statements a computation sends to the database when nothing
    fails. *)
Definition statements (c : M unit) : list Stmt :=
  executed (db (snd (c emptyWorld))).

(** A statement that removes a part of the schema. *)
Definition is_drop (s : Stmt) : bool :=
  match s with
  | SDropTable _ => true
  | SExec sql => String.prefix "DROP" sql
  | _ => false
  end.

(** The rows of the record table, none when the table is missing. *)
Definition rows_of (w : World) : list MigrationRecord :=
  default [] (migration_records (db w)).

(** On success the statements [l] are added to the executed ones, and
    in any case the log and the record table stay as they are. *)
Definition executes (c : M unit) (l : list Stmt) : Prop :=
  forall w r w', c w = (r, w') ->
    log w' = log w
    /\ migration_records (db w') = migration_records (db w)
    /\ (r = inr tt -> executed (db w') = executed (db w) ++ l).

(** The migrations of the list whose version is not yet recorded, in
    the order of the list. *)
Definition pending_migrations (w : World) : list Migration :=
  filter (fun migration => Version migration ∉ recorded w) getMigrations.

(** The migrations the loop has to apply. *)
Definition todo_migrations (applied : gmap string bool) (ms : list Migration)
  : list Migration :=
  filter (fun migration => index applied (Version migration) = false) ms.

(** The statements of the [Up] functions of the migrations, one
    migration after the other. *)
Definition up_statements (ms : list Migration) : list Stmt :=
  flat_map (fun migration => statements (Up migration)) ms.

(** The steps of [Rollback] once the record and its migration are
    found. *)
Definition undo (m : Migration) (version : string) : M unit :=
  _ ← log_Printf "Rolling back migration %s: %s" [Version m; Description m];
  _ ← wrap "rollback %s failed: %w" [Version m] (Down m);
  _ ← wrap "failed to remove migration record %s: %w" [Version m]
        (db_Delete_record version);
  log_Printf "Migration %s rolled back successfully" [Version m].

(** Whatever its outcome, the computation adds statements to the
    executed ones and none of them removes a part of the schema. *)
Definition never_drops {A} (c : M A) : Prop :=
  forall w r w', c w = (r, w') ->
    exists l, executed (db w') = executed (db w) ++ l
              /\ Forall (fun s => is_drop s = false) l.

End Migration.
(* ===================================================================== *)
(** * The process and task execution engine *)
(* ===================================================================== *)

(** The repository declares the tables of the engine (models.go) and the
    routes in front of it (main.go), whose handlers are placeholders; the
    engine itself is not written.  This module follows the design of the
    specification for the operations settled here: the data model of
    section 3, the routing of the advance algorithm and the cancellation
    of an instance (section 4.3), and the claim of a task (section
    4.4).  Where models.go has a field for an
    attribute, the field keeps its name. *)

Module ProcessEngine.

(** ** Errors (section 7) *)

Inductive Error :=
  | ValidationError (msg : string)
  | NotFoundError
  | EvaluationError (msg : string)
  | UnroutableStepError (step : string)
  | ConflictError
  | ForbiddenError
  | InvalidStateError.

#[global] Instance Error_eq_dec : EqDecision Error.
Proof. solve_decision. Defined.

Definition Result (A : Type) : Type := Error + A.

(** ** Data model (section 3) *)

Inductive Value :=
  | VBool (b : bool)
  | VNum (n : Z)
  | VStr (s : string).

#[global] Instance Value_eq_dec : EqDecision Value.
Proof. solve_decision. Defined.

(** The variable context of an instance: a mapping from names to
    values. *)
Abbreviation Variables := (gmap string Value).

Inductive StepType := TaskStep | GatewayStep | EndStep.

Inductive JoinPolicy := NoJoin | AndJoin | OrJoin.

(** The rule on an edge: an expression, the default (else) mark, or no
    condition at all. *)
Inductive Rule :=
  | When (expression : string)
  | Otherwise
  | Always.

Record Transition := {
  rule : Rule;
  target : string }.

Record Step := {
  step_id : string;
  step_type : StepType;
  is_start : bool;
  transitions : list Transition;   (* in declaration order *)
  join : JoinPolicy;
  step_group : option string }.    (* candidate group of a task step *)

(** Modelled from the spec: the process definition of section 3, with
    its key, its version and its step graph.  models.go declares [Key],
    [Version] and [Variables] and keeps the graph as a BPMN document. *)
Record ProcessDefinition := {
  PD_Key : string;
  PD_Version : nat;
  PD_Steps : list Step;
  PD_Variables : list (string * string) }.   (* declared names and types *)

Inductive InstanceStatus := Running | Completed | Cancelled | Failed.

#[global] Instance InstanceStatus_eq_dec : EqDecision InstanceStatus.
Proof. solve_decision. Defined.

(** Modelled from the spec: the process instance of section 3.
    models.go declares the reference to the definition, [Status],
    [Variables], [StartedAt] and [EndedAt]; the current-step-set and the
    arrival sets of the joins are the specification's. *)
Record ProcessInstance := {
  PI_DefinitionKey : string;
  PI_DefinitionVersion : nat;
  PI_Status : InstanceStatus;
  PI_CurrentSteps : list string;           (* a set: no step twice *)
  PI_Variables : Variables;
  PI_Arrivals : gmap string (list string); (* per join step, who arrived *)
  PI_StartedAt : Z;
  PI_EndedAt : option Z }.

Inductive TaskStatus := Created | Assigned | TaskCompleted | TaskCancelled.

#[global] Instance TaskStatus_eq_dec : EqDecision TaskStatus.
Proof. solve_decision. Defined.

(** Modelled from the spec: the task instance of section 3; the fields
    are those of [TaskInstance] in models.go that the specification
    names. *)
Record TaskInstance := {
  TI_ProcessInstanceID : nat;
  TI_TaskDefinitionKey : string;     (* the step of the task *)
  TI_Status : TaskStatus;
  TI_AssigneeID : option string;
  TI_CandidateGroup : option string;
  TI_FormData : string;
  TI_CreatedAt : Z;
  TI_AssignedAt : option Z;
  TI_CompletedAt : option Z }.

Record LifecycleEvent := {
  event_type : string;
  subject : nat;
  timestamp : Z;
  detail : option Error }.

(** The definitions of a key, oldest first: version [v] is at index
    [v - 1]. *)
Abbreviation Store := (gmap string (list ProcessDefinition)).

(** Instances and tasks are identified by their position. *)
Record State := {
  definitions : Store;
  instances : list ProcessInstance;
  tasks : list TaskInstance;
  outbox : list LifecycleEvent }.

(** ** Steps and sets of steps *)

Definition find_step (d : ProcessDefinition) (id : string) : option Step :=
  List.find (fun s => String.eqb (step_id s) id) (PD_Steps d).

Definition mem (x : string) (l : list string) : bool :=
  existsb (String.eqb x) l.

(** Adding to a set kept as a list. *)
Definition add (x : string) (l : list string) : list string :=
  if mem x l then l else l ++ [x].

Definition remove (x : string) (l : list string) : list string :=
  List.filter (fun y => negb (String.eqb x y)) l.

(** ** Record updates *)

Definition set_instance_fields (status : InstanceStatus) (current : list string)
    (vars : Variables) (arrivals : gmap string (list string))
    (ended : option Z) (i : ProcessInstance) : ProcessInstance :=
  {| PI_DefinitionKey := PI_DefinitionKey i;
     PI_DefinitionVersion := PI_DefinitionVersion i;
     PI_Status := status; PI_CurrentSteps := current; PI_Variables := vars;
     PI_Arrivals := arrivals; PI_StartedAt := PI_StartedAt i;
     PI_EndedAt := ended |}.

Definition set_current (current : list string) (i : ProcessInstance) :=
  set_instance_fields (PI_Status i) current (PI_Variables i) (PI_Arrivals i)
    (PI_EndedAt i) i.

Definition set_arrivals (arrivals : gmap string (list string))
    (i : ProcessInstance) :=
  set_instance_fields (PI_Status i) (PI_CurrentSteps i) (PI_Variables i)
    arrivals (PI_EndedAt i) i.

(** A terminal status, with the time the instance ended. *)
Definition terminate (status : InstanceStatus) (current : list string)
    (now : Z) (i : ProcessInstance) :=
  set_instance_fields status current (PI_Variables i) (PI_Arrivals i)
    (Some now) i.

Definition set_task_fields (status : TaskStatus) (assignee : option string)
    (form : string) (assigned completed : option Z) (t : TaskInstance)
  : TaskInstance :=
  {| TI_ProcessInstanceID := TI_ProcessInstanceID t;
     TI_TaskDefinitionKey := TI_TaskDefinitionKey t;
     TI_Status := status; TI_AssigneeID := assignee;
     TI_CandidateGroup := TI_CandidateGroup t; TI_FormData := form;
     TI_CreatedAt := TI_CreatedAt t; TI_AssignedAt := assigned;
     TI_CompletedAt := completed |}.

Definition put_instance (id : nat) (i : ProcessInstance) (st : State) : State :=
  {| definitions := definitions st; instances := <[id := i]> (instances st);
     tasks := tasks st; outbox := outbox st |}.

Definition put_task (id : nat) (t : TaskInstance) (st : State) : State :=
  {| definitions := definitions st; instances := instances st;
     tasks := <[id := t]> (tasks st); outbox := outbox st |}.

(** Section 4.5: a transition appends its event to the outbox. *)
Definition emit (type : string) (subj : nat) (now : Z) (err : option Error)
    (st : State) : State :=
  {| definitions := definitions st; instances := instances st;
     tasks := tasks st;
     outbox := outbox st ++ [ {| event_type := type; subject := subj;
                                 timestamp := now; detail := err |} ] |}.

Definition is_open (t : TaskInstance) : bool :=
  match TI_Status t with
  | Created | Assigned => true
  | _ => false
  end.

(** ** The advance algorithm at one current step (section 4.3) *)

Section Engine.

(** Modelled from the spec: the Rule Evaluator of section 4.2,
    [evaluate(expression, variableContext)], an interface the engine is
    given; any implementation is admitted. *)
Variable evaluate : string -> Variables -> Result Value.

Inductive Routing :=
  | Take (targets : list string)
  | Unroutable
  | EvalFailed (e : Error).

Definition is_Always (t : Transition) : bool :=
  match rule t with Always => true | _ => false end.

Definition is_Otherwise (t : Transition) : bool :=
  match rule t with Otherwise => true | _ => false end.

(** Modelled from the spec: a parallel gateway, a step with multiple
    outgoing transitions all unconditional. *)
Definition is_parallel (ts : list Transition) : bool :=
  (Nat.ltb 1 (length ts) && forallb is_Always ts)%bool.

(** Modelled from the spec: first-match-wins of the advance algorithm.
    The transitions in declaration order: the first whose rule holds is
    the match; the else transition is not a candidate here. *)
Fixpoint first_match (vars : Variables) (ts : list Transition) : Routing :=
  match ts with
  | [] => Unroutable
  | t :: rest =>
      match rule t with
      | Always => Take [target t]
      | Otherwise => first_match vars rest
      | When e =>
          match evaluate e vars with
          | inl err => EvalFailed err
          | inr (VBool true) => Take [target t]
          | inr _ => first_match vars rest
          end
      end
  end.

Definition default_transition (ts : list Transition) : option string :=
  target <$> List.find is_Otherwise ts.

(** Modelled from the spec: the choice of the outgoing transitions during
    advance.  A parallel gateway takes all its branches; otherwise the
    first match wins, then the default, and without either the step is
    unroutable. *)
Definition route (vars : Variables) (ts : list Transition) : Routing :=
  if is_parallel ts then Take (map target ts)
  else
    match first_match vars ts with
    | Unroutable =>
        match default_transition ts with
        | Some tgt => Take [tgt]
        | None => Unroutable
        end
    | r => r
    end.

(** The steps with a transition into [id]: its declared incoming
    branches. *)
Definition incoming (d : ProcessDefinition) (id : string) : list string :=
  map step_id
    (List.filter (fun s => existsb (fun t => String.eqb (target t) id)
                             (transitions s)) (PD_Steps d)).

(** Modelled from the spec: a branch coming from [src] arrives at [tgt].
    An AND-join is entered when all declared incoming branches have
    arrived, an OR-join on the first arrival, later arrivals being
    discarded; a branch that arrives at an end step ends there, so that
    no step stays current when the instance is through (sections 3 and
    8); any other step is entered at once. *)
Definition arrive (d : ProcessDefinition) (src tgt : string)
    (i : ProcessInstance) : ProcessInstance :=
  match find_step d tgt with
  | Some step =>
      match step_type step, join step with
      | EndStep, _ => i
      | _, AndJoin =>
          let arrived := add src (default [] (PI_Arrivals i !! tgt)) in
          if forallb (fun s => mem s arrived) (incoming d tgt)
          then set_arrivals (delete tgt (PI_Arrivals i))
                 (set_current (add tgt (PI_CurrentSteps i)) i)
          else set_arrivals (<[tgt := arrived]> (PI_Arrivals i)) i
      | _, OrJoin =>
          match PI_Arrivals i !! tgt with
          | None =>
              set_arrivals (<[tgt := [src]]> (PI_Arrivals i))
                (set_current (add tgt (PI_CurrentSteps i)) i)
          | Some _ => i
          end
      | _, NoJoin => set_current (add tgt (PI_CurrentSteps i)) i
      end
  | None => set_current (add tgt (PI_CurrentSteps i)) i
  end.

(** Modelled from the spec: a step transition of advance, leaving [src]
    along the transitions to [targets]. *)
Definition take (d : ProcessDefinition) (src : string) (targets : list string)
    (i : ProcessInstance) : ProcessInstance :=
  fold_left (fun i tgt => arrive d src tgt i) targets
    (set_current (remove src (PI_CurrentSteps i)) i).

(** Modelled from the spec: the failure semantics of advance, a
    terminal status and an event that carries the error. *)
Definition fail_instance (now : Z) (id : nat) (e : Error)
    (i : ProcessInstance) (st : State) : State :=
  emit "instance.failed" id now (Some e)
    (put_instance id (terminate Failed (PI_CurrentSteps i) now i) st).

Definition create_task (now : Z) (id : nat) (step : Step) (st : State) : State :=
  let t := {| TI_ProcessInstanceID := id;
              TI_TaskDefinitionKey := step_id step;
              TI_Status := Created; TI_AssigneeID := None;
              TI_CandidateGroup := step_group step; TI_FormData := "";
              TI_CreatedAt := now; TI_AssignedAt := None;
              TI_CompletedAt := None |} in
  emit "task.created" (length (tasks st)) now None
    {| definitions := definitions st; instances := instances st;
       tasks := tasks st ++ [t]; outbox := outbox st |}.

(** Modelled from the spec: advance at the outgoing transitions of step
    [s]: the routed targets are entered, a routing failure fails the
    instance. *)
Definition leave (now : Z) (d : ProcessDefinition) (id : nat) (s : string)
    (ts : list Transition) (i : ProcessInstance) (st : State) : State :=
  match route (PI_Variables i) ts with
  | Take targets => put_instance id (take d s targets i) st
  | Unroutable => fail_instance now id (UnroutableStepError s) i st
  | EvalFailed e => fail_instance now id e i st
  end.

(** Modelled from the spec: what advance does with one current step [s]
    of a running instance.  For a task step the engine creates a task
    instance and stops advancing the branch; every other step is left
    along its outgoing transitions.  A step the definition does not
    have has no transition to be left along. *)
Definition advance_at (now : Z) (d : ProcessDefinition) (id : nat) (s : string)
    (i : ProcessInstance) (st : State) : State :=
  match find_step d s with
  | None => fail_instance now id (UnroutableStepError s) i st
  | Some step =>
      match step_type step with
      | TaskStep => create_task now id step st
      | _ => leave now d id s (transitions step) i st
      end
  end.

(** ** Reading the routing *)



End Engine.

(** ** Cancellation (section 4.3) *)

Definition cancel_task (now : Z) (id : nat) (t : TaskInstance) : TaskInstance :=
  if (Nat.eqb (TI_ProcessInstanceID t) id && is_open t)%bool
  then set_task_fields TaskCancelled (TI_AssigneeID t) (TI_FormData t)
         (TI_AssignedAt t) (TI_CompletedAt t) t
  else t.

(** Modelled from the spec: [cancel(instanceId)]: a running instance
    becomes cancelled, without a current step, and its open tasks are
    cancelled; on an instance that is terminal already, nothing is done
    and success is returned. *)
Definition cancel (now : Z) (id : nat) (st : State) : Result unit * State :=
  match instances st !! id with
  | None => (inl NotFoundError, st)
  | Some i =>
      match PI_Status i with
      | Running =>
          (inr tt,
           emit "instance.cancelled" id now None
             {| definitions := definitions st;
                instances := <[id := terminate Cancelled [] now i]> (instances st);
                tasks := map (cancel_task now id) (tasks st);
                outbox := outbox st |})
      | _ => (inr tt, st)
      end
  end.

(** ** Task assignment (section 4.4) *)

(** Modelled from the spec: [claim(taskId, userId)]: a created task
    becomes assigned to the claimant; a task another user holds is
    refused with [ConflictError]; the holder may repeat the claim. *)
Definition claim (now : Z) (taskId : nat) (userId : string) (st : State)
  : Result unit * State :=
  match tasks st !! taskId with
  | None => (inl NotFoundError, st)
  | Some t =>
      match TI_Status t with
      | Created =>
          (inr tt,
           emit "task.assigned" taskId now None
             (put_task taskId
                (set_task_fields Assigned (Some userId) (TI_FormData t)
                   (Some now) (TI_CompletedAt t) t) st))
      | Assigned =>
          if decide (TI_AssigneeID t = Some userId) then (inr tt, st)
          else (inl ConflictError, st)
      | _ => (inl InvalidStateError, st)
      end
  end.

End ProcessEngine.
(* ===================================================================== *)
(** * Fixtures *)
(* ===================================================================== *)

(** Concrete requests, databases, environments and tasks on which the
    theorems are instantiated and the definitions are run. *)

Module Fixtures.

(** ** A route and a request *)

Definition loginRoute : Server.Route :=
  {| Server.route_method := "POST";
     Server.route_path := "/api/v1/auth/login";
     Server.route_handler := Server.loginHandler |}.

Definition postRequest (path : string) : Server.Request :=
  {| Server.Method := "POST"; Server.URL_Path := path;
     Server.Header := ∅; Server.Body := "{}" |}.

(** ** Migrations *)

Definition allVersions : list string :=
  ["001_initial_schema"; "002_rbac_system"; "003_process_engine";
   "004_audit_system"; "005_indexes_optimization"].

(** The world a first run leaves behind on an empty database. *)
Definition migratedWorld : Migration.World :=
  Eval vm_compute in snd (Migration.Run Migration.NewMigrator Migration.emptyWorld).

(** ** An evaluator and two processes *)

(** An evaluator for the one expression of the fixtures: it reads the
    variable [approved] and fails when the variable is unknown. *)
Definition sampleEvaluate (e : string) (vars : ProcessEngine.Variables)
  : ProcessEngine.Result ProcessEngine.Value :=
  if String.eqb e "approved==true" then
    match vars !! "approved" with
    | Some (ProcessEngine.VBool b) => inr (ProcessEngine.VBool b)
    | Some _ => inr (ProcessEngine.VBool false)
    | None => inl (ProcessEngine.EvaluationError "unknown variable approved")
    end
  else inl (ProcessEngine.EvaluationError "unknown expression").

Definition mkStep (id : string) (ty : ProcessEngine.StepType) (start : bool)
    (ts : list ProcessEngine.Transition) : ProcessEngine.Step :=
  {| ProcessEngine.step_id := id; ProcessEngine.step_type := ty;
     ProcessEngine.is_start := start; ProcessEngine.transitions := ts;
     ProcessEngine.join := ProcessEngine.NoJoin;
     ProcessEngine.step_group := None |}.

Definition edge (r : ProcessEngine.Rule) (tgt : string) : ProcessEngine.Transition :=
  {| ProcessEngine.rule := r; ProcessEngine.target := tgt |}.

Definition decideStep : ProcessEngine.Step :=
  mkStep "decide" ProcessEngine.GatewayStep false
    [edge (ProcessEngine.When "approved==true") "end_approved";
     edge ProcessEngine.Otherwise "end_rejected"].


(** A fork into two tasks that meet at the end. *)
Definition forkStep : ProcessEngine.Step :=
  mkStep "fork" ProcessEngine.GatewayStep true
    [edge ProcessEngine.Always "a"; edge ProcessEngine.Always "b"].

Definition forkProcess : ProcessEngine.ProcessDefinition :=
  {| ProcessEngine.PD_Key := "fork"; ProcessEngine.PD_Version := 1;
     ProcessEngine.PD_Steps :=
       [ forkStep;
         mkStep "a" ProcessEngine.TaskStep false [edge ProcessEngine.Always "done"];
         mkStep "b" ProcessEngine.TaskStep false [edge ProcessEngine.Always "done"];
         mkStep "done" ProcessEngine.EndStep false [] ];
     ProcessEngine.PD_Variables := [] |}.

Definition runningAt (key : string) (s : string) (vars : ProcessEngine.Variables)
  : ProcessEngine.ProcessInstance :=
  {| ProcessEngine.PI_DefinitionKey := key;
     ProcessEngine.PI_DefinitionVersion := 1;
     ProcessEngine.PI_Status := ProcessEngine.Running;
     ProcessEngine.PI_CurrentSteps := [s];
     ProcessEngine.PI_Variables := vars;
     ProcessEngine.PI_Arrivals := ∅;
     ProcessEngine.PI_StartedAt := 1;
     ProcessEngine.PI_EndedAt := None |}.

Definition stateOf (d : ProcessEngine.ProcessDefinition)
    (i : ProcessEngine.ProcessInstance) : ProcessEngine.State :=
  {| ProcessEngine.definitions := {[ProcessEngine.PD_Key d := [d]]};
     ProcessEngine.instances := [i];
     ProcessEngine.tasks := []; ProcessEngine.outbox := [] |}.

Definition atFork := runningAt "fork" "fork" ∅.


(** An instance whose review left no valid approval: the gateway has no
    else transition. *)
Definition strictStep : ProcessEngine.Step :=
  mkStep "strict" ProcessEngine.GatewayStep true
    [edge (ProcessEngine.When "approved==true") "end_approved"].

Definition strictProcess : ProcessEngine.ProcessDefinition :=
  {| ProcessEngine.PD_Key := "strict"; ProcessEngine.PD_Version := 1;
     ProcessEngine.PD_Steps :=
       [ strictStep; mkStep "end_approved" ProcessEngine.EndStep false [] ];
     ProcessEngine.PD_Variables := [("approved", "bool")] |}.

Definition atStrict :=
  runningAt "strict" "strict" {["approved" := ProcessEngine.VBool false]}.

(** ** A task and an instance of the engine *)

Definition createdTask : ProcessEngine.TaskInstance :=
  {| ProcessEngine.TI_ProcessInstanceID := 0;
     ProcessEngine.TI_TaskDefinitionKey := "manager-review";
     ProcessEngine.TI_Status := ProcessEngine.Created;
     ProcessEngine.TI_AssigneeID := None;
     ProcessEngine.TI_CandidateGroup := None;
     ProcessEngine.TI_FormData := "";
     ProcessEngine.TI_CreatedAt := 1;
     ProcessEngine.TI_AssignedAt := None;
     ProcessEngine.TI_CompletedAt := None |}.

Definition oneTask : ProcessEngine.State :=
  {| ProcessEngine.definitions := ∅; ProcessEngine.instances := [];
     ProcessEngine.tasks := [createdTask]; ProcessEngine.outbox := [] |}.

Definition completedInstance : ProcessEngine.ProcessInstance :=
  {| ProcessEngine.PI_DefinitionKey := "leave-approval";
     ProcessEngine.PI_DefinitionVersion := 1;
     ProcessEngine.PI_Status := ProcessEngine.Completed;
     ProcessEngine.PI_CurrentSteps := [];
     ProcessEngine.PI_Variables := {["approved" := ProcessEngine.VBool true]};
     ProcessEngine.PI_Arrivals := ∅;
     ProcessEngine.PI_StartedAt := 1;
     ProcessEngine.PI_EndedAt := Some 3 |}.

Definition oneCompleted : ProcessEngine.State :=
  {| ProcessEngine.definitions := ∅;
     ProcessEngine.instances := [completedInstance];
     ProcessEngine.tasks := []; ProcessEngine.outbox := [] |}.

(** ** Rollbacks *)

(** The world a rollback leaves behind after the first run. *)
Definition rolledBackWorld : Migration.World :=
  Eval vm_compute in
    snd (Migration.Rollback Migration.NewMigrator migratedWorld).

(** A table whose latest row records a version that the list of
    migrations does not have. *)
Definition futureRecord : Migration.MigrationRecord :=
  {| Migration.record_Version := "006_reports";
     Migration.record_AppliedAt := 5 |}.

Definition futureWorld : Migration.World :=
  {| Migration.db :=
       {| Migration.migration_records :=
            Some (Migration.rows_of migratedWorld ++ [futureRecord]);
          Migration.executed := []; Migration.faults := [];
          Migration.clock := 5 |};
     Migration.log := [] |}.

(** The first run again, with a database that fails the second call of
    the rollback, the one of [Down]. *)
Definition faultyWorld : Migration.World :=
  Migration.with_faults [false; true] migratedWorld.

Definition faultyRollback : Migration.RollbackError * Migration.World :=
  Eval vm_compute in
    match Migration.Rollback Migration.NewMigrator faultyWorld with
    | (inl e, w) => (e, w)
    | (inr _, w) => (Migration.NotFound "" [], w)
    end.

(** A first run that a fault stops in the fourth migration. *)
Definition stoppedRun : (Migration.error + unit) * Migration.World :=
  Eval vm_compute in
    Migration.Run Migration.NewMigrator
      (Migration.with_faults (repeat false 32 ++ [true]) Migration.emptyWorld).

(** The run that follows the rollback. *)
Definition reappliedWorld : Migration.World :=
  Eval vm_compute in
    snd (Migration.Run Migration.NewMigrator
           (Migration.with_faults [] rolledBackWorld)).

(** ** A configured environment *)

(** A configuration file in the working directory and three variables
    of the environment. *)
Definition sampleOS : Config.OS :=
  {| Config.files := fun p =>
       if String.eqb p "." then
         Some (Config.Parsed
                 (<["database.user" := Config.VString "svc"]>
                    {["database.host" := Config.VString "file-host"]}))
       else None;
     Config.environ :=
       <["BPMS_DATABASE_HOST" := "db.internal"]>
         (<["BPMS_SERVER_PORT" := "9000"]>
            {["BPMS_SECURITY_ENCRYPTION_KEY" := "0123456789abcdef"]}) |}.

(** What [Load] returns there. *)
Definition sampleConfig : Config.Config :=
  Eval vm_compute in
    default Config.defaultConfig
      (fst (fst (Config.Load Config.plainParseInt Config.plainParseDuration
                   sampleOS Config.viper_New))).

(** No file, and a variable set for the section of the server. *)
Definition shadowOS : Config.OS :=
  {| Config.files := fun _ => None;
     Config.environ := {["BPMS_SERVER" := "x"]} |}.

Definition shadowConfig : Config.Config :=
  Eval vm_compute in
    default Config.defaultConfig
      (fst (fst (Config.Load Config.plainParseInt Config.plainParseDuration
                   shadowOS Config.viper_New))).

(** A table whose two rows were applied one second apart. *)
Definition laterRecord : Migration.MigrationRecord :=
  {| Migration.record_Version := "002_rbac_system";
     Migration.record_AppliedAt := 2 |}.

Definition stagedWorld : Migration.World :=
  {| Migration.db :=
       {| Migration.migration_records :=
            Some [ {| Migration.record_Version := "001_initial_schema";
                      Migration.record_AppliedAt := 1 |};
                   laterRecord ];
          Migration.executed := []; Migration.faults := [];
          Migration.clock := 3 |};
     Migration.log := [] |}.

Definition stagedRollback : Migration.World :=
  Eval vm_compute in
    snd (Migration.Rollback Migration.NewMigrator stagedWorld).

(** ** Requests through the middleware *)

Definition uuidSource (n : nat) : string :=
  "6ba7b810-9dad-11d1-80b4-00c04fd430c8".

Definition requestContext (method : string) : Handlers.FullContext :=
  {| Handlers.base :=
       Server.newContext
         {| Server.Method := method; Server.URL_Path := "/api/v1/tasks";
            Server.Header := {["Origin" := "https://app.example"]};
            Server.Body := "" |} ∅ 0;
     Handlers.rawQuery := "status=open"; Handlers.clientIP := "203.0.113.7";
     Handlers.respHeader := ∅; Handlers.index := 0;
     Handlers.uuids := uuidSource; Handlers.drawn := 0;
     Handlers.logger := Handlers.logrus_New |}.

(** ** Logging and rate limiting *)

Definition warnLogging : Config.LoggingConfig :=
  {| Config.Logging_Level := "warn"; Config.Logging_Format := "json";
     Config.Logging_Output := "stdout"; Config.Logging_File := "" |}.

(** The logger [setupLogging] leaves for it. *)
Definition warnLogger : Handlers.Logger :=
  Eval vm_compute in
    default Handlers.logrus_New
      (ServerSetup.setupLogging (fun _ => true) warnLogging Handlers.logrus_New).

Definition quietContext : Handlers.FullContext :=
  Handlers.set_logger warnLogger (requestContext "GET").

(** The defaults with rate limiting switched off. *)
Definition noLimitConfig : Config.Config :=
  {| Config.Server := Config.Server Config.defaultConfig;
     Config.Database := Config.Database Config.defaultConfig;
     Config.Auth := Config.Auth Config.defaultConfig;
     Config.NATS := Config.NATS Config.defaultConfig;
     Config.Redis := Config.Redis Config.defaultConfig;
     Config.AI := Config.AI Config.defaultConfig;
     Config.Logging := Config.Logging Config.defaultConfig;
     Config.Cache := Config.Cache Config.defaultConfig;
     Config.Security :=
       {| Config.Security_RateLimit :=
            {| Config.RateLimit_Enabled := false;
               Config.RateLimit_RPS := 100; Config.RateLimit_Burst := 200 |};
          Config.Security_CORS :=
            Config.Security_CORS (Config.Security Config.defaultConfig);
          Config.Security_Encryption :=
            Config.Security_Encryption (Config.Security Config.defaultConfig) |};
     Config.Metrics := Config.Metrics Config.defaultConfig |}.

(** A rate limiter that lets every request pass. *)
Definition openLimiter (cfg : Config.RateLimitConfig) : Handlers.MiddlewareFunc :=
  fun Next c => Next c.

End Fixtures.
(* ===================================================================== *)
(** * Theorems *)
(* ===================================================================== *)

Import Fixtures.

Section MiddlewareFacts.
Import Middleware.

Lemma string_app_assoc (a b c : string) : (a +:+ b) +:+ c = a +:+ (b +:+ c).
Proof. induction a as [|x a IH]; [done | exact (f_equal (String x) IH)]. Qed.

(** The accumulating loop of [joinStrings], started from any prefix. *)
Lemma joinStrings_loop (rest : list string) (sep acc : string) :
  fold_left (fun result s => result +:+ (sep +:+ s)) rest acc
  = match rest with
    | [] => acc
    | _ :: _ => acc +:+ sep +:+ strings_Join rest sep
    end.
Proof.
  revert acc. induction rest as [|s rest IH]; intros acc; [done |].
  simpl fold_left. rewrite IH.
  destruct rest as [|s' rest].
  - simpl. done.
  - cbn [strings_Join]. by rewrite !string_app_assoc.
Qed.

(** C10: [joinStrings] agrees with the reference [strings.Join] on every
    slice and every separator: the empty string for the empty slice, and
    otherwise the elements in order with the separator between each
    adjacent pair. *)
Theorem joinStrings_refines_strings_Join (strs : list string) (sep : string) :
  joinStrings strs sep = strings_Join strs sep.
Proof.
  destruct strs as [|s0 rest]; [done |].
  unfold joinStrings. rewrite joinStrings_loop.
  destruct rest; done.
Qed.

Example joinStrings_abc : joinStrings ["a"; "b"; "c"] ", " = "a, b, c".
Proof. reflexivity. Qed.

End MiddlewareFacts.
Section ConfigFacts.
Import Config.

Variable ParseInt : string -> option Z.
Variable ParseDuration : string -> option Z.

Lemma replace_dot_cons (c : ascii) (s : string) :
  c <> "."%char ->
  replace_from "." "_" 0 (String c s) = String c (replace_from "." "_" 0 s).
Proof.
  intros Hc. cbn [replace_from]. cbn [String.eqb negb andb String.prefix].
  destruct (ascii_dec "." c) as [E|_]; [by subst | done].
Qed.

(** With prefix BPMS, the name looked up for a key starts with BPMS_. *)
Lemma env_name_prefix (key : string) :
  String.prefix "BPMS_"
    (Replace (NewReplacer "." "_") (ToUpper ("BPMS" +:+ "_" +:+ key))) = true.
Proof.
  unfold Replace. cbn [r_old r_new].
  change (ToUpper ("BPMS" +:+ "_" +:+ key)) with
    (String "B" (String "P" (String "M" (String "S" (String "_" (ToUpper key)))))).
  rewrite !replace_dot_cons by discriminate. simpl.
  by destruct (replace_from "." "_" 0 (ToUpper key)).
Qed.

Lemma getEnv_without_env (os : OS) (v : Viper) (key : string) :
  no_BPMS_variable os ->
  envPrefix v = "BPMS" ->
  envKeyReplacer v = Some (NewReplacer "." "_") ->
  getEnv os v (mergeWithEnvPrefix v key) = None.
Proof.
  intros Henv Hp Hr. unfold getEnv, mergeWithEnvPrefix.
  rewrite Hp, Hr. cbn [String.eqb Ascii.eqb Bool.eqb].
  by rewrite (Henv _ (env_name_prefix key)).
Qed.

Lemma shadowedInAutoEnv_without_env (os : OS) (v : Viper) (parents : list string) :
  no_BPMS_variable os ->
  envPrefix v = "BPMS" ->
  envKeyReplacer v = Some (NewReplacer "." "_") ->
  shadowedInAutoEnv os v parents = "".
Proof.
  intros Henv Hp Hr. induction parents as [|p parents IH]; [done |].
  cbn [shadowedInAutoEnv]. by rewrite (getEnv_without_env os v p Henv Hp Hr).
Qed.

Lemma Get_without_env (os : OS) (v : Viper) (key : string) :
  no_BPMS_variable os ->
  envPrefix v = "BPMS" ->
  envKeyReplacer v = Some (NewReplacer "." "_") ->
  Get os v key = match config v !! key with
                 | Some val => Some val
                 | None =>
                     if String.eqb (isPathShadowedInDeepMap (config v) key) ""
                     then defaults v !! key
                     else None
                 end.
Proof.
  intros Henv Hp Hr. unfold Get, isPathShadowedInAutoEnv.
  destruct (automaticEnvApplied v); [| done].
  rewrite (getEnv_without_env os v key Henv Hp Hr).
  by rewrite (shadowedInAutoEnv_without_env os v _ Henv Hp Hr).
Qed.

Lemma bareOS_no_BPMS_variable : no_BPMS_variable bareOS.
Proof. intros name _. apply lookup_empty. Qed.

Lemma setting_without_env (os : OS) (v : Viper) (key : string) :
  no_BPMS_variable os ->
  envPrefix v = "BPMS" ->
  envKeyReplacer v = Some (NewReplacer "." "_") ->
  setting os v key = setting bareOS v key.
Proof.
  intros Henv Hp Hr. unfold setting.
  rewrite (Get_without_env os v key Henv Hp Hr).
  by rewrite (Get_without_env bareOS v key bareOS_no_BPMS_variable Hp Hr).
Qed.

(** Decoding reads the environment only through [setting]. *)
Lemma Unmarshal_without_env (os : OS) (v : Viper) :
  no_BPMS_variable os ->
  envPrefix v = "BPMS" ->
  envKeyReplacer v = Some (NewReplacer "." "_") ->
  Unmarshal ParseInt ParseDuration os v = Unmarshal ParseInt ParseDuration bareOS v.
Proof.
  intros Henv Hp Hr.
  unfold Unmarshal, unmarshalServer, unmarshalTLS, unmarshalDatabase,
    unmarshalAuth, unmarshalJWT, unmarshalKeycloak, unmarshalOIDC,
    unmarshalBuiltIn, unmarshalAuthSecurity, unmarshalNATS, unmarshalRedis,
    unmarshalAI, unmarshalLogging, unmarshalCache, unmarshalSecurity,
    unmarshalMetrics, str, int, bool_, dur, strs.
  by rewrite !(fun key => setting_without_env os v key Henv Hp Hr).
Qed.

Lemma configPaths_configured :
  configPaths (configured viper_New) = ["./configs"; "."].
Proof. reflexivity. Qed.

(** [Load] in terms of its two fallible steps. *)
Lemma Load_unfold (os : OS) :
  Load ParseInt ParseDuration os viper_New =
  let '(err, v) := ReadInConfig os (configured viper_New) in
  match (match err with
         | Some e => if is_ConfigFileNotFoundError e then None else Some e
         | None => None
         end) with
  | Some e => ((None, Some (Errorf "failed to read config file: %w" e)), v)
  | None =>
      match Unmarshal ParseInt ParseDuration os v with
      | inl e => ((None, Some (Errorf "failed to unmarshal config: %w" e)), v)
      | inr config => ((Some config, None), v)
      end
  end.
Proof. reflexivity. Qed.

Lemma ReadInConfig_no_file (os : OS) :
  no_config_file os ->
  ReadInConfig os (configured viper_New)
  = (Some (ConfigFileNotFoundError "config" ["./configs"; "."]),
     configured viper_New).
Proof.
  intros [H1 H2]. unfold ReadInConfig. rewrite configPaths_configured.
  cbn [findConfigFile]. by rewrite H1, H2.
Qed.

Lemma Unmarshal_defaults :
  (forall s d, In (s, d) default_durations -> ParseDuration s = Some d) ->
  Unmarshal ParseInt ParseDuration bareOS (configured viper_New)
  = inr defaultConfig.
Proof.
  intros Hdur.
  pose proof (Hdur "30s" _ ltac:(vm_compute; tauto)) as H30s.
  pose proof (Hdur "60s" _ ltac:(vm_compute; tauto)) as H60s.
  pose proof (Hdur "5m" _ ltac:(vm_compute; tauto)) as H5m.
  pose proof (Hdur "15m" _ ltac:(vm_compute; tauto)) as H15m.
  pose proof (Hdur "168h" _ ltac:(vm_compute; tauto)) as H168h.
  pose proof (Hdur "4h" _ ltac:(vm_compute; tauto)) as H4h.
  pose proof (Hdur "1h" _ ltac:(vm_compute; tauto)) as H1h.
  pose proof (Hdur "10m" _ ltac:(vm_compute; tauto)) as H10m.
  vm_compute.
  rewrite H30s, H60s, H5m, H15m, H168h, H4h, H1h, H10m.
  reflexivity.
Qed.

(** C9: without a configuration file on the search path and without
    BPMS_ variables, [Load] returns a nil error and the configuration of
    the hard-coded defaults.  A missing file is no error: what [Load]
    returns is then what decoding returns.  A file that cannot be read
    or parsed, and a decoding failure, both yield a nil configuration
    and a non-nil error; configuration and error are never both nil or
    both non-nil. *)
Theorem Load_defaults_and_failures (os : OS) :
  (forall s d, In (s, d) default_durations -> ParseDuration s = Some d) ->
  let load := fst (Load ParseInt ParseDuration os viper_New) in
  (no_config_file os -> no_BPMS_variable os ->
     load = (Some defaultConfig, None))
  /\ (no_config_file os ->
      forall c, Unmarshal ParseInt ParseDuration os (configured viper_New) = inr c ->
      load = (Some c, None))
  /\ (forall msg,
      findConfigFile os ["./configs"; "."] = Some (Unreadable msg) ->
      load = (None, Some (Errorf "failed to read config file: %w"
                            (ConfigReadError msg))))
  /\ (forall e,
      (forall msg, findConfigFile os ["./configs"; "."] <> Some (Unreadable msg)) ->
      Unmarshal ParseInt ParseDuration os
        (snd (ReadInConfig os (configured viper_New))) = inl e ->
      load = (None, Some (Errorf "failed to unmarshal config: %w" e)))
  /\ ((exists c, load = (Some c, None)) \/ (exists e, load = (None, Some e))).
Proof.
  intros Hdur load. subst load. rewrite Load_unfold.
  split; [| split; [| split; [| split]]].
  - intros Hfile Henv. rewrite (ReadInConfig_no_file os Hfile).
    cbn [is_ConfigFileNotFoundError].
    rewrite (Unmarshal_without_env os (configured viper_New) Henv eq_refl eq_refl).
    by rewrite (Unmarshal_defaults Hdur).
  - intros Hfile c Hc. rewrite (ReadInConfig_no_file os Hfile).
    cbn [is_ConfigFileNotFoundError]. by rewrite Hc.
  - intros msg Hmsg. unfold ReadInConfig.
    rewrite configPaths_configured, Hmsg. done.
  - intros e Hfile He. revert He. unfold ReadInConfig.
    rewrite configPaths_configured.
    destruct (findConfigFile os _) as [[settings|msg]|] eqn:Hfind.
    + cbn [snd fst]. by intros ->.
    + by destruct (Hfile msg).
    + cbn [snd fst is_ConfigFileNotFoundError]. by intros ->.
  - unfold ReadInConfig.
    destruct (findConfigFile os _) as [[settings|msg]|].
    + destruct (Unmarshal _ _ _ _); [right | left]; eauto.
    + right. eauto.
    + cbn [is_ConfigFileNotFoundError].
      destruct (Unmarshal _ _ _ _); [right | left]; eauto.
Qed.

End ConfigFacts.

Lemma plainParseDuration_defaults (s : string) (d : Z) :
  In (s, d) Config.default_durations -> Config.plainParseDuration s = Some d.
Proof.
  intros H. repeat (destruct H as [H|H]; [by inversion H |]). destruct H.
Qed.

Lemma Load_defaults_and_failures_witness :
  fst (Config.Load Config.plainParseInt Config.plainParseDuration
         Config.bareOS Config.viper_New)
  = (Some Config.defaultConfig, None).
Proof.
  refine (proj1 (Load_defaults_and_failures Config.plainParseInt
                   Config.plainParseDuration Config.bareOS
                   plainParseDuration_defaults) _ _).
  - split; reflexivity.
  - intros name _. apply lookup_empty.
Defined.

(** A file that sets the port to a list makes decoding fail, and [Load]
    returns no configuration. *)
Example Load_unmarshal_failure :
  fst (Config.Load Config.plainParseInt Config.plainParseDuration
         {| Config.files := fun p =>
              if String.eqb p "." then
                Some (Config.Parsed {["server.port" := Config.VStrings ["a"]]})
              else None;
            Config.environ := ∅ |}
         Config.viper_New)
  = (None, Some (Config.Errorf "failed to unmarshal config: %w"
                   (Config.DecodeError "server.port"))).
Proof. vm_compute. reflexivity. Qed.

(** A variable of the environment overrides the default. *)
Example Load_env_override :
  (Config.Server_Port ∘ Config.Server) <$>
  fst (fst (Config.Load Config.plainParseInt Config.plainParseDuration
         {| Config.files := fun _ => None;
            Config.environ := {["BPMS_SERVER_PORT" := "9000"]} |}
         Config.viper_New))
  = Some 9000%Z.
Proof. vm_compute. reflexivity. Qed.
Section ServerFacts.
Import Config Server.

Lemma JSON_fresh (obj : H) (req : Request) (keys : gmap string string) (now : Z) :
  JSON StatusOK obj (newContext req keys now)
  = {| Request_ := req;
       Writer := {| status := 200; written := true; body := [obj] |};
       Keys := keys; Now := now |}.
Proof. reflexivity. Qed.

Lemma JSON_same_request_state (code : Z) (obj : H) (c : Context) :
  same_request_state c (JSON code obj c).
Proof. by repeat split. Qed.

Lemma stub_placeholder (m : string) (h : HandlerFunc) :
  stub m h ->
  Contains m "TODO: Implement" = true ->
  forall req keys now,
    placeholder_response (Writer (h (newContext req keys now)))
    /\ same_request_state (newContext req keys now) (h (newContext req keys now)).
Proof.
  intros Hh Hm req keys now. rewrite Hh. split.
  - rewrite JSON_fresh. split; [done |]. exists m. by split.
  - apply JSON_same_request_state.
Qed.

(** The message a placeholder handler answers with, read off its body. *)
Ltac handler_message h k :=
  let b := eval cbv delta [h] beta in h in
  lazymatch b with
  | (fun c => JSON _ {[ _ := JString ?m ]} c) => k m
  end.

Ltac route_case :=
  intros Hp;
  first
    [ vm_compute in Hp; discriminate Hp
    | clear Hp; cbn [route_handler];
      lazymatch goal with
      | |- exists m, _ /\ stub m ?h => handler_message h ltac:(fun m => exists m)
      end;
      split; [vm_compute; reflexivity | intros c; reflexivity] ].

Lemma setupRoutes_stubs (swaggerHandler : HandlerFunc) (DB : Type)
    (cfg : Config) (db : DB) :
  Forall stub_if_under_api_v1 (routes (setupRoutes swaggerHandler gin_New cfg db)).
Proof.
  unfold setupRoutes.
  destruct (Metrics_Enabled (Metrics cfg));
    cbv [GET POST PUT DELETE handle Group root routes gin_New basePath app];
    repeat (apply List.Forall_cons; [unfold stub_if_under_api_v1, under_api_v1; route_case |]);
    apply List.Forall_nil.
Qed.

(** C1: every route that [setupRoutes] registers with a path under
    /api/v1 is bound to a placeholder: there is a fixed message with the
    to-do mark such that the handler, on any context, does nothing but
    [c.JSON(200, {"message": m})].  On any request this answers status
    200 with a body holding only that message, and leaves the request,
    the keys and the clock as they were: no workflow, rule, scheduling or
    authentication step is taken. *)
Theorem api_v1_handlers_are_placeholders (swaggerHandler : HandlerFunc)
    (DB : Type) (cfg : Config) (db : DB) (r : Route) :
  In r (routes (setupRoutes swaggerHandler gin_New cfg db)) ->
  under_api_v1 r = true ->
  exists m : string,
    (Contains m "TODO: Implement" = true /\ stub m (route_handler r))
    /\ forall req keys now,
         placeholder_response
           (Writer (route_handler r (newContext req keys now)))
         /\ same_request_state (newContext req keys now)
              (route_handler r (newContext req keys now)).
Proof.
  intros Hin Hp.
  pose proof (setupRoutes_stubs swaggerHandler DB cfg db) as Hall.
  rewrite List.Forall_forall in Hall.
  destruct (Hall r Hin Hp) as (m & Hm & Hs).
  exists m. exact (conj (conj Hm Hs) (stub_placeholder m _ Hs Hm)).
Qed.

End ServerFacts.

Lemma api_v1_handlers_are_placeholders_witness :
  exists m : string,
    (Server.Contains m "TODO: Implement" = true
     /\ Server.stub m (Server.route_handler loginRoute))
    /\ forall req keys now,
         Server.placeholder_response
           (Server.Writer (Server.route_handler loginRoute
                             (Server.newContext req keys now)))
         /\ Server.same_request_state (Server.newContext req keys now)
              (Server.route_handler loginRoute (Server.newContext req keys now)).
Proof.
  apply (api_v1_handlers_are_placeholders (fun c => c) unit
           Config.defaultConfig tt loginRoute).
  - cbv [Server.setupRoutes Config.defaultConfig Config.Metrics
         Config.Metrics_Enabled Config.Metrics_Path Server.GET Server.POST
         Server.PUT Server.DELETE Server.handle Server.Group Server.root
         Server.routes Server.gin_New Server.basePath app].
    do 3 right. left. reflexivity.
  - reflexivity.
Defined.

Example login_response :
  Server.Writer (Server.loginHandler
     (Server.newContext (postRequest "/api/v1/auth/login") ∅ 0))
  = {| Server.status := 200; Server.written := true;
       Server.body := [ {["message" := Server.JString "Login endpoint - TODO: Implement"]} ] |}.
Proof. reflexivity. Qed.
Section MigrationFacts.
Import Migration.

(** ** The monad *)

Lemma bind_unfold {A B} (c : M A) (f : A -> M B) (w : World) :
  (c ≫= f) w = match c w with
               | (inl e, w') => (inl e, w')
               | (inr a, w') => f a w'
               end.
Proof. reflexivity. Qed.

Lemma bind_inv {A B} (c : M A) (f : A -> M B) (w w' : World) (r : error + B) :
  (c ≫= f) w = (r, w') ->
  (exists e, c w = (inl e, w') /\ r = inl e)
  \/ (exists a w1, c w = (inr a, w1) /\ f a w1 = (r, w')).
Proof.
  rewrite bind_unfold. destruct (c w) as [[e|a] w1]; intros H.
  - left. exists e. by inversion H.
  - right. by exists a, w1.
Qed.

Lemma wrap_inv {A} (fmt : string) (a : list string) (c : M A) (w w' : World)
    (r : error + A) :
  wrap fmt a c w = (r, w') ->
  (exists e, c w = (inl e, w') /\ r = inl (Errorf fmt a e))
  \/ (exists x, c w = (inr x, w') /\ r = inr x).
Proof.
  unfold wrap. destruct (c w) as [[e|x] w1]; intros H; inversion H; eauto.
Qed.

Lemma untouched_refl (w : World) : untouched w w.
Proof. by repeat split. Qed.

Lemma untouched_trans (w1 w2 w3 : World) :
  untouched w1 w2 -> untouched w2 w3 -> untouched w1 w3.
Proof.
  intros (Hl1 & Hr1 & Hf1) (Hl2 & Hr2 & Hf2). repeat split.
  - congruence.
  - intros rows H. by apply Hr2, Hr1.
  - intros H. by apply Hf2, Hf1.
Qed.

Lemma benign_ret {A} (a : A) : benign (mret a).
Proof.
  intros w r w' H. inversion H; subst. split; [apply untouched_refl | eauto].
Qed.

Lemma benign_bind {A B} (c : M A) (f : A -> M B) :
  benign c -> (forall a, benign (f a)) -> benign (c ≫= f).
Proof.
  intros Hc Hf w r w' H.
  destruct (bind_inv _ _ _ _ _ H) as [(e & Hcw & ->) | (a & w1 & Hcw & Hfw)].
  - destruct (Hc _ _ _ Hcw) as [Hu Hok]. split; [done |].
    intros Hno. by destruct (Hok Hno).
  - destruct (Hc _ _ _ Hcw) as [Hu Hok].
    destruct (Hf a _ _ _ Hfw) as [Hu' Hok'].
    split; [by eapply untouched_trans |].
    intros Hno. apply Hok'. by apply Hu.
Qed.

Lemma benign_for_range {A} (xs : list A) (f : A -> M unit) :
  (forall x, benign (f x)) -> benign (for_range xs f).
Proof.
  intros Hf. induction xs as [|x xs IH]; cbn [for_range].
  - apply benign_ret.
  - apply benign_bind; [apply Hf | intros _; apply IH].
Qed.

Lemma benign_wrap {A} (fmt : string) (a : list string) (c : M A) :
  benign c -> benign (wrap fmt a c).
Proof.
  intros Hc w r w' H.
  destruct (wrap_inv _ _ _ _ _ _ H) as [(e & Hcw & ->) | (x & Hcw & ->)];
    destruct (Hc _ _ _ Hcw) as [Hu Hok]; (split; [done |]).
  - intros Hno. by destruct (Hok Hno).
  - eauto.
Qed.

(** A database call whose body succeeds and keeps the rows and the
    fault script is benign. *)
Lemma benign_db_call {A} (name : string) (body : DB -> (error + A) * DB) :
  (forall d, exists a d',
      body d = (inr a, d') /\ faults d' = faults d
      /\ (forall rows, migration_records d = Some rows ->
                       migration_records d' = Some rows)) ->
  benign (db_call name body).
Proof.
  intros Hbody w r w'. unfold db_call.
  destruct (faults (db w)) as [|[|] rest] eqn:Hf.
  - match goal with
    | |- context [body ?d] => destruct (Hbody d) as (a & d' & -> & Hfd & Hrows)
    end.
    intros H. inversion H; subst. repeat split; cbn; eauto.
  - intros H. inversion H; subst.
    repeat split; cbn; eauto; intros; congruence.
  - match goal with
    | |- context [body ?d] => destruct (Hbody d) as (a & d' & -> & Hfd & Hrows)
    end.
    intros H. inversion H; subst.
    repeat split; cbn; eauto; intros; congruence.
Qed.

Lemma benign_run_stmt (name : string) (s : Stmt) : benign (db_call name (run_stmt s)).
Proof. apply benign_db_call. intros d. eexists _, _. by repeat split. Qed.

Lemma benign_db_AutoMigrate (models : list string) : benign (db_AutoMigrate models).
Proof.
  apply benign_db_call. intros d. eexists _, _. repeat split.
  cbn. intros rows ->. by destruct (decide _).
Qed.

Lemma benign_Up (m : Migration) : In m getMigrations -> benign (Up m).
Proof.
  intros Hm. cbn in Hm.
  repeat (destruct Hm as [<- | Hm]); [.. | destruct Hm]; cbn [Up];
    unfold migration001Up, migration002Up, migration003Up, migration004Up,
      migration005Up, db_Exec, db_FirstOrCreate;
    repeat first
      [ apply benign_bind; [| intros ?]
      | apply benign_for_range; intros ?
      | apply benign_run_stmt
      | apply benign_db_AutoMigrate
      | apply benign_ret ].
Qed.

(** ** The calls on the record table *)

Lemma Find_inv (w w' : World) (r : error + list MigrationRecord) :
  db_Find_records w = (r, w') ->
  untouched w w'
  /\ (forall rows, r = inr rows -> migration_records (db w) = Some rows)
  /\ (forall rows, migration_records (db w) = Some rows ->
        faults (db w) = [] -> r = inr rows).
Proof.
  unfold db_Find_records, db_call.
  destruct (faults (db w)) as [|[|] rest] eqn:Hf; cbn;
    destruct (migration_records (db w)) as [rows0|] eqn:Hrows;
    intros H; inversion H; subst; cbn;
    (split; [repeat split; cbn; eauto; intros; congruence |]);
    split; intros; congruence.
Qed.

Lemma Create_inv (v : string) (w w' : World) :
  db_Create_record v w = (inr tt, w') ->
  exists rows,
    migration_records (db w) = Some rows
    /\ (v ∉ map record_Version rows)
    /\ (map record_Version <$> migration_records (db w'))
       = Some (map record_Version rows ++ [v])
    /\ log w' = log w.
Proof.
  unfold db_Create_record, db_call.
  destruct (faults (db w)) as [|[|] rest] eqn:Hf; cbn;
    destruct (migration_records (db w)) as [rows|] eqn:Hrows;
    try (intros H; by inversion H);
    destruct (decide (v ∈ map record_Version rows));
    intros H; inversion H; subst; cbn;
    exists rows; rewrite ?map_app; by repeat split.
Qed.

Lemma Create_ok (v : string) (w : World) (rows : list MigrationRecord) :
  faults (db w) = [] ->
  migration_records (db w) = Some rows ->
  v ∉ map record_Version rows ->
  exists w', db_Create_record v w = (inr tt, w') /\ faults (db w') = [].
Proof.
  intros Hf Hrows Hv. unfold db_Create_record, db_call. rewrite Hf. cbn.
  rewrite Hrows. destruct (decide (v ∈ map record_Version rows)); [done |].
  eexists. split; [reflexivity | done].
Qed.

(** ** The applied map *)

Lemma index_insert (applied : gmap string bool) (k v : string) :
  index (<[k := true]> applied) v = true <-> k = v \/ index applied v = true.
Proof.
  unfold index. destruct (decide (k = v)) as [->|Hne].
  - rewrite lookup_insert_eq. cbn. tauto.
  - rewrite lookup_insert_ne by done. split; [tauto |]. by intros [?|?].
Qed.

Lemma index_fold (rows : list MigrationRecord) (acc : gmap string bool) (v : string) :
  index (fold_left (fun applied record => <[record_Version record := true]> applied)
           rows acc) v = true
  <-> index acc v = true \/ v ∈ map record_Version rows.
Proof.
  revert acc. induction rows as [|row rows IH]; intros acc; cbn [fold_left map].
  - rewrite elem_of_nil. tauto.
  - rewrite IH, index_insert, elem_of_cons. intuition congruence.
Qed.

Lemma getAppliedMigrations_inv (w w' : World) (r : error + gmap string bool) :
  getAppliedMigrations w = (r, w') ->
  untouched w w'
  /\ (forall applied, r = inr applied ->
        exists rows, migration_records (db w) = Some rows
          /\ forall v, index applied v = true <-> v ∈ map record_Version rows)
  /\ (forall rows, migration_records (db w) = Some rows ->
        faults (db w) = [] -> exists applied, r = inr applied).
Proof.
  unfold getAppliedMigrations. intros H.
  destruct (bind_inv _ _ _ _ _ H) as [(e & Hc & ->) | (rows & w1 & Hc & Hret)];
    destruct (Find_inv _ _ _ Hc) as (Hu & Hsome & Hok).
  - split; [done |]. split; [by intros |].
    intros rows Hrows Hf. discriminate (Hok rows Hrows Hf).
  - inversion Hret; subst. split; [done |]. split.
    + intros applied [= <-]. exists rows. split; [by apply Hsome |].
      intros v. rewrite index_fold. unfold index. rewrite lookup_empty.
      cbn. intuition congruence.
    + eauto.
Qed.

(** ** The loop over the migrations *)

Lemma Run_unfold (m : Migrator) :
  Run m =
  (_ ← wrap "failed to create migration table: %w" []
         (db_AutoMigrate ["MigrationRecord"]);
   applied ← wrap "failed to get applied migrations: %w" [] getAppliedMigrations;
   _ ← for_range (migrations m) (run_one applied);
   log_Println "All migrations completed successfully").
Proof. reflexivity. Qed.

Lemma started_app (l1 l2 : list LogLine) :
  started (l1 ++ l2) = started l1 ++ started l2.
Proof. apply omap_app. Qed.

Lemma run_one_success (applied : gmap string bool) (m : Migration) (w w' : World)
    (rows : list MigrationRecord) :
  benign (Up m) ->
  run_one applied m w = (inr tt, w') ->
  migration_records (db w) = Some rows ->
  exists rows',
    migration_records (db w') = Some rows'
    /\ map record_Version rows' = map record_Version rows ++ todo applied [m]
    /\ started (log w') = started (log w) ++ todo applied [m].
Proof.
  intros Hup Hrun Hrows. unfold run_one in Hrun. unfold todo. cbn [map].
  destruct (index applied (Version m)) eqn:Hidx; cbn [negb] in Hrun.
  - inversion Hrun; subst. rewrite filter_cons_False by congruence.
    rewrite filter_nil, !app_nil_r. eauto.
  - rewrite filter_cons_True by done. rewrite filter_nil.
    destruct (bind_inv _ _ _ _ _ Hrun) as [(e & _ & [=]) | ([] & w1 & Hlog & H1)].
    inversion Hlog; subst; clear Hlog.
    destruct (bind_inv _ _ _ _ _ H1) as [(e & _ & [=]) | ([] & w2 & Hupw & H2)].
    destruct (wrap_inv _ _ _ _ _ _ Hupw) as [(e & _ & [=]) | (x & Hupw' & _)].
    destruct (Hup _ _ _ Hupw') as [(Hl2 & Hr2 & _) _]. cbn in Hl2, Hr2.
    destruct (bind_inv _ _ _ _ _ H2) as [(e & _ & [=]) | ([] & w3 & Hcr & H3)].
    destruct (wrap_inv _ _ _ _ _ _ Hcr) as [(e & _ & [=]) | (x' & Hcr' & _)].
    destruct x'.
    destruct (Create_inv _ _ _ Hcr') as (rows2 & Hrows2 & _ & Hrows3 & Hl3).
    inversion H3; subst; clear H3. cbn.
    rewrite (Hr2 rows Hrows) in Hrows2. injection Hrows2 as <-.
    destruct (migration_records (db w3)) as [rows3|]; [| done].
    injection Hrows3 as Hrows3. exists rows3. split; [done |]. split; [done |].
    rewrite Hl3, Hl2, !started_app. cbn. by rewrite app_nil_r.
Qed.

Lemma todo_cons (applied : gmap string bool) (m : Migration) (ms : list Migration) :
  todo applied (m :: ms) = todo applied [m] ++ todo applied ms.
Proof. unfold todo. by rewrite <- filter_app. Qed.

Lemma loop_success (applied : gmap string bool) (ms : list Migration) :
  (forall m, In m ms -> benign (Up m)) ->
  forall (w w' : World) (rows : list MigrationRecord),
  for_range ms (run_one applied) w = (inr tt, w') ->
  migration_records (db w) = Some rows ->
  exists rows',
    migration_records (db w') = Some rows'
    /\ map record_Version rows' = map record_Version rows ++ todo applied ms
    /\ started (log w') = started (log w) ++ todo applied ms.
Proof.
  induction ms as [|m ms IH]; intros Hben w w' rows Hrun Hrows.
  - inversion Hrun; subst. exists rows. unfold todo. cbn.
    by rewrite !app_nil_r.
  - cbn [for_range] in Hrun.
    destruct (bind_inv _ _ _ _ _ Hrun) as [(e & _ & [=]) | ([] & w1 & H1 & Hrest)].
    destruct (run_one_success applied m w w1 rows (Hben m (or_introl eq_refl)) H1 Hrows)
      as (rows1 & Hrows1 & Hv1 & Hs1).
    destruct (IH (fun m' Hm' => Hben m' (or_intror Hm')) w1 w' rows1 Hrest Hrows1)
      as (rows' & Hrows' & Hv' & Hs').
    exists rows'. split; [done |].
    rewrite todo_cons, Hv', Hs', Hv1, Hs1, !app_assoc. done.
Qed.

(** Without a fault, the loop goes through. *)
Lemma loop_total (applied : gmap string bool) (ms : list Migration) :
  (forall m, In m ms -> benign (Up m)) ->
  NoDup (map Version ms) ->
  forall (w : World) (rows : list MigrationRecord),
  faults (db w) = [] ->
  migration_records (db w) = Some rows ->
  (forall m, In m ms -> index applied (Version m) = false ->
             Version m ∉ map record_Version rows) ->
  exists w', for_range ms (run_one applied) w = (inr tt, w')
             /\ faults (db w') = [].
Proof.
  induction ms as [|m ms IH]; intros Hben Hnd w rows Hf Hrows Hfresh.
  - by exists w.
  - cbn [map] in Hnd. apply NoDup_cons in Hnd as [Hm Hnd].
    assert (exists w1 rows1,
              run_one applied m w = (inr tt, w1) /\ faults (db w1) = []
              /\ migration_records (db w1) = Some rows1
              /\ map record_Version rows1
                 = map record_Version rows ++ todo applied [m])
      as (w1 & rows1 & Hrun1 & Hf1 & Hrows1 & Hv1).
    { unfold run_one, todo. cbn [map].
      destruct (index applied (Version m)) eqn:Hidx; cbn [negb].
      - exists w, rows. rewrite filter_cons_False by congruence.
        by rewrite filter_nil, app_nil_r.
      - rewrite filter_cons_True by done. rewrite filter_nil.
        rewrite bind_unfold. cbn [log_Printf].
        set (w0 := {| db := db w; log := _ |}).
        rewrite bind_unfold. unfold wrap at 1.
        destruct (Up m w0) as [r2 w2] eqn:Hup.
        destruct (Hben m (or_introl eq_refl) _ _ _ Hup) as [(Hl2 & Hr2 & Hf2) Hok].
        destruct (Hok Hf) as ([] & ->).
        destruct (Create_ok (Version m) w2 rows (Hf2 Hf) (Hr2 rows Hrows)
                    (Hfresh m (or_introl eq_refl) Hidx)) as (w3 & Hcr & Hf3).
        rewrite bind_unfold. unfold wrap. rewrite Hcr.
        destruct (Create_inv _ _ _ Hcr) as (rows2 & Hrows2 & _ & Hrows3 & _).
        rewrite (Hr2 rows Hrows) in Hrows2. injection Hrows2 as <-.
        destruct (migration_records (db w3)) as [rows3|] eqn:E3; [| done].
        injection Hrows3 as Hrows3.
        eexists _, rows3. split; [reflexivity |]. by repeat split. }
    destruct (IH (fun m' Hm' => Hben m' (or_intror Hm')) Hnd w1 rows1 Hf1 Hrows1)
      as (w' & Hrun' & Hf').
    { intros m' Hm' Hidx'. rewrite Hv1. rewrite elem_of_app.
      intros [Hin | Hin]; [by apply (Hfresh m' (or_intror Hm') Hidx') |].
      unfold todo in Hin. apply list_elem_of_filter in Hin as [_ Hin].
      cbn in Hin. apply list_elem_of_singleton in Hin.
      apply Hm. rewrite <- Hin. apply list_elem_of_fmap_2.
      by apply list_elem_of_In. }
    exists w'. cbn [for_range]. rewrite bind_unfold, Hrun1. done.
Qed.

(** When every migration is applied already, the loop does nothing. *)
Lemma loop_noop (applied : gmap string bool) (ms : list Migration) (w : World) :
  (forall m, In m ms -> index applied (Version m) = true) ->
  for_range ms (run_one applied) w = (inr tt, w).
Proof.
  induction ms as [|m ms IH]; intros Hall; [done |].
  cbn [for_range]. rewrite bind_unfold. unfold run_one at 1.
  rewrite (Hall m (or_introl eq_refl)). cbn.
  apply IH. intros m' Hm'. apply Hall. by right.
Qed.

(** ** [Run] *)

Lemma AutoMigrate_records_inv (w w1 : World) (r : error + unit) :
  db_AutoMigrate ["MigrationRecord"] w = (r, w1) ->
  log w1 = log w
  /\ recorded w1 = recorded w
  /\ (r = inr tt -> exists rows, migration_records (db w1) = Some rows)
  /\ (faults (db w) = [] -> r = inr tt /\ faults (db w1) = []).
Proof.
  unfold db_AutoMigrate, db_call, recorded.
  destruct (decide ("MigrationRecord" ∈ ["MigrationRecord"])) as [_|Hn];
    [| by destruct Hn; apply list_elem_of_singleton].
  destruct (faults (db w)) as [|[|] rest] eqn:Hf; cbn;
    intros H; inversion H; subst; cbn;
    destruct (migration_records (db w)); cbn;
    repeat split; eauto; intros; congruence.
Qed.

Lemma recorded_untouched (w w' : World) (rows : list MigrationRecord) :
  untouched w w' -> migration_records (db w) = Some rows ->
  recorded w' = recorded w /\ migration_records (db w') = Some rows.
Proof.
  intros (_ & Hr & _) Hrows. unfold recorded. by rewrite (Hr rows Hrows), Hrows.
Qed.

Lemma log_Printf_inv (fmt : string) (a : list string) (w w' : World) (r : error + unit) :
  log_Printf fmt a w = (r, w') ->
  r = inr tt /\ db w' = db w /\ log w' = log w ++ [Printf fmt a].
Proof. intros H. by inversion H. Qed.

Lemma pending_todo (applied : gmap string bool) (w : World) :
  (forall v, index applied v = true <-> v ∈ recorded w) ->
  todo applied getMigrations = pending w.
Proof.
  intros Happ. unfold todo, pending. apply list_filter_iff. intros v.
  rewrite <- Happ. by destruct (index applied v).
Qed.

Lemma Run_success_inv (w w' : World) :
  Run NewMigrator w = (inr tt, w') ->
  started (log w') = started (log w) ++ pending w
  /\ recorded w' = recorded w ++ pending w.
Proof.
  rewrite Run_unfold. intros H.
  destruct (bind_inv _ _ _ _ _ H) as [(e & _ & [=]) | ([] & w1 & Ham & H1)].
  destruct (wrap_inv _ _ _ _ _ _ Ham) as [(e & _ & [=]) | (x & Ham' & _)].
  destruct (AutoMigrate_records_inv _ _ _ Ham') as (Hl1 & Hrec1 & Hsome1 & _).
  destruct x. destruct (Hsome1 eq_refl) as (rows & Hrows1).
  destruct (bind_inv _ _ _ _ _ H1) as [(e & _ & [=]) | (applied & w2 & Hga & H2)].
  destruct (wrap_inv _ _ _ _ _ _ Hga) as [(e & _ & [=]) | (x & Hga' & [= <-])].
  destruct (getAppliedMigrations_inv _ _ _ Hga') as (Hu2 & Happ & _).
  destruct (Happ applied eq_refl) as (rows' & Hrows' & Hidx).
  rewrite Hrows1 in Hrows'. injection Hrows' as <-.
  destruct (recorded_untouched _ _ _ Hu2 Hrows1) as [Hrec2 Hrows2].
  destruct (bind_inv _ _ _ _ _ H2) as [(e & _ & [=]) | ([] & w3 & Hloop & H3)].
  destruct (loop_success applied getMigrations (fun m Hm => benign_Up m Hm)
              w2 w3 rows Hloop Hrows2) as (rows3 & Hrows3 & Hv3 & Hs3).
  destruct (log_Printf_inv _ _ _ _ _ H3) as (_ & Hdb & Hl4).
  assert (Hpend : todo applied getMigrations = pending w).
  { apply pending_todo. intros v. rewrite Hidx, <- Hrec1.
    unfold recorded. by rewrite Hrows1. }
  destruct Hu2 as (Hl2 & _). split.
  - rewrite Hl4, started_app, Hs3, Hl2, Hl1, Hpend. cbn. by rewrite app_nil_r.
  - assert (Hrw : recorded w = map record_Version rows).
    { rewrite <- Hrec1. unfold recorded. by rewrite Hrows1. }
    assert (Hr3 : recorded w' = map record_Version rows3).
    { unfold recorded. rewrite Hdb, Hrows3. reflexivity. }
    by rewrite Hrw, Hr3, Hv3, Hpend.
Qed.

(** A run on a table that records every migration of the list calls no
    [Up] and records nothing. *)
Lemma Run_recorded_noop (w w' : World) (r : error + unit) :
  (forall m, In m getMigrations -> Version m ∈ recorded w) ->
  Run NewMigrator w = (r, w') ->
  started (log w') = started (log w) /\ recorded w' = recorded w.
Proof.
  intros Hall. rewrite Run_unfold. intros H.
  destruct (bind_inv _ _ _ _ _ H) as [(e & Ham & ->) | ([] & w1 & Ham & H1)].
  { destruct (wrap_inv _ _ _ _ _ _ Ham) as [(e' & Ham' & _) | (x & _ & [=])].
    destruct (AutoMigrate_records_inv _ _ _ Ham') as (Hl1 & Hrec1 & _).
    by rewrite Hl1, Hrec1. }
  destruct (wrap_inv _ _ _ _ _ _ Ham) as [(e & _ & [=]) | (x & Ham' & _)].
  destruct (AutoMigrate_records_inv _ _ _ Ham') as (Hl1 & Hrec1 & Hsome1 & _).
  destruct x. destruct (Hsome1 eq_refl) as (rows & Hrows1).
  destruct (bind_inv _ _ _ _ _ H1) as [(e & Hga & ->) | (applied & w2 & Hga & H2)].
  { destruct (wrap_inv _ _ _ _ _ _ Hga) as [(e' & Hga' & _) | (x & _ & [=])].
    destruct (getAppliedMigrations_inv _ _ _ Hga') as (Hu2 & _).
    destruct (recorded_untouched _ _ _ Hu2 Hrows1) as [Hrec2 _].
    destruct Hu2 as (Hl2 & _). by rewrite Hl2, Hl1, Hrec2, Hrec1. }
  destruct (wrap_inv _ _ _ _ _ _ Hga) as [(e & _ & [=]) | (x & Hga' & [= <-])].
  destruct (getAppliedMigrations_inv _ _ _ Hga') as (Hu2 & Happ & _).
  destruct (Happ applied eq_refl) as (rows' & Hrows' & Hidx).
  rewrite Hrows1 in Hrows'. injection Hrows' as <-.
  destruct (recorded_untouched _ _ _ Hu2 Hrows1) as [Hrec2 Hrows2].
  rewrite bind_unfold, loop_noop in H2.
  - destruct (log_Printf_inv _ _ _ _ _ H2) as (_ & Hdb & Hl3).
    destruct Hu2 as (Hl2 & _). split.
    + rewrite Hl3, started_app, Hl2, Hl1. cbn. by rewrite app_nil_r.
    + unfold recorded at 1. rewrite Hdb. fold (recorded w2). congruence.
  - intros m Hm. apply Hidx. specialize (Hall m Hm).
    rewrite <- Hrec1 in Hall. unfold recorded in Hall. by rewrite Hrows1 in Hall.
Qed.

Lemma NoDup_getMigrations : NoDup (map Version getMigrations).
Proof. apply (bool_decide_unpack _). vm_compute. exact I. Qed.

Lemma Run_total (w : World) :
  faults (db w) = [] -> exists w', Run NewMigrator w = (inr tt, w').
Proof.
  intros Hf. rewrite Run_unfold.
  rewrite bind_unfold. unfold wrap at 1.
  destruct (db_AutoMigrate ["MigrationRecord"] w) as [r1 w1] eqn:Ham.
  destruct (AutoMigrate_records_inv _ _ _ Ham) as (Hl1 & Hrec1 & Hsome1 & Hok1).
  destruct (Hok1 Hf) as [-> Hf1]. destruct (Hsome1 eq_refl) as (rows & Hrows1).
  rewrite bind_unfold. unfold wrap at 1.
  destruct (getAppliedMigrations w1) as [r2 w2] eqn:Hga.
  destruct (getAppliedMigrations_inv _ _ _ Hga) as (Hu2 & Happ & Hok2).
  destruct (Hok2 rows Hrows1 Hf1) as (applied & ->).
  destruct (Happ applied eq_refl) as (rows' & Hrows' & Hidx).
  rewrite Hrows1 in Hrows'. injection Hrows' as <-.
  destruct (recorded_untouched _ _ _ Hu2 Hrows1) as [_ Hrows2].
  destruct Hu2 as (_ & _ & Hf2).
  destruct (loop_total applied getMigrations (fun m Hm => benign_Up m Hm)
              NoDup_getMigrations w2 rows (Hf2 Hf1) Hrows2) as (w3 & Hloop & _).
  { intros m _ Hfalse Hin. apply Hidx in Hin. congruence. }
  cbn [migrations NewMigrator]. rewrite bind_unfold, Hloop. eauto.
Qed.

(** ** What a computation executes *)

Lemma executes_ret : executes (mret tt) [].
Proof.
  intros w r w' H. inversion H; subst. repeat split. by rewrite app_nil_r.
Qed.

Lemma executes_bind (c1 c2 : M unit) (l1 l2 : list Stmt) :
  executes c1 l1 -> executes c2 l2 -> executes (c1 ≫= fun _ => c2) (l1 ++ l2).
Proof.
  intros H1 H2 w r w' H.
  destruct (bind_inv _ _ _ _ _ H) as [(e & Hc & ->) | ([] & w1 & Hc & Hf)].
  - destruct (H1 _ _ _ Hc) as (Hl & Hr & _). repeat split; [done | done |].
    intros [=].
  - destruct (H1 _ _ _ Hc) as (Hl1 & Hr1 & He1).
    destruct (H2 _ _ _ Hf) as (Hl2 & Hr2 & He2).
    repeat split; [congruence | congruence |].
    intros ->. rewrite (He2 eq_refl), (He1 eq_refl). by rewrite app_assoc.
Qed.

Lemma executes_for_range {A} (xs : list A) (f : A -> M unit) (g : A -> Stmt) :
  (forall x, executes (f x) [g x]) -> executes (for_range xs f) (map g xs).
Proof.
  intros Hf. induction xs as [|x xs IH]; cbn [for_range map].
  - apply executes_ret.
  - apply (executes_bind (f x) (for_range xs f) [g x] (map g xs)); [apply Hf | apply IH].
Qed.

Lemma executes_run_stmt (name : string) (s : Stmt) :
  executes (db_call name (run_stmt s)) [s].
Proof.
  intros w r w'. unfold db_call, run_stmt.
  destruct (faults (db w)) as [|[|] rest]; cbn;
    intros H; inversion H; subst; cbn; repeat split; intros; congruence.
Qed.

Lemma executes_eq (c : M unit) (l l' : list Stmt) :
  executes c l -> l = l' -> executes c l'.
Proof. by intros H <-. Qed.

Lemma executes_AutoMigrate (models : list string) :
  "MigrationRecord" ∉ models ->
  executes (db_AutoMigrate models) [SAutoMigrate models].
Proof.
  intros Hn w r w'. unfold db_AutoMigrate, db_call.
  destruct (decide ("MigrationRecord" ∈ models)) as [Hin | _]; [done |].
  destruct (faults (db w)) as [|[|] rest]; cbn;
    intros H; inversion H; subst; cbn; repeat split; intros; congruence.
Qed.

Lemma executes_wrap (fmt : string) (a : list string) (c : M unit) (l : list Stmt) :
  executes c l -> executes (wrap fmt a c) l.
Proof.
  intros Hc w r w' H.
  destruct (wrap_inv _ _ _ _ _ _ H) as [(e & Hcw & ->) | (x & Hcw & ->)];
    destruct (Hc _ _ _ Hcw) as (Hl & Hr & He); repeat split; try done;
    intros _; destruct x; by apply He.
Qed.

(** What an [Up] function executes when it succeeds is what it sends to
    an empty database that answers every call. *)
Lemma executes_Up (m : Migration) :
  In m getMigrations -> executes (Up m) (statements (Up m)).
Proof.
  intros Hm. unfold getMigrations in Hm. cbn [In] in Hm.
  repeat (destruct Hm as [<- | Hm]); [.. | destruct Hm]; cbn [Up];
    (eapply executes_eq;
     [ unfold migration001Up, migration002Up, migration003Up, migration004Up,
         migration005Up, db_Exec, db_FirstOrCreate; cbv zeta;
       repeat first
         [ apply executes_ret
         | apply executes_run_stmt
         | apply executes_AutoMigrate;
           apply (bool_decide_unpack _); vm_compute; exact I
         | eapply executes_for_range; intros ?
         | eapply executes_bind ]
     | vm_compute; reflexivity ]).
Qed.

Lemma Create_executed (v : string) (w w' : World) (r : error + unit) :
  db_Create_record v w = (r, w') -> executed (db w') = executed (db w).
Proof.
  unfold db_Create_record, db_call.
  destruct (faults (db w)) as [|[|] rest]; cbn;
    destruct (migration_records (db w)) as [rows|];
    try destruct (decide (v ∈ map record_Version rows));
    intros H; inversion H; subst; reflexivity.
Qed.

Lemma Find_executed (w w' : World) (r : error + list MigrationRecord) :
  db_Find_records w = (r, w') -> executed (db w') = executed (db w).
Proof.
  unfold db_Find_records, db_call.
  destruct (faults (db w)) as [|[|] rest]; cbn;
    destruct (migration_records (db w)) as [rows|];
    intros H; inversion H; subst; reflexivity.
Qed.

Lemma getAppliedMigrations_executed (w w' : World) (r : error + gmap string bool) :
  getAppliedMigrations w = (r, w') -> executed (db w') = executed (db w).
Proof.
  unfold getAppliedMigrations. intros H.
  destruct (bind_inv _ _ _ _ _ H) as [(e & Hc & _) | (rows & w1 & Hc & Hret)].
  - by apply Find_executed in Hc.
  - inversion Hret; subst. by apply Find_executed in Hc.
Qed.

Lemma AutoMigrate_records_executed (w w' : World) (r : error + unit) :
  db_AutoMigrate ["MigrationRecord"] w = (r, w') ->
  executed (db w')
  = executed (db w)
    ++ match r with inr _ => [SAutoMigrate ["MigrationRecord"]] | inl _ => [] end.
Proof.
  unfold db_AutoMigrate, db_call.
  destruct (faults (db w)) as [|[|] rest]; cbn;
    intros H; inversion H; subst; cbn; by rewrite ?app_nil_r.
Qed.

Lemma run_one_executed (applied : gmap string bool) (m : Migration) (w w' : World) :
  In m getMigrations ->
  run_one applied m w = (inr tt, w') ->
  executed (db w')
  = executed (db w) ++ up_statements (todo_migrations applied [m]).
Proof.
  intros Hm Hrun. unfold run_one in Hrun. unfold todo_migrations, up_statements.
  destruct (index applied (Version m)) eqn:Hidx; cbn [negb] in Hrun.
  - inversion Hrun; subst. rewrite filter_cons_False by congruence.
    rewrite filter_nil. cbn. by rewrite app_nil_r.
  - rewrite filter_cons_True by done. rewrite filter_nil. cbn [flat_map].
    rewrite app_nil_r.
    destruct (bind_inv _ _ _ _ _ Hrun) as [(e & _ & [=]) | ([] & w1 & Hlog & H1)].
    destruct (log_Printf_inv _ _ _ _ _ Hlog) as (_ & Hdb1 & _).
    destruct (bind_inv _ _ _ _ _ H1) as [(e & _ & [=]) | ([] & w2 & Hupw & H2)].
    destruct (executes_wrap _ _ _ _ (executes_Up m Hm) _ _ _ Hupw) as (_ & _ & He2).
    destruct (bind_inv _ _ _ _ _ H2) as [(e & _ & [=]) | ([] & w3 & Hcr & H3)].
    destruct (wrap_inv _ _ _ _ _ _ Hcr) as [(e & _ & [=]) | (x & Hcr' & _)].
    apply Create_executed in Hcr'.
    destruct (log_Printf_inv _ _ _ _ _ H3) as (_ & Hdb4 & _).
    by rewrite Hdb4, Hcr', (He2 eq_refl), Hdb1.
Qed.

Lemma todo_migrations_cons (applied : gmap string bool) (m : Migration)
    (ms : list Migration) :
  todo_migrations applied (m :: ms)
  = todo_migrations applied [m] ++ todo_migrations applied ms.
Proof. unfold todo_migrations. by rewrite <- filter_app. Qed.

Lemma up_statements_app (l1 l2 : list Migration) :
  up_statements (l1 ++ l2) = up_statements l1 ++ up_statements l2.
Proof. apply flat_map_app. Qed.

Lemma loop_executed (applied : gmap string bool) (ms : list Migration) :
  (forall m, In m ms -> In m getMigrations) ->
  forall w w' : World,
  for_range ms (run_one applied) w = (inr tt, w') ->
  executed (db w')
  = executed (db w) ++ up_statements (todo_migrations applied ms).
Proof.
  induction ms as [|m ms IH]; intros Hin w w' Hrun.
  - inversion Hrun; subst. cbn. by rewrite app_nil_r.
  - cbn [for_range] in Hrun.
    destruct (bind_inv _ _ _ _ _ Hrun) as [(e & _ & [=]) | ([] & w1 & H1 & Hrest)].
    rewrite (IH (fun m' Hm' => Hin m' (or_intror Hm')) w1 w' Hrest).
    rewrite (run_one_executed applied m w w1 (Hin m (or_introl eq_refl)) H1).
    by rewrite (todo_migrations_cons applied m ms), up_statements_app, app_assoc.
Qed.

Lemma pending_todo_migrations (applied : gmap string bool) (w : World) :
  (forall v, index applied v = true <-> v ∈ recorded w) ->
  todo_migrations applied getMigrations = pending_migrations w.
Proof.
  intros Happ. unfold todo_migrations, pending_migrations.
  apply list_filter_iff. intros m.
  rewrite <- Happ. by destruct (index applied (Version m)).
Qed.

(** The pending migrations are those of the pending versions. *)
Lemma pending_migrations_versions (w : World) :
  map Version (pending_migrations w) = pending w.
Proof.
  unfold pending_migrations, pending.
  induction getMigrations as [|m ms IH]; [done |].
  cbn [map]. destruct (decide (Version m ∈ recorded w)) as [Hin | Hout].
  - rewrite (filter_cons_False _ m) by (intros Hn; by apply Hn).
    rewrite (filter_cons_False _ (Version m)) by (intros Hn; by apply Hn).
    exact IH.
  - rewrite (filter_cons_True _ m) by done.
    rewrite (filter_cons_True _ (Version m)) by done.
    cbn [map]. by f_equal.
Qed.

(** A run that returns nil has executed the creation of the record
    table and then the statements of the pending [Up] functions. *)
Lemma Run_success_executed (w w' : World) :
  Run NewMigrator w = (inr tt, w') ->
  executed (db w')
  = executed (db w)
    ++ SAutoMigrate ["MigrationRecord"] :: up_statements (pending_migrations w).
Proof.
  rewrite Run_unfold. intros H.
  destruct (bind_inv _ _ _ _ _ H) as [(e & _ & [=]) | ([] & w1 & Ham & H1)].
  destruct (wrap_inv _ _ _ _ _ _ Ham) as [(e & _ & [=]) | (x & Ham' & _)].
  destruct (AutoMigrate_records_inv _ _ _ Ham') as (_ & Hrec1 & Hsome1 & _).
  pose proof (AutoMigrate_records_executed _ _ _ Ham') as Hex1.
  destruct x. destruct (Hsome1 eq_refl) as (rows & Hrows1).
  destruct (bind_inv _ _ _ _ _ H1) as [(e & _ & [=]) | (applied & w2 & Hga & H2)].
  destruct (wrap_inv _ _ _ _ _ _ Hga) as [(e & _ & [=]) | (x & Hga' & [= <-])].
  destruct (getAppliedMigrations_inv _ _ _ Hga') as (_ & Happ & _).
  pose proof (getAppliedMigrations_executed _ _ _ Hga') as Hex2.
  destruct (Happ applied eq_refl) as (rows' & Hrows' & Hidx).
  rewrite Hrows1 in Hrows'. injection Hrows' as <-.
  destruct (bind_inv _ _ _ _ _ H2) as [(e & _ & [=]) | ([] & w3 & Hloop & H3)].
  pose proof (loop_executed applied getMigrations (fun m Hm => Hm) w2 w3 Hloop)
    as Hex3.
  destruct (log_Printf_inv _ _ _ _ _ H3) as (_ & Hdb & _).
  assert (Hpend : todo_migrations applied getMigrations = pending_migrations w).
  { apply pending_todo_migrations. intros v. rewrite Hidx, <- Hrec1.
    unfold recorded. by rewrite Hrows1. }
  rewrite Hdb, Hex3, Hex2, Hex1, Hpend. by rewrite <- app_assoc.
Qed.

(** A run on a table that records every migration of the list executes
    at most the creation of the record table. *)
Lemma Run_recorded_executed (w w' : World) (r : error + unit) :
  (forall m, In m getMigrations -> Version m ∈ recorded w) ->
  Run NewMigrator w = (r, w') ->
  executed (db w') = executed (db w)
  \/ executed (db w') = executed (db w) ++ [SAutoMigrate ["MigrationRecord"]].
Proof.
  intros Hall. rewrite Run_unfold. intros H.
  destruct (bind_inv _ _ _ _ _ H) as [(e & Ham & ->) | ([] & w1 & Ham & H1)].
  { destruct (wrap_inv _ _ _ _ _ _ Ham) as [(e' & Ham' & _) | (x & _ & [=])].
    left. rewrite (AutoMigrate_records_executed _ _ _ Ham'). apply app_nil_r. }
  destruct (wrap_inv _ _ _ _ _ _ Ham) as [(e & _ & [=]) | (x & Ham' & _)].
  destruct (AutoMigrate_records_inv _ _ _ Ham') as (_ & Hrec1 & Hsome1 & _).
  pose proof (AutoMigrate_records_executed _ _ _ Ham') as Hex1.
  destruct x. destruct (Hsome1 eq_refl) as (rows & Hrows1).
  right.
  destruct (bind_inv _ _ _ _ _ H1) as [(e & Hga & ->) | (applied & w2 & Hga & H2)].
  { destruct (wrap_inv _ _ _ _ _ _ Hga) as [(e' & Hga' & _) | (x & _ & [=])].
    by rewrite (getAppliedMigrations_executed _ _ _ Hga'). }
  destruct (wrap_inv _ _ _ _ _ _ Hga) as [(e & _ & [=]) | (x & Hga' & [= <-])].
  destruct (getAppliedMigrations_inv _ _ _ Hga') as (_ & Happ & _).
  pose proof (getAppliedMigrations_executed _ _ _ Hga') as Hex2.
  destruct (Happ applied eq_refl) as (rows' & Hrows' & Hidx).
  rewrite Hrows1 in Hrows'. injection Hrows' as <-.
  rewrite bind_unfold, loop_noop in H2.
  - destruct (log_Printf_inv _ _ _ _ _ H2) as (_ & Hdb & _).
    by rewrite Hdb, Hex2.
  - intros m Hm. apply Hidx. specialize (Hall m Hm).
    rewrite <- Hrec1 in Hall. unfold recorded in Hall. by rewrite Hrows1 in Hall.
Qed.

(** C8: [Run] is idempotent and keeps the order of the list.  A run that
    returns nil has applied exactly the migrations of the fixed list
    whose version was not recorded, in the order of the list: it has
    announced the [Up] function of each of them, has executed, after the
    creation of the record table, the statements of these [Up]
    functions and no others, and has recorded each version after the
    versions recorded before; absent a database fault every run returns
    nil.  A second run right after it, whatever the database then
    answers, announces no [Up], executes nothing but the creation of
    the record table, and leaves the recorded versions as they are. *)
Theorem Run_applies_pending_once (w w1 : World) (r : error + unit) :
  Run NewMigrator w = (r, w1) ->
  (faults (db w) = [] -> r = inr tt)
  /\ (r = inr tt ->
      started (log w1) = started (log w) ++ pending w
      /\ executed (db w1)
         = executed (db w)
           ++ SAutoMigrate ["MigrationRecord"]
              :: up_statements (pending_migrations w)
      /\ recorded w1 = recorded w ++ pending w
      /\ forall (fs : list bool) (r2 : error + unit) (w2 : World),
           Run NewMigrator (with_faults fs w1) = (r2, w2) ->
           started (log w2) = started (log w1)
           /\ (executed (db w2) = executed (db w1)
               \/ executed (db w2)
                  = executed (db w1) ++ [SAutoMigrate ["MigrationRecord"]])
           /\ recorded w2 = recorded w1
           /\ (fs = [] -> r2 = inr tt)).
Proof.
  intros Hrun. split.
  - intros Hf. destruct (Run_total w Hf) as (w' & Hrun').
    rewrite Hrun in Hrun'. congruence.
  - intros ->. destruct (Run_success_inv w w1 Hrun) as [Hs Hr].
    split; [done |]. split; [exact (Run_success_executed w w1 Hrun) |].
    split; [done |].
    intros fs r2 w2 Hrun2.
    assert (Hall : forall m, In m getMigrations ->
                             Version m ∈ recorded (with_faults fs w1)).
    { intros m Hm. change (recorded (with_faults fs w1)) with (recorded w1).
      rewrite Hr. apply elem_of_app.
      destruct (decide (Version m ∈ recorded w)) as [Hin | Hnin]; [by left |].
      right. unfold pending. apply list_elem_of_filter. split; [done |].
      apply list_elem_of_fmap_2. by apply list_elem_of_In. }
    destruct (Run_recorded_noop (with_faults fs w1) w2 r2 Hall Hrun2) as [Hs2 Hr2].
    split; [done |].
    split; [exact (Run_recorded_executed (with_faults fs w1) w2 r2 Hall Hrun2) |].
    split; [done |].
    intros ->. destruct (Run_total (with_faults [] w1) eq_refl) as (w' & Hrun').
    rewrite Hrun2 in Hrun'. congruence.
Qed.

End MigrationFacts.

Lemma Run_emptyWorld :
  Migration.Run Migration.NewMigrator Migration.emptyWorld = (inr tt, migratedWorld).
Proof. vm_compute. reflexivity. Qed.

Lemma Run_applies_pending_once_witness :
  Migration.started (Migration.log migratedWorld)
  = Migration.started (Migration.log Migration.emptyWorld)
    ++ Migration.pending Migration.emptyWorld
  /\ Migration.executed (Migration.db migratedWorld)
     = Migration.executed (Migration.db Migration.emptyWorld)
       ++ Migration.SAutoMigrate ["MigrationRecord"]
          :: Migration.up_statements
               (Migration.pending_migrations Migration.emptyWorld)
  /\ Migration.recorded migratedWorld
     = Migration.recorded Migration.emptyWorld
       ++ Migration.pending Migration.emptyWorld.
Proof.
  destruct (Run_applies_pending_once Migration.emptyWorld migratedWorld
              (inr tt) Run_emptyWorld) as [_ H].
  destruct (H eq_refl) as (Hs & He & Hr & _).
  exact (conj Hs (conj He Hr)).
Defined.

(** The statements of the first and of the fourth migration, and the
    number of statements a run on an empty database executes. *)
Example Up_statements :
  Migration.statements Migration.migration001Up
  = [ Migration.SExec ("CREATE EXTENSION IF NOT EXISTS " +:+ Migration.quote
                       +:+ "uuid-ossp" +:+ Migration.quote);
      Migration.SExec "CREATE SCHEMA IF NOT EXISTS process_engine";
      Migration.SExec "CREATE SCHEMA IF NOT EXISTS user_management";
      Migration.SExec "CREATE SCHEMA IF NOT EXISTS analytics";
      Migration.SExec "CREATE SCHEMA IF NOT EXISTS audit";
      Migration.SAutoMigrate ["User"; "RefreshToken"; "FormSchema"] ]
  /\ Migration.statements Migration.migration004Up
     = [Migration.SAutoMigrate ["AuditLog"]]
  /\ length (Migration.executed (Migration.db migratedWorld)) = 41%nat.
Proof. vm_compute. repeat split. Qed.

Example Run_emptyWorld_versions :
  Migration.started (Migration.log migratedWorld) = allVersions
  /\ Migration.recorded migratedWorld = allVersions
  /\ Migration.pending Migration.emptyWorld = allVersions.
Proof. vm_compute. repeat split. Qed.

(** A fault in the fourth migration stops the run after three; the next
    run starts with the fourth. *)
Example Run_resumes_after_fault :
  let w1 := snd (Migration.Run Migration.NewMigrator
                   (Migration.with_faults (repeat false 32 ++ [true])
                      Migration.emptyWorld)) in
  let w2 := snd (Migration.Run Migration.NewMigrator
                   (Migration.with_faults [] w1)) in
  Migration.recorded w1
  = ["001_initial_schema"; "002_rbac_system"; "003_process_engine"]
  /\ Migration.started (Migration.log w1)
     = ["001_initial_schema"; "002_rbac_system"; "003_process_engine";
        "004_audit_system"]
  /\ Migration.recorded w2 = allVersions
  /\ Migration.started (Migration.log w2)
     = ["001_initial_schema"; "002_rbac_system"; "003_process_engine";
        "004_audit_system"; "004_audit_system"; "005_indexes_optimization"].
Proof. vm_compute. repeat split. Qed.
Section TaskFacts.
Import ProcessEngine.
Local Open Scope nat_scope.

Lemma tasks_put_task (id : nat) (t : TaskInstance) (st : State) :
  id < length (tasks st) ->
  tasks (put_task id t st) !! id = Some t.
Proof. intros H. cbn. by apply list_lookup_insert_eq. Qed.

(** C6: on a task in the created state, a claim assigns the task to the
    claimant.  Of two claims by different users, taken in either order,
    the first succeeds and the second fails with [ConflictError] and
    changes nothing: the assignee is the user whose claim came first. *)
Theorem claim_first_wins (now1 now2 : Z) (st : State) (taskId : nat)
    (t : TaskInstance) (u1 u2 : string) :
  tasks st !! taskId = Some t ->
  TI_Status t = Created ->
  u1 <> u2 ->
  let '(r1, st1) := claim now1 taskId u1 st in
  let '(r2, st2) := claim now2 taskId u2 st1 in
  r1 = inr tt
  /\ (exists t1, tasks st1 !! taskId = Some t1
                 /\ TI_Status t1 = Assigned /\ TI_AssigneeID t1 = Some u1)
  /\ r2 = inl ConflictError
  /\ st2 = st1.
Proof.
  intros Ht Hs Hne.
  assert (Hlt : taskId < length (tasks st)) by (by eapply lookup_lt_Some).
  unfold claim at 1. rewrite Ht, Hs.
  unfold claim. cbn [tasks emit]. rewrite tasks_put_task by done.
  cbn [TI_Status TI_AssigneeID set_task_fields].
  destruct (decide (Some u1 = Some u2)) as [[= ?] | _]; [done |].
  split; [done |]. split; [| done].
  eexists. split; [reflexivity |]. done.
Qed.

End TaskFacts.

Lemma claim_first_wins_witness :
  let '(r1, st1) := ProcessEngine.claim 2 0 "ann" oneTask in
  let '(r2, st2) := ProcessEngine.claim 3 0 "bob" st1 in
  r1 = inr tt
  /\ (exists t1, ProcessEngine.tasks st1 !! 0%nat = Some t1
                 /\ ProcessEngine.TI_Status t1 = ProcessEngine.Assigned
                 /\ ProcessEngine.TI_AssigneeID t1 = Some "ann")
  /\ r2 = inl ProcessEngine.ConflictError
  /\ st2 = st1.
Proof.
  apply (claim_first_wins 2 3 oneTask 0 createdTask "ann" "bob");
    [reflexivity | reflexivity | discriminate].
Defined.

Section CancelFacts.
Import ProcessEngine.

(** C7: on an instance that is completed, cancelled or failed, [cancel]
    returns success and leaves the whole state as it is: status,
    current-step-set, variable context, task instances and outbox. *)
Theorem cancel_terminal_is_noop (now : Z) (st : State) (id : nat)
    (i : ProcessInstance) :
  instances st !! id = Some i ->
  PI_Status i = Completed \/ PI_Status i = Cancelled \/ PI_Status i = Failed ->
  cancel now id st = (inr tt, st).
Proof.
  intros Hi Hs. unfold cancel. rewrite Hi.
  by destruct Hs as [-> | [-> | ->]].
Qed.

End CancelFacts.

Lemma cancel_terminal_is_noop_witness :
  ProcessEngine.cancel 4 0 oneCompleted = (inr tt, oneCompleted).
Proof.
  apply (cancel_terminal_is_noop 4 oneCompleted 0 completedInstance);
    [reflexivity | left; reflexivity].
Defined.

Section RoutingFacts.
Import ProcessEngine.
Local Open Scope nat_scope.

Variable evaluate : string -> Variables -> Result Value.







End RoutingFacts.


(** The three outcomes of the gateway and the fork.  A rejected request
    falls to the else transition; without an else transition the
    instance fails; a fork makes both branches current. *)
Example decide_rejected :
  ProcessEngine.route sampleEvaluate {["approved" := ProcessEngine.VBool false]}
    (ProcessEngine.transitions decideStep)
  = ProcessEngine.Take ["end_rejected"].
Proof. vm_compute. reflexivity. Qed.

Example strict_rejected :
  (fun st => (ProcessEngine.PI_Status <$> ProcessEngine.instances st,
              ProcessEngine.detail <$> ProcessEngine.outbox st))
    (ProcessEngine.advance_at sampleEvaluate 3 strictProcess 0 "strict"
       atStrict (stateOf strictProcess atStrict))
  = ([ProcessEngine.Failed],
     [Some (ProcessEngine.UnroutableStepError "strict")]).
Proof. vm_compute. reflexivity. Qed.

Example advance_fork :
  (fun st => ProcessEngine.PI_CurrentSteps <$> ProcessEngine.instances st)
    (ProcessEngine.advance_at sampleEvaluate 5 forkProcess 0 "fork"
       atFork (stateOf forkProcess atFork))
  = [["a"; "b"]].
Proof. vm_compute. reflexivity. Qed.
Section RollbackFacts.
Import Migration.

(** ** The order of the rows *)

Lemma string_leb_trans (a b c : string) :
  String.leb a b = true -> String.leb b c = true -> String.leb a c = true.
Proof.
  unfold String.leb. revert b c.
  induction a as [|x a IH]; intros [|y b] [|z c]; cbn; try (intros; congruence).
  unfold Ascii.compare.
  destruct (N.compare_spec (N_of_ascii x) (N_of_ascii y)) as [Exy|Lxy|Gxy];
    destruct (N.compare_spec (N_of_ascii y) (N_of_ascii z)) as [Eyz|Lyz|Gyz];
    destruct (N.compare_spec (N_of_ascii x) (N_of_ascii z)) as [Exz|Lxz|Gxz];
    try (intros; congruence); try lia.
  apply IH.
Qed.

Lemma string_leb_refl (a : string) : String.leb a a = true.
Proof. by destruct (String.leb_total a a). Qed.

Lemma precedes_refl (a : MigrationRecord) : precedes a a = true.
Proof.
  unfold precedes. rewrite Z.eqb_refl, string_leb_refl.
  by rewrite orb_true_r.
Qed.

Lemma precedes_total (a b : MigrationRecord) :
  precedes a b = true \/ precedes b a = true.
Proof.
  unfold precedes.
  destruct (Z.ltb_spec (record_AppliedAt b) (record_AppliedAt a)); [by left |].
  destruct (Z.ltb_spec (record_AppliedAt a) (record_AppliedAt b)); [by right |].
  rewrite (proj2 (Z.eqb_eq (record_AppliedAt a) (record_AppliedAt b))) by lia.
  rewrite (proj2 (Z.eqb_eq (record_AppliedAt b) (record_AppliedAt a))) by lia.
  cbn. apply String.leb_total.
Qed.

Lemma precedes_trans (a b c : MigrationRecord) :
  precedes a b = true -> precedes b c = true -> precedes a c = true.
Proof.
  unfold precedes. rewrite !orb_true_iff, !andb_true_iff.
  rewrite !Z.ltb_lt, !Z.eqb_eq.
  intros [Hab | [Hab Lab]] [Hbc | [Hbc Lbc]].
  - left. lia.
  - left. lia.
  - left. lia.
  - right. split; [lia |]. by apply string_leb_trans with (record_Version b).
Qed.

Lemma fold_first_spec (rest : list MigrationRecord) (r0 : MigrationRecord) :
  let r := fold_left (fun best r' => if precedes best r' then best else r')
             rest r0 in
  r ∈ r0 :: rest /\ forall r', r' ∈ r0 :: rest -> precedes r r' = true.
Proof.
  revert r0. induction rest as [|x rest IH]; intros r0; cbn [fold_left].
  - split; [apply list_elem_of_here |].
    intros r' Hr'. apply list_elem_of_singleton in Hr' as ->. apply precedes_refl.
  - destruct (precedes r0 x) eqn:H0x.
    + destruct (IH r0) as [Hin Hmin]. split.
      * apply elem_of_cons in Hin as [-> | Hin];
          [apply list_elem_of_here | by do 2 apply list_elem_of_further].
      * intros r' Hr'. apply elem_of_cons in Hr' as [-> | Hr'].
        { apply Hmin, list_elem_of_here. }
        apply elem_of_cons in Hr' as [-> | Hr'].
        { apply precedes_trans with r0; [| done]. apply Hmin, list_elem_of_here. }
        by apply Hmin, list_elem_of_further.
    + destruct (IH x) as [Hin Hmin]. split.
      * by apply list_elem_of_further.
      * intros r' Hr'. apply elem_of_cons in Hr' as [-> | Hr'].
        { apply precedes_trans with x; [apply Hmin, list_elem_of_here |].
          destruct (precedes_total x r0) as [H|H]; [done | congruence]. }
        by apply Hmin.
Qed.

Lemma first_row_spec (rows : list MigrationRecord) (r : MigrationRecord) :
  first_row rows = Some r ->
  r ∈ rows /\ forall r', r' ∈ rows -> precedes r r' = true.
Proof.
  destruct rows as [|r0 rest]; [done |]. intros [= <-]. apply fold_first_spec.
Qed.

Lemma first_row_nil (rows : list MigrationRecord) :
  first_row rows = None <-> rows = [].
Proof. by destruct rows. Qed.

(** ** The calls of [Rollback] on the record table *)

Lemma First_inv (w w' : World) (r : error + MigrationRecord) :
  db_First_record w = (r, w') ->
  log w' = log w
  /\ migration_records (db w') = migration_records (db w)
  /\ executed (db w') = executed (db w)
  /\ (forall row, r = inr row -> first_row (rows_of w) = Some row)
  /\ (forall row, first_row (rows_of w) = Some row ->
        hd false (faults (db w)) = false -> r = inr row).
Proof.
  unfold db_First_record, db_call, rows_of.
  destruct (faults (db w)) as [|[|] rest] eqn:Hf; cbn;
    destruct (migration_records (db w)) as [rows|] eqn:Hrows; cbn;
    try destruct (first_row rows) as [row0|] eqn:Hfirst;
    intros H; inversion H; subst; cbn;
    repeat split; intros; congruence.
Qed.

Lemma Delete_inv (v : string) (w w' : World) (r : error + unit) :
  db_Delete_record v w = (r, w') ->
  log w' = log w
  /\ executed (db w') = executed (db w)
  /\ (forall e, r = inl e -> migration_records (db w') = migration_records (db w))
  /\ (r = inr tt ->
      rows_of w' = filter (fun row => record_Version row <> v) (rows_of w))
  /\ (forall rows, migration_records (db w) = Some rows ->
        hd false (faults (db w)) = false -> r = inr tt).
Proof.
  unfold db_Delete_record, db_call, rows_of.
  destruct (faults (db w)) as [|[|] rest] eqn:Hf; cbn;
    destruct (migration_records (db w)) as [rows|] eqn:Hrows; cbn;
    intros H; inversion H; subst; cbn;
    repeat split; intros; congruence.
Qed.

Lemma find_migration_Some (ms : list Migration) (v : string) (m : Migration) :
  find_migration ms v = Some m -> In m ms /\ Version m = v.
Proof.
  unfold find_migration. intros H. apply find_some in H as [Hin Heq].
  split; [done |]. by apply String.eqb_eq.
Qed.

Lemma find_migration_None (ms : list Migration) (v : string) :
  v ∉ map Version ms -> find_migration ms v = None.
Proof.
  intros Hv. unfold find_migration.
  destruct (find _ ms) as [m|] eqn:Hfind; [| done].
  apply find_some in Hfind as [Hin Heq]. apply String.eqb_eq in Heq.
  destruct Hv. rewrite <- Heq. apply list_elem_of_fmap_2. by apply list_elem_of_In.
Qed.

(** ** What the [Down] functions execute *)

Lemma executes_Down (m : Migration) :
  In m getMigrations -> executes (Down m) (statements (Down m)).
Proof.
  intros Hm. unfold getMigrations in Hm. cbn [In] in Hm.
  repeat (destruct Hm as [<- | Hm]); [.. | destruct Hm]; cbn [Down].
  - apply executes_run_stmt.
  - apply executes_run_stmt.
  - apply executes_run_stmt.
  - apply executes_run_stmt.
  - unfold migration005Down. cbv zeta.
    lazymatch goal with
    | |- executes (mbind _ (for_range ?xs _)) _ =>
        change (statements _) with (map SExec xs ++ [])
    end.
    apply executes_bind; [| apply executes_ret].
    apply executes_for_range. intros sql. apply executes_run_stmt.
Qed.

(** ** [Rollback] *)

Lemma Rollback_unfold (mg : Migrator) (w : World) :
  Rollback mg w =
  match wrap "no migrations to rollback: %w" [] db_First_record w with
  | (inl err, w1) => (inl (Wrapped err), w1)
  | (inr lastRecord, w1) =>
      match find_migration (migrations mg) (record_Version lastRecord) with
      | None =>
          (inl (NotFound "migration %s not found" [record_Version lastRecord]), w1)
      | Some targetMigration =>
          match undo targetMigration (record_Version lastRecord) w1 with
          | (inl err, w2) => (inl (Wrapped err), w2)
          | (inr _, w2) => (inr tt, w2)
          end
      end
  end.
Proof. reflexivity. Qed.

Lemma undo_inv (m : Migration) (v : string) (w w' : World) (r : error + unit) :
  In m getMigrations ->
  undo m v w = (r, w') ->
  (forall e, r = inl e -> migration_records (db w') = migration_records (db w))
  /\ (r = inr tt ->
      rows_of w' = filter (fun row => record_Version row <> v) (rows_of w)
      /\ executed (db w') = executed (db w) ++ statements (Down m)
      /\ log w' = log w
           ++ [Printf "Rolling back migration %s: %s" [Version m; Description m];
               Printf "Migration %s rolled back successfully" [Version m]]).
Proof.
  intros Hm H. unfold undo in H.
  destruct (bind_inv _ _ _ _ _ H) as [(e & Hc & _) | ([] & w1 & Hlog & H1)];
    [by inversion Hc |].
  destruct (log_Printf_inv _ _ _ _ _ Hlog) as (_ & Hdb1 & Hl1). clear H Hlog.
  destruct (bind_inv _ _ _ _ _ H1) as [(e & Hc & ->) | ([] & w2 & Hdown & H2)].
  { destruct (wrap_inv _ _ _ _ _ _ Hc) as [(e' & Hc' & _) | (x & _ & [=])].
    destruct (executes_Down m Hm _ _ _ Hc') as (_ & Hrec & _).
    split; [| intros [=]]. intros _ _. by rewrite Hrec, Hdb1. }
  assert (Hdown' : Down m w1 = (inr tt, w2)).
  { destruct (wrap_inv _ _ _ _ _ _ Hdown) as [(e' & _ & [=]) | ([] & Hc' & _)].
    exact Hc'. }
  destruct (executes_Down m Hm _ _ _ Hdown') as (Hl2 & Hrec2 & Hex2).
  specialize (Hex2 eq_refl). clear H1 Hdown.
  destruct (bind_inv _ _ _ _ _ H2) as [(e & Hc & ->) | ([] & w3 & Hdel & H3)].
  { destruct (wrap_inv _ _ _ _ _ _ Hc) as [(e' & Hc' & _) | (x & _ & [=])].
    destruct (Delete_inv _ _ _ _ Hc') as (_ & _ & Hrec3 & _).
    split; [| intros [=]]. intros _ _.
    by rewrite (Hrec3 e' eq_refl), Hrec2, Hdb1. }
  assert (Hdel' : db_Delete_record v w2 = (inr tt, w3)).
  { destruct (wrap_inv _ _ _ _ _ _ Hdel) as [(e' & _ & [=]) | ([] & Hc' & _)].
    exact Hc'. }
  destruct (Delete_inv _ _ _ _ Hdel') as (Hl3 & Hex3 & _ & Hrows3 & _).
  specialize (Hrows3 eq_refl).
  destruct (log_Printf_inv _ _ _ _ _ H3) as (-> & Hdb4 & Hl4).
  split; [intros e [=] |]. intros _.
  assert (Hrows : rows_of w2 = rows_of w).
  { unfold rows_of. by rewrite Hrec2, Hdb1. }
  split; [| split].
  - unfold rows_of at 1. rewrite Hdb4. fold (rows_of w3). by rewrite Hrows3, Hrows.
  - by rewrite Hdb4, Hex3, Hex2, Hdb1.
  - rewrite Hl4, Hl3, Hl2, Hl1. by rewrite <- app_assoc.
Qed.

Lemma Rollback_success_inv (w w' : World) :
  Rollback NewMigrator w = (inr tt, w') ->
  exists (r : MigrationRecord) (m : Migration),
    r ∈ rows_of w
    /\ (forall r', r' ∈ rows_of w -> precedes r r' = true)
    /\ In m getMigrations /\ Version m = record_Version r
    /\ rows_of w'
       = filter (fun row => record_Version row <> record_Version r) (rows_of w)
    /\ executed (db w') = executed (db w) ++ statements (Down m)
    /\ log w'
       = log w
         ++ [Printf "Rolling back migration %s: %s" [Version m; Description m];
             Printf "Migration %s rolled back successfully" [Version m]].
Proof.
  rewrite Rollback_unfold. unfold wrap at 1.
  destruct (db_First_record w) as [[e|r] w1] eqn:Hfirst; [intros [=] |].
  destruct (First_inv _ _ _ Hfirst) as (Hl1 & Hrec1 & Hex1 & Hrow & _).
  destruct (first_row_spec _ _ (Hrow r eq_refl)) as [Hin Hmin].
  destruct (find_migration _ _) as [m|] eqn:Hfind; [| intros [=]].
  destruct (find_migration_Some _ _ _ Hfind) as [Hm Hv].
  destruct (undo m (record_Version r) w1) as [[e|[]] w2] eqn:Hundo; [intros [=] |].
  intros [= <-].
  destruct (undo_inv _ _ _ _ _ Hm Hundo) as [_ Hok].
  destruct (Hok eq_refl) as (Hrows & Hex & Hlog).
  assert (Hrows1 : rows_of w1 = rows_of w) by (unfold rows_of; by rewrite Hrec1).
  exists r, m. rewrite Hrows, Hex, Hlog, Hrows1, Hex1, Hl1.
  by repeat split.
Qed.

(** What [Rollback] has done when it returns nil: the row it removed
    is the one the order puts first, the latest applied and, among the
    rows of that second, the one with the least version; the migration
    of that version is in the list, its [Down] statements were executed
    after the ones executed before, no other row was touched, and the
    log has the two lines of the rollback. *)
Theorem Rollback_undoes_first_in_order (w w' : World) :
  Rollback NewMigrator w = (inr tt, w') ->
  exists (r : MigrationRecord) (m : Migration),
    r ∈ rows_of w
    /\ (forall r', r' ∈ rows_of w -> precedes r r' = true)
    /\ In m getMigrations /\ Version m = record_Version r
    /\ rows_of w'
       = filter (fun row => record_Version row <> record_Version r) (rows_of w)
    /\ executed (db w') = executed (db w) ++ statements (Down m)
    /\ log w'
       = log w
         ++ [Printf "Rolling back migration %s: %s" [Version m; Description m];
             Printf "Migration %s rolled back successfully" [Version m]].
Proof. exact (Rollback_success_inv w w'). Qed.

(** [Rollback] on a record table that is empty or missing: it returns
    the error of the query wrapped as "no migrations to rollback", and
    has executed nothing, logged nothing and left the table as it was,
    whatever the database answers. *)
Theorem Rollback_nothing_recorded (w w' : World) (r : RollbackError + unit) :
  recorded w = [] ->
  Rollback NewMigrator w = (r, w') ->
  (exists e, r = inl (Wrapped (Errorf "no migrations to rollback: %w" [] e)))
  /\ migration_records (db w') = migration_records (db w)
  /\ executed (db w') = executed (db w)
  /\ log w' = log w.
Proof.
  intros Hnone. rewrite Rollback_unfold. unfold wrap at 1.
  destruct (db_First_record w) as [[e|row] w1] eqn:Hfirst.
  - destruct (First_inv _ _ _ Hfirst) as (Hl1 & Hrec1 & Hex1 & _).
    intros [= <- <-]. split; [by exists e | done].
  - destruct (First_inv _ _ _ Hfirst) as (_ & _ & _ & Hrow & _).
    destruct (first_row_spec _ _ (Hrow row eq_refl)) as [Hin _].
    unfold recorded in Hnone. fold (rows_of w) in Hnone.
    apply fmap_nil_inv in Hnone. rewrite Hnone in Hin.
    by apply elem_of_nil in Hin.
Qed.

(** A recorded version that the list of migrations does not have
    blocks [Rollback] when its row is the first in the order: the
    answer is an error, "migration not found" unless the query itself
    failed, and nothing is executed, logged or removed. *)
Theorem Rollback_unknown_version (w w' : World) (r : RollbackError + unit)
    (row : MigrationRecord) :
  first_row (rows_of w) = Some row ->
  record_Version row ∉ map Version getMigrations ->
  Rollback NewMigrator w = (r, w') ->
  (hd false (faults (db w)) = false ->
     r = inl (NotFound "migration %s not found" [record_Version row]))
  /\ r <> inr tt
  /\ migration_records (db w') = migration_records (db w)
  /\ executed (db w') = executed (db w)
  /\ log w' = log w.
Proof.
  intros Hrow Hv. rewrite Rollback_unfold. unfold wrap at 1.
  destruct (db_First_record w) as [[e|row'] w1] eqn:Hfirst.
  - destruct (First_inv _ _ _ Hfirst) as (Hl1 & Hrec1 & Hex1 & _ & Hok).
    intros [= <- <-]. split.
    + intros Hf. discriminate (Hok row Hrow Hf).
    + by repeat split.
  - destruct (First_inv _ _ _ Hfirst) as (Hl1 & Hrec1 & Hex1 & Hsome & _).
    specialize (Hsome row' eq_refl). rewrite Hrow in Hsome.
    injection Hsome as <-.
    cbn [migrations NewMigrator]. rewrite (find_migration_None _ _ Hv).
    intros [= <- <-]. by repeat split.
Qed.

(** A rollback that fails removes no record: the row goes only after
    the [Down] function has succeeded, and the removal is the last call
    that can fail. *)
Theorem Rollback_failure_keeps_records (w w' : World) (e : RollbackError) :
  Rollback NewMigrator w = (inl e, w') ->
  migration_records (db w') = migration_records (db w).
Proof.
  rewrite Rollback_unfold. unfold wrap at 1.
  destruct (db_First_record w) as [[e1|row] w1] eqn:Hfirst;
    destruct (First_inv _ _ _ Hfirst) as (_ & Hrec1 & _).
  - by intros [= _ <-].
  - destruct (find_migration _ _) as [m|] eqn:Hfind.
    + destruct (find_migration_Some _ _ _ Hfind) as [Hm _].
      destruct (undo m (record_Version row) w1) as [[e2|[]] w2] eqn:Hundo;
        [| intros [=]].
      destruct (undo_inv _ _ _ _ _ Hm Hundo) as [Hfail _].
      intros [= _ <-]. by rewrite (Hfail e2 eq_refl).
    + by intros [= _ <-].
Qed.

Lemma recorded_rows_of (w : World) : recorded w = map record_Version (rows_of w).
Proof. reflexivity. Qed.

Lemma map_filter_version (v : string) (rows : list MigrationRecord) :
  map record_Version (filter (fun row => record_Version row <> v) rows)
  = filter (fun u => u <> v) (map record_Version rows).
Proof.
  induction rows as [|row rows IH]; [done |]. cbn [map].
  destruct (decide (record_Version row = v)) as [E|E].
  - rewrite !filter_cons_False by (intros H; by apply H). exact IH.
  - rewrite !filter_cons_True by done. cbn [map]. by rewrite IH.
Qed.

(** When all rows carry the same time of application, as after
    migrations applied within one second, the version [Rollback]
    removes is the least one in byte order, not the one recorded
    last. *)
Theorem Rollback_same_second_undoes_least_version (w w' : World) :
  (forall r r', r ∈ rows_of w -> r' ∈ rows_of w ->
                record_AppliedAt r = record_AppliedAt r') ->
  Rollback NewMigrator w = (inr tt, w') ->
  exists v : string,
    v ∈ recorded w
    /\ (forall u, u ∈ recorded w -> String.leb v u = true)
    /\ recorded w' = filter (fun u => u <> v) (recorded w).
Proof.
  intros Hsame Hrb.
  destruct (Rollback_success_inv w w' Hrb)
    as (r & m & Hin & Hmin & _ & _ & Hrows & _).
  exists (record_Version r). rewrite !recorded_rows_of. split; [| split].
  - by apply list_elem_of_fmap_2.
  - intros u Hu. apply list_elem_of_fmap in Hu as (r' & -> & Hr').
    specialize (Hmin r' Hr'). unfold precedes in Hmin.
    rewrite (Hsame r r' Hin Hr'), Z.ltb_irrefl, Z.eqb_refl in Hmin. exact Hmin.
  - by rewrite Hrows, map_filter_version.
Qed.

Lemma record_eq_dec (a b : MigrationRecord) : a = b \/ a <> b.
Proof.
  destruct a as [va ta], b as [vb tb].
  destruct (decide (va = vb)) as [-> | Hv]; [| right; congruence].
  destruct (decide (ta = tb)) as [-> | Ht]; [by left | right; congruence].
Qed.

(** When one row was applied strictly later than every other row,
    [Rollback] removes the version of that row: with distinct times the
    migration undone is the one applied last. *)
Theorem Rollback_undoes_strictly_latest (w w' : World) (r : MigrationRecord) :
  r ∈ rows_of w ->
  (forall r', r' ∈ rows_of w -> r' <> r ->
              (record_AppliedAt r' < record_AppliedAt r)%Z) ->
  Rollback NewMigrator w = (inr tt, w') ->
  recorded w' = filter (fun u => u <> record_Version r) (recorded w).
Proof.
  intros Hr Hlate Hrb.
  destruct (Rollback_success_inv w w' Hrb)
    as (r0 & m & Hin & Hmin & _ & _ & Hrows & _).
  assert (r0 = r) as ->.
  { destruct (record_eq_dec r0 r) as [E | E]; [exact E | exfalso].
    specialize (Hlate r0 Hin E). specialize (Hmin r Hr).
    unfold precedes in Hmin.
    apply orb_true_iff in Hmin as [Hmin | Hmin].
    - apply Z.ltb_lt in Hmin. lia.
    - apply andb_true_iff in Hmin as [Hmin _]. apply Z.eqb_eq in Hmin. lia. }
  by rewrite !recorded_rows_of, Hrows, map_filter_version.
Qed.

End RollbackFacts.

Section RunFacts.
Import Migration.

(** ** A run with any outcome *)

Lemma Create_fail_inv (v : string) (w w' : World) (e : error) :
  db_Create_record v w = (inl e, w') ->
  migration_records (db w') = migration_records (db w).
Proof.
  unfold db_Create_record, db_call.
  destruct (faults (db w)) as [|[|] rest] eqn:Hf; cbn;
    destruct (migration_records (db w)) as [rows|] eqn:Hrows;
    try destruct (decide (v ∈ map record_Version rows));
    intros H; inversion H; subst; cbn; congruence.
Qed.

Lemma run_one_any (applied : gmap string bool) (m : Migration) (w w' : World)
    (r : error + unit) (rows : list MigrationRecord) :
  benign (Up m) ->
  run_one applied m w = (r, w') ->
  migration_records (db w) = Some rows ->
  exists rows',
    migration_records (db w') = Some rows'
    /\ ((r = inr tt
         /\ map record_Version rows' = map record_Version rows ++ todo applied [m])
        \/ ((exists e, r = inl e) /\ rows' = rows)).
Proof.
  intros Hup Hrun Hrows.
  destruct r as [e|[]].
  2: { destruct (run_one_success applied m w w' rows Hup Hrun Hrows)
         as (rows' & H1 & H2 & _).
       exists rows'. split; [done |]. by left. }
  exists rows. split; [| right; split; [by exists e | done]].
  unfold run_one in Hrun.
  destruct (index applied (Version m)); cbn [negb] in Hrun; [by inversion Hrun |].
  destruct (bind_inv _ _ _ _ _ Hrun) as [(e0 & Hc & _) | ([] & w1 & Hlog & H1)];
    [by inversion Hc |].
  destruct (log_Printf_inv _ _ _ _ _ Hlog) as (_ & Hdb1 & _).
  destruct (bind_inv _ _ _ _ _ H1) as [(e1 & Hc & _) | ([] & w2 & Hupw & H2)].
  { destruct (wrap_inv _ _ _ _ _ _ Hc) as [(e' & Hc' & _) | (x & _ & [=])].
    destruct (Hup _ _ _ Hc') as [(_ & Hr & _) _]. apply Hr. by rewrite Hdb1. }
  assert (Hrows2 : migration_records (db w2) = Some rows).
  { destruct (wrap_inv _ _ _ _ _ _ Hupw) as [(e' & _ & [=]) | (x & Hc' & _)].
    destruct (Hup _ _ _ Hc') as [(_ & Hr & _) _]. apply Hr. by rewrite Hdb1. }
  destruct (bind_inv _ _ _ _ _ H2) as [(e2 & Hc & _) | ([] & w3 & _ & H3)].
  - destruct (wrap_inv _ _ _ _ _ _ Hc) as [(e' & Hc' & _) | (x & _ & [=])].
    by rewrite (Create_fail_inv _ _ _ _ Hc').
  - by inversion H3.
Qed.

Lemma loop_any (applied : gmap string bool) (ms : list Migration) :
  (forall m, In m ms -> benign (Up m)) ->
  forall (w w' : World) (r : error + unit) (rows : list MigrationRecord),
  for_range ms (run_one applied) w = (r, w') ->
  migration_records (db w) = Some rows ->
  exists (rows' : list MigrationRecord) (p q : list string),
    migration_records (db w') = Some rows'
    /\ todo applied ms = p ++ q
    /\ map record_Version rows' = map record_Version rows ++ p.
Proof.
  induction ms as [|m ms IH]; intros Hben w w' r rows Hrun Hrows.
  - inversion Hrun; subst. exists rows, [], []. by rewrite !app_nil_r.
  - cbn [for_range] in Hrun. rewrite todo_cons.
    destruct (bind_inv _ _ _ _ _ Hrun) as [(e & H1 & _) | ([] & w1 & H1 & Hrest)].
    + destruct (run_one_any applied m w w' (inl e) rows
                  (Hben m (or_introl eq_refl)) H1 Hrows)
        as (rows' & Hrows' & [[[=] _] | [_ ->]]).
      exists rows, [], (todo applied [m] ++ todo applied ms).
      by rewrite !app_nil_r.
    + destruct (run_one_success applied m w w1 rows (Hben m (or_introl eq_refl))
                  H1 Hrows) as (rows1 & Hrows1 & Hv1 & _).
      destruct (IH (fun m' Hm' => Hben m' (or_intror Hm')) w1 w' r rows1 Hrest Hrows1)
        as (rows' & p & q & Hrows' & Htodo & Hv').
      exists rows', (todo applied [m] ++ p), q.
      split; [done |]. split.
      * by rewrite Htodo, app_assoc.
      * by rewrite Hv', Hv1, app_assoc.
Qed.

Lemma Run_any (w w1 : World) (r : error + unit) :
  Run NewMigrator w = (r, w1) ->
  exists p q : list string,
    pending w = p ++ q /\ recorded w1 = recorded w ++ p.
Proof.
  rewrite Run_unfold. intros H.
  destruct (bind_inv _ _ _ _ _ H) as [(e & Ham & _) | ([] & w0 & Ham & H1)].
  { destruct (wrap_inv _ _ _ _ _ _ Ham) as [(e' & Ham' & _) | (x & _ & [=])].
    destruct (AutoMigrate_records_inv _ _ _ Ham') as (_ & Hrec1 & _).
    exists [], (pending w). by rewrite app_nil_r. }
  destruct (wrap_inv _ _ _ _ _ _ Ham) as [(e & _ & [=]) | (x & Ham' & _)].
  destruct (AutoMigrate_records_inv _ _ _ Ham') as (_ & Hrec1 & Hsome1 & _).
  destruct x. destruct (Hsome1 eq_refl) as (rows & Hrows1).
  destruct (bind_inv _ _ _ _ _ H1) as [(e & Hga & _) | (applied & w2 & Hga & H2)].
  { destruct (wrap_inv _ _ _ _ _ _ Hga) as [(e' & Hga' & _) | (x & _ & [=])].
    destruct (getAppliedMigrations_inv _ _ _ Hga') as (Hu2 & _).
    destruct (recorded_untouched _ _ _ Hu2 Hrows1) as [Hrec2 _].
    exists [], (pending w). rewrite app_nil_r. split; [done | congruence]. }
  destruct (wrap_inv _ _ _ _ _ _ Hga) as [(e & _ & [=]) | (x & Hga' & [= <-])].
  destruct (getAppliedMigrations_inv _ _ _ Hga') as (Hu2 & Happ & _).
  destruct (Happ applied eq_refl) as (rows' & Hrows' & Hidx).
  rewrite Hrows1 in Hrows'. injection Hrows' as <-.
  destruct (recorded_untouched _ _ _ Hu2 Hrows1) as [Hrec2 Hrows2].
  assert (Hpend : todo applied getMigrations = pending w).
  { apply pending_todo. intros v. rewrite Hidx, <- Hrec1.
    unfold recorded. by rewrite Hrows1. }
  assert (Hrw : recorded w = map record_Version rows).
  { rewrite <- Hrec1. unfold recorded. by rewrite Hrows1. }
  destruct (bind_inv _ _ _ _ _ H2) as [(e & Hloop & _) | ([] & w3 & Hloop & H3)].
  - destruct (loop_any applied getMigrations (fun m Hm => benign_Up m Hm)
                w2 w1 (inl e) rows Hloop Hrows2)
      as (rows3 & p & q & Hrows3 & Htodo & Hv3).
    exists p, q. rewrite <- Hpend. split; [done |].
    unfold recorded at 1. rewrite Hrows3. cbn. by rewrite Hv3, Hrw.
  - destruct (loop_any applied getMigrations (fun m Hm => benign_Up m Hm)
                w2 w3 (inr tt) rows Hloop Hrows2)
      as (rows3 & p & q & Hrows3 & Htodo & Hv3).
    destruct (log_Printf_inv _ _ _ _ _ H3) as (_ & Hdb & _).
    exists p, q. rewrite <- Hpend. split; [done |].
    unfold recorded at 1. rewrite Hdb, Hrows3. cbn. by rewrite Hv3, Hrw.
Qed.

Lemma filter_not_in_self (p : list string) : filter (fun v => v ∉ p) p = [].
Proof.
  apply elem_of_nil_inv. intros v Hv.
  apply list_elem_of_filter in Hv as [Hn Hin]. by apply Hn.
Qed.

Lemma filter_not_in_disjoint (p q : list string) :
  (forall v, v ∈ q -> v ∉ p) -> filter (fun v => v ∉ p) q = q.
Proof.
  intros Hd. induction q as [|x q IH]; [done |].
  rewrite filter_cons_True by (apply Hd, list_elem_of_here).
  f_equal. apply IH. intros v Hv. by apply Hd, list_elem_of_further.
Qed.

Lemma NoDup_pending (w : World) : NoDup (pending w).
Proof. apply NoDup_filter, NoDup_getMigrations. Qed.

(** What is still pending once a prefix of the pending versions has
    been recorded. *)
Lemma pending_after_prefix (w w1 : World) (p q : list string) :
  pending w = p ++ q ->
  recorded w1 = recorded w ++ p ->
  pending w1 = q.
Proof.
  intros Hpq Hrec. unfold pending at 1. rewrite Hrec.
  rewrite (list_filter_iff _ (fun v => (v ∉ p) /\ (v ∉ recorded w))).
  2: { intros v. rewrite not_elem_of_app. tauto. }
  rewrite <- list_filter_filter. fold (pending w). rewrite Hpq, filter_app.
  pose proof (NoDup_pending w) as Hnd. rewrite Hpq in Hnd.
  apply NoDup_app in Hnd as (_ & Hdisj & _).
  rewrite filter_not_in_self, filter_not_in_disjoint; [done |].
  intros v Hq Hp. by apply (Hdisj v).
Qed.

Lemma Run_resumes (w w1 : World) (r : error + unit) :
  Run NewMigrator w = (r, w1) ->
  (exists p q : list string,
      pending w = p ++ q /\ recorded w1 = recorded w ++ p)
  /\ exists w2 : World,
       Run NewMigrator (with_faults [] w1) = (inr tt, w2)
       /\ recorded w2 = recorded w ++ pending w.
Proof.
  intros Hrun. destruct (Run_any w w1 r Hrun) as (p & q & Hpq & Hrec).
  split; [by exists p, q |].
  destruct (Run_total (with_faults [] w1) eq_refl) as (w2 & Hrun2).
  exists w2. split; [done |].
  destruct (Run_success_inv _ _ Hrun2) as [_ Hrec2].
  change (recorded (with_faults [] w1)) with (recorded w1) in Hrec2.
  change (pending (with_faults [] w1)) with (pending w1) in Hrec2.
  rewrite Hrec2, (pending_after_prefix w w1 p q Hpq Hrec), Hrec, Hpq.
  by rewrite app_assoc.
Qed.

(** A run that fails part way loses nothing and can be resumed.
    Whatever the outcome of [Run], the recorded versions are those
    recorded before followed by a prefix of the pending ones, in the
    order of the list; and the next run, on a database that answers
    every call, returns nil and leaves recorded exactly what one
    unbroken run would have recorded. *)
Theorem Run_resumes_after_failure (w w1 : World) (r : error + unit) :
  Run NewMigrator w = (r, w1) ->
  (exists p q : list string,
      pending w = p ++ q /\ recorded w1 = recorded w ++ p)
  /\ exists w2 : World,
       Run NewMigrator (with_faults [] w1) = (inr tt, w2)
       /\ recorded w2 = recorded w ++ pending w.
Proof. exact (Run_resumes w w1 r). Qed.

(** ** What [Run] never does *)

Lemma never_drops_ret {A} (a : A) : never_drops (mret a).
Proof.
  intros w r w' H. inversion H; subst. exists []. by rewrite app_nil_r.
Qed.

Lemma never_drops_bind {A B} (c : M A) (f : A -> M B) :
  never_drops c -> (forall a, never_drops (f a)) -> never_drops (c ≫= f).
Proof.
  intros Hc Hf w r w' H.
  destruct (bind_inv _ _ _ _ _ H) as [(e & Hcw & ->) | (a & w1 & Hcw & Hfw)].
  - apply (Hc _ _ _ Hcw).
  - destruct (Hc _ _ _ Hcw) as (l1 & He1 & Hl1).
    destruct (Hf a _ _ _ Hfw) as (l2 & He2 & Hl2).
    exists (l1 ++ l2). split; [by rewrite He2, He1, app_assoc |].
    by apply Forall_app.
Qed.

Lemma never_drops_for_range {A} (xs : list A) (f : A -> M unit) :
  Forall (fun x => never_drops (f x)) xs -> never_drops (for_range xs f).
Proof.
  induction 1 as [|x xs Hx Hxs IH]; cbn [for_range].
  - apply never_drops_ret.
  - apply never_drops_bind; [exact Hx | intros _; exact IH].
Qed.

Lemma never_drops_wrap {A} (fmt : string) (a : list string) (c : M A) :
  never_drops c -> never_drops (wrap fmt a c).
Proof.
  intros Hc w r w' H.
  destruct (wrap_inv _ _ _ _ _ _ H) as [(e & Hcw & _) | (x & Hcw & _)];
    apply (Hc _ _ _ Hcw).
Qed.

Lemma never_drops_log (fmt : string) (a : list string) :
  never_drops (log_Printf fmt a).
Proof.
  intros w r w' H. inversion H; subst. exists []. by rewrite app_nil_r.
Qed.

(** A database call whose body adds at most the statement [s]. *)
Lemma never_drops_db_call {A} (name : string) (body : DB -> (error + A) * DB)
    (s : Stmt) :
  is_drop s = false ->
  (forall d, executed (snd (body d)) = executed d
             \/ executed (snd (body d)) = executed d ++ [s]) ->
  never_drops (db_call name body).
Proof.
  intros Hs Hbody w r w'. unfold db_call.
  destruct (faults (db w)) as [|[|] rest] eqn:Hf.
  - match goal with
    | |- context [body ?d] =>
        pose proof (Hbody d) as Hd; destruct (body d) as [r0 d0]
    end.
    intros H. inversion H; subst. cbn in *.
    destruct Hd as [-> | ->]; [exists []; by rewrite app_nil_r |].
    exists [s]. split; [done |]. by apply Forall_singleton.
  - intros H. inversion H; subst. exists []. by rewrite app_nil_r.
  - match goal with
    | |- context [body ?d] =>
        pose proof (Hbody d) as Hd; destruct (body d) as [r0 d0]
    end.
    intros H. inversion H; subst. cbn in *.
    destruct Hd as [-> | ->]; [exists []; by rewrite app_nil_r |].
    exists [s]. split; [done |]. by apply Forall_singleton.
Qed.

Lemma never_drops_run_stmt (name : string) (s : Stmt) :
  is_drop s = false -> never_drops (db_call name (run_stmt s)).
Proof. intros Hs. apply (never_drops_db_call name _ s Hs). intros d. by right. Qed.

Lemma never_drops_AutoMigrate (models : list string) :
  never_drops (db_AutoMigrate models).
Proof.
  apply (never_drops_db_call _ _ (SAutoMigrate models) eq_refl).
  intros d. by right.
Qed.

Lemma never_drops_Find : never_drops db_Find_records.
Proof.
  apply (never_drops_db_call _ _ (SAutoMigrate []) eq_refl).
  intros d. left. by destruct (migration_records d).
Qed.

Lemma never_drops_Create (v : string) : never_drops (db_Create_record v).
Proof.
  apply (never_drops_db_call _ _ (SAutoMigrate []) eq_refl).
  intros d. left. destruct (migration_records d) as [rows|]; [| done].
  by destruct (decide _).
Qed.

Ltac never_drops_step :=
  first
    [ apply never_drops_bind; [| intros ?]
    | apply never_drops_for_range;
      repeat (apply List.Forall_cons; [apply never_drops_run_stmt; reflexivity |]);
      apply List.Forall_nil
    | apply never_drops_AutoMigrate
    | apply never_drops_run_stmt; reflexivity
    | apply never_drops_ret ].

Lemma never_drops_Up (m : Migration) : In m getMigrations -> never_drops (Up m).
Proof.
  intros Hm. unfold getMigrations in Hm. cbn [In] in Hm.
  repeat (destruct Hm as [<- | Hm]); [.. | destruct Hm]; cbn [Up];
    unfold migration001Up, migration002Up, migration003Up, migration004Up,
      migration005Up, db_Exec, db_FirstOrCreate; cbv zeta;
    repeat never_drops_step.
Qed.

Lemma never_drops_Run : never_drops (Run NewMigrator).
Proof.
  rewrite Run_unfold.
  apply never_drops_bind; [apply never_drops_wrap, never_drops_AutoMigrate |].
  intros _. apply never_drops_bind.
  { apply never_drops_wrap. unfold getAppliedMigrations.
    apply never_drops_bind; [apply never_drops_Find |].
    intros rows. apply never_drops_ret. }
  intros applied. apply never_drops_bind; [| intros _; apply never_drops_log].
  apply never_drops_for_range. apply List.Forall_forall. intros m Hm.
  unfold run_one. destruct (negb _); [| apply never_drops_ret].
  apply never_drops_bind; [apply never_drops_log | intros _].
  apply never_drops_bind; [apply never_drops_wrap, never_drops_Up, Hm | intros _].
  apply never_drops_bind; [apply never_drops_wrap, never_drops_Create | intros _].
  apply never_drops_log.
Qed.

(** [Run] only adds to the schema.  Whatever the outcome and whatever
    the database answers, the statements executed before are still
    there in their order, and none of the statements the run added
    drops a table or an index. *)
Theorem Run_never_drops (w w' : World) (r : error + unit) :
  Run NewMigrator w = (r, w') ->
  exists l : list Stmt,
    executed (db w') = executed (db w) ++ l
    /\ Forall (fun s => is_drop s = false) l.
Proof. exact (never_drops_Run w r w'). Qed.

(** ** [Rollback] and [Run] together *)

Lemma filter_ext_elem (P Q : string -> Prop) `{!forall x, Decision (P x)}
    `{!forall x, Decision (Q x)} (l : list string) :
  (forall x, x ∈ l -> P x <-> Q x) -> filter P l = filter Q l.
Proof.
  intros Hext. induction l as [|x l IH]; [done |].
  assert (IH' : filter P l = filter Q l).
  { apply IH. intros y Hy. by apply Hext, list_elem_of_further. }
  pose proof (Hext x (list_elem_of_here x l)) as Hx.
  destruct (decide (P x)) as [Hp | Hp].
  - rewrite (filter_cons_True P), (filter_cons_True Q) by tauto. by f_equal.
  - rewrite (filter_cons_False P), (filter_cons_False Q) by tauto. exact IH'.
Qed.

Lemma filter_eq_NoDup (v : string) (l : list string) :
  NoDup l -> v ∈ l -> filter (fun u => u = v) l = [v].
Proof.
  induction 1 as [|x l Hx Hnd IH]; intros Hv; [by apply elem_of_nil in Hv |].
  destruct (decide (x = v)) as [-> | Hne].
  - rewrite filter_cons_True by done. f_equal.
    apply elem_of_nil_inv. intros u Hu.
    apply list_elem_of_filter in Hu as [-> Hin]. by apply Hx.
  - rewrite filter_cons_False by done. apply IH.
    apply elem_of_cons in Hv as [-> | Hv]; [done | exact Hv].
Qed.

Lemma Version_inj (m m' : Migration) :
  In m getMigrations -> In m' getMigrations -> Version m = Version m' -> m = m'.
Proof.
  intros Hm Hm' Hv. unfold getMigrations in Hm, Hm'. cbn [In] in Hm, Hm'.
  repeat (destruct Hm as [<- | Hm]); [.. | destruct Hm];
    repeat (destruct Hm' as [<- | Hm']); try (by destruct Hm');
    first [reflexivity | discriminate Hv].
Qed.

Lemma pending_migrations_single (w : World) (m : Migration) :
  In m getMigrations -> pending w = [Version m] -> pending_migrations w = [m].
Proof.
  intros Hm Hp. pose proof (pending_migrations_versions w) as Hv.
  rewrite Hp in Hv.
  destruct (pending_migrations w) as [|m' [|m'' rest]] eqn:Hpm;
    [discriminate Hv | | discriminate Hv].
  injection Hv as Hv. f_equal. apply Version_inj; [| done | done].
  assert (Hin : m' ∈ pending_migrations w) by (rewrite Hpm; apply list_elem_of_here).
  unfold pending_migrations in Hin. apply list_elem_of_filter in Hin as [_ Hin].
  by apply list_elem_of_In.
Qed.

Lemma Rollback_then_Run (w w1 w2 : World) (r : error + unit) :
  pending w = [] ->
  Rollback NewMigrator w = (inr tt, w1) ->
  Run NewMigrator (with_faults [] w1) = (r, w2) ->
  r = inr tt
  /\ exists m : Migration,
       In m getMigrations
       /\ Version m ∈ recorded w
       /\ recorded w1 = filter (fun u => u <> Version m) (recorded w)
       /\ executed (db w1) = executed (db w) ++ statements (Down m)
       /\ started (log w2) = started (log w1) ++ [Version m]
       /\ executed (db w2)
          = executed (db w1)
            ++ SAutoMigrate ["MigrationRecord"] :: statements (Up m)
       /\ recorded w2 = recorded w1 ++ [Version m].
Proof.
  intros Hpend Hrb Hrun.
  destruct (Rollback_success_inv w w1 Hrb)
    as (r0 & m & Hin & _ & Hm & Hv & Hrows & Hdown & _).
  destruct (Run_total (with_faults [] w1) eq_refl) as (w2' & Hrun').
  rewrite Hrun in Hrun'. injection Hrun' as -> <-.
  split; [done |].
  destruct (Run_success_inv _ _ Hrun) as [Hs Hr].
  pose proof (Run_success_executed _ _ Hrun) as Hup.
  change (recorded (with_faults [] w1)) with (recorded w1) in Hr.
  change (pending (with_faults [] w1)) with (pending w1) in Hs, Hr.
  change (log (with_faults [] w1)) with (log w1) in Hs.
  change (executed (db (with_faults [] w1))) with (executed (db w1)) in Hup.
  change (pending_migrations (with_faults [] w1))
    with (pending_migrations w1) in Hup.
  assert (Hrec1 : recorded w1
                  = filter (fun u => u <> Version m) (recorded w)).
  { rewrite Hv. by rewrite !recorded_rows_of, Hrows, map_filter_version. }
  assert (Hp1 : pending w1 = [Version m]).
  { unfold pending. rewrite Hrec1.
    rewrite (filter_ext_elem _ (fun u => u = Version m)).
    - apply filter_eq_NoDup; [apply NoDup_getMigrations |].
      apply list_elem_of_fmap_2. by apply list_elem_of_In.
    - intros u Hl. rewrite list_elem_of_filter. split.
      + intros Hn. destruct (decide (u = Version m)) as [|Hne]; [done |].
        destruct (decide (u ∈ recorded w)) as [Hu | Hu]; [by destruct Hn |].
        assert (Hup' : u ∈ pending w) by (by apply list_elem_of_filter).
        rewrite Hpend in Hup'. by apply elem_of_nil in Hup'.
      + intros -> [Hne _]. by apply Hne. }
  rewrite (pending_migrations_single w1 m Hm Hp1) in Hup.
  unfold up_statements in Hup. cbn [flat_map] in Hup. rewrite app_nil_r in Hup.
  exists m. rewrite Hs, Hr, Hp1.
  split; [done |].
  split; [rewrite Hv, recorded_rows_of; by apply list_elem_of_fmap_2 |].
  done.
Qed.

(** A rollback followed by a run puts back what was undone.  On a
    database where every migration of the list is recorded, a rollback
    that returns nil removes the version of one migration of the list
    and executes the statements of its [Down] function; the next run,
    on a database that answers every call, returns nil, announces the
    [Up] of that migration and of no other, executes, after the
    creation of the record table, the statements of that [Up] function
    and no others, and records the version again. *)
Theorem Rollback_then_Run_reapplies (w w1 w2 : World) (r : error + unit) :
  pending w = [] ->
  Rollback NewMigrator w = (inr tt, w1) ->
  Run NewMigrator (with_faults [] w1) = (r, w2) ->
  r = inr tt
  /\ exists m : Migration,
       In m getMigrations
       /\ Version m ∈ recorded w
       /\ recorded w1 = filter (fun u => u <> Version m) (recorded w)
       /\ executed (db w1) = executed (db w) ++ statements (Down m)
       /\ started (log w2) = started (log w1) ++ [Version m]
       /\ executed (db w2)
          = executed (db w1)
            ++ SAutoMigrate ["MigrationRecord"] :: statements (Up m)
       /\ recorded w2 = recorded w1 ++ [Version m].
Proof. exact (Rollback_then_Run w w1 w2 r). Qed.

End RunFacts.
Lemma Rollback_migratedWorld :
  Migration.Rollback Migration.NewMigrator migratedWorld = (inr tt, rolledBackWorld).
Proof. vm_compute. reflexivity. Qed.

Lemma Rollback_undoes_first_in_order_witness :
  exists (r : Migration.MigrationRecord) (m : Migration.Migration),
    r ∈ Migration.rows_of migratedWorld
    /\ (forall r', r' ∈ Migration.rows_of migratedWorld ->
                   Migration.precedes r r' = true)
    /\ In m Migration.getMigrations
    /\ Migration.Version m = Migration.record_Version r
    /\ Migration.rows_of rolledBackWorld
       = filter (fun row => Migration.record_Version row
                            <> Migration.record_Version r)
           (Migration.rows_of migratedWorld)
    /\ Migration.executed (Migration.db rolledBackWorld)
       = Migration.executed (Migration.db migratedWorld)
         ++ Migration.statements (Migration.Down m)
    /\ Migration.log rolledBackWorld
       = Migration.log migratedWorld
         ++ [Migration.Printf "Rolling back migration %s: %s"
               [Migration.Version m; Migration.Description m];
             Migration.Printf "Migration %s rolled back successfully"
               [Migration.Version m]].
Proof.
  exact (Rollback_undoes_first_in_order migratedWorld rolledBackWorld
           Rollback_migratedWorld).
Defined.

(** After the first run, whose rows all carry the time 0, the rollback
    drops the tables of the first migration. *)
Example Rollback_migratedWorld_versions :
  Migration.recorded rolledBackWorld
  = ["002_rbac_system"; "003_process_engine"; "004_audit_system";
     "005_indexes_optimization"]
  /\ Migration.executed (Migration.db rolledBackWorld)
     = Migration.executed (Migration.db migratedWorld)
       ++ [Migration.SDropTable ["RefreshToken"; "FormSchema"; "User"]].
Proof. vm_compute. split; reflexivity. Qed.

Lemma Rollback_nothing_recorded_witness :
  (exists e,
     inl (Migration.Wrapped
            (Migration.Errorf "no migrations to rollback: %w" []
               (Migration.DBError "relation migration_records does not exist")))
     = @inl Migration.RollbackError unit
         (Migration.Wrapped
            (Migration.Errorf "no migrations to rollback: %w" [] e)))
  /\ Migration.migration_records (Migration.db Migration.emptyWorld)
     = Migration.migration_records (Migration.db Migration.emptyWorld)
  /\ Migration.executed (Migration.db Migration.emptyWorld)
     = Migration.executed (Migration.db Migration.emptyWorld)
  /\ Migration.log Migration.emptyWorld = Migration.log Migration.emptyWorld.
Proof.
  apply (Rollback_nothing_recorded Migration.emptyWorld Migration.emptyWorld).
  - reflexivity.
  - vm_compute. reflexivity.
Defined.

Lemma Rollback_unknown_version_witness :
  (hd false (Migration.faults (Migration.db futureWorld)) = false ->
   @inl Migration.RollbackError unit
     (Migration.NotFound "migration %s not found" ["006_reports"])
   = inl (Migration.NotFound "migration %s not found"
            [Migration.record_Version futureRecord]))
  /\ @inl Migration.RollbackError unit
       (Migration.NotFound "migration %s not found" ["006_reports"])
     <> inr tt
  /\ Migration.migration_records (Migration.db futureWorld)
     = Migration.migration_records (Migration.db futureWorld)
  /\ Migration.executed (Migration.db futureWorld)
     = Migration.executed (Migration.db futureWorld)
  /\ Migration.log futureWorld = Migration.log futureWorld.
Proof.
  apply (Rollback_unknown_version futureWorld futureWorld _ futureRecord).
  - vm_compute. reflexivity.
  - apply (bool_decide_unpack _). vm_compute. exact I.
  - vm_compute. reflexivity.
Defined.

Lemma Rollback_faultyWorld :
  Migration.Rollback Migration.NewMigrator faultyWorld
  = (inl (fst faultyRollback), snd faultyRollback).
Proof. vm_compute. reflexivity. Qed.

Lemma Rollback_failure_keeps_records_witness :
  Migration.migration_records (Migration.db (snd faultyRollback))
  = Migration.migration_records (Migration.db faultyWorld).
Proof.
  exact (Rollback_failure_keeps_records faultyWorld (snd faultyRollback)
           (fst faultyRollback) Rollback_faultyWorld).
Defined.

Lemma Rollback_same_second_undoes_least_version_witness :
  exists v : string,
    v ∈ Migration.recorded migratedWorld
    /\ (forall u, u ∈ Migration.recorded migratedWorld -> String.leb v u = true)
    /\ Migration.recorded rolledBackWorld
       = filter (fun u => u <> v) (Migration.recorded migratedWorld).
Proof.
  apply (Rollback_same_second_undoes_least_version migratedWorld rolledBackWorld).
  - assert (H0 : Forall (fun r => Migration.record_AppliedAt r = 0%Z)
                   (Migration.rows_of migratedWorld)).
    { vm_compute. repeat constructor. }
    rewrite Forall_forall in H0. intros r r' Hr Hr'.
    rewrite (H0 r Hr), (H0 r' Hr'). reflexivity.
  - vm_compute. reflexivity.
Defined.

Lemma Run_stopped :
  Migration.Run Migration.NewMigrator
    (Migration.with_faults (repeat false 32 ++ [true]) Migration.emptyWorld)
  = (fst stoppedRun, snd stoppedRun).
Proof. vm_compute. reflexivity. Qed.

Lemma Run_resumes_after_failure_witness :
  (exists p q : list string,
      Migration.pending
        (Migration.with_faults (repeat false 32 ++ [true]) Migration.emptyWorld)
      = p ++ q
      /\ Migration.recorded (snd stoppedRun)
         = Migration.recorded
             (Migration.with_faults (repeat false 32 ++ [true])
                Migration.emptyWorld) ++ p)
  /\ exists w2 : Migration.World,
       Migration.Run Migration.NewMigrator
         (Migration.with_faults [] (snd stoppedRun)) = (inr tt, w2)
       /\ Migration.recorded w2
          = Migration.recorded
              (Migration.with_faults (repeat false 32 ++ [true])
                 Migration.emptyWorld)
            ++ Migration.pending
                 (Migration.with_faults (repeat false 32 ++ [true])
                    Migration.emptyWorld).
Proof.
  exact (Run_resumes_after_failure _ (snd stoppedRun) (fst stoppedRun) Run_stopped).
Defined.

Lemma Run_never_drops_witness :
  exists l : list Migration.Stmt,
    Migration.executed (Migration.db migratedWorld)
    = Migration.executed (Migration.db Migration.emptyWorld) ++ l
    /\ Forall (fun s => Migration.is_drop s = false) l.
Proof.
  exact (Run_never_drops Migration.emptyWorld migratedWorld (inr tt) Run_emptyWorld).
Defined.

Lemma Run_rolledBackWorld :
  Migration.Run Migration.NewMigrator (Migration.with_faults [] rolledBackWorld)
  = (inr tt, reappliedWorld).
Proof. vm_compute. reflexivity. Qed.

Lemma Rollback_then_Run_reapplies_witness :
  @inr Migration.error unit tt = inr tt
  /\ exists m : Migration.Migration,
       In m Migration.getMigrations
       /\ Migration.Version m ∈ Migration.recorded migratedWorld
       /\ Migration.recorded rolledBackWorld
          = filter (fun u => u <> Migration.Version m)
              (Migration.recorded migratedWorld)
       /\ Migration.executed (Migration.db rolledBackWorld)
          = Migration.executed (Migration.db migratedWorld)
            ++ Migration.statements (Migration.Down m)
       /\ Migration.started (Migration.log reappliedWorld)
          = Migration.started (Migration.log rolledBackWorld)
            ++ [Migration.Version m]
       /\ Migration.executed (Migration.db reappliedWorld)
          = Migration.executed (Migration.db rolledBackWorld)
            ++ Migration.SAutoMigrate ["MigrationRecord"]
               :: Migration.statements (Migration.Up m)
       /\ Migration.recorded reappliedWorld
          = Migration.recorded rolledBackWorld ++ [Migration.Version m].
Proof.
  apply (Rollback_then_Run_reapplies migratedWorld rolledBackWorld reappliedWorld).
  - vm_compute. reflexivity.
  - exact Rollback_migratedWorld.
  - exact Run_rolledBackWorld.
Defined.

Lemma Rollback_stagedWorld :
  Migration.Rollback Migration.NewMigrator stagedWorld = (inr tt, stagedRollback).
Proof. vm_compute. reflexivity. Qed.

Lemma Rollback_undoes_strictly_latest_witness :
  Migration.recorded stagedRollback
  = filter (fun u => u <> Migration.record_Version laterRecord)
      (Migration.recorded stagedWorld).
Proof.
  apply (Rollback_undoes_strictly_latest stagedWorld stagedRollback laterRecord).
  - apply list_elem_of_further, list_elem_of_here.
  - intros r' Hr' Hne. cbn in Hr'.
    apply elem_of_cons in Hr' as [-> | Hr']; [cbn; lia |].
    apply list_elem_of_singleton in Hr'. by destruct Hne.
  - exact Rollback_stagedWorld.
Defined.

Example Rollback_stagedWorld_versions :
  Migration.recorded stagedRollback = ["001_initial_schema"].
Proof. vm_compute. reflexivity. Qed.
Section AddressFacts.
Import Config.

(** ** Characters of a string *)

Lemma has_char_app (c : ascii) (a b : string) :
  has_char c (a +:+ b) = (has_char c a || has_char c b)%bool.
Proof.
  induction a as [|x a IH]; [done |].
  change (String x a +:+ b) with (String x (a +:+ b)).
  cbn [has_char]. by rewrite IH, orb_assoc.
Qed.

(** Two strings cut at the first occurrence of a character: equal
    wholes have equal parts. *)
Lemma cut_at_first (c : ascii) (a1 a2 r1 r2 : string) :
  has_char c a1 = false -> has_char c a2 = false ->
  a1 +:+ String c r1 = a2 +:+ String c r2 ->
  a1 = a2 /\ r1 = r2.
Proof.
  revert a2. induction a1 as [|x a1 IH]; intros [|y a2] H1 H2 Heq.
  - by injection Heq as ->.
  - injection Heq as -> _. cbn in H2. by rewrite Ascii.eqb_refl in H2.
  - injection Heq as -> _. cbn in H1. by rewrite Ascii.eqb_refl in H1.
  - injection Heq as -> Heq. cbn in H1, H2.
    apply orb_false_iff in H1 as [_ H1]. apply orb_false_iff in H2 as [_ H2].
    destruct (IH a2 H1 H2 Heq) as [-> ->]. done.
Qed.

(** Two strings cut at the last occurrence of a character. *)
Lemma cut_at_last (c : ascii) (a1 a2 r1 r2 : string) :
  has_char c r1 = false -> has_char c r2 = false ->
  a1 +:+ String c r1 = a2 +:+ String c r2 ->
  a1 = a2 /\ r1 = r2.
Proof.
  revert a2. induction a1 as [|x a1 IH]; intros [|y a2] H1 H2 Heq.
  - by injection Heq as ->.
  - injection Heq as -> Heq. rewrite Heq, has_char_app in H1.
    cbn in H1. rewrite Ascii.eqb_refl in H1. cbn in H1.
    by rewrite orb_true_r in H1.
  - injection Heq as -> Heq. rewrite <- Heq, has_char_app in H2.
    cbn in H2. rewrite Ascii.eqb_refl in H2. cbn in H2.
    by rewrite orb_true_r in H2.
  - injection Heq as -> Heq.
    destruct (IH a2 H1 H2 Heq) as [-> ->]. done.
Qed.

(** ** The decimal numeral *)

Lemma string_of_uint_digits (c : ascii) (d : Decimal.uint) :
  has_char c (NilEmpty.string_of_uint d) = true ->
  digit_of c <> None.
Proof.
  induction d; cbn [NilEmpty.string_of_uint has_char]; [done | ..];
    (intros H; apply orb_true_iff in H as [H | H]; [| by apply IHd]);
    apply Ascii.eqb_eq in H; by subst.
Qed.

Lemma FormatInt_chars (c : ascii) (n : Z) :
  has_char c (FormatInt n) = true -> digit_of c <> None \/ c = "-"%char.
Proof.
  unfold FormatInt, NilZero.string_of_int, NilZero.string_of_uint.
  destruct (Z.to_int n) as [d|d]; destruct d; cbn [has_char];
    intros H; repeat (apply orb_true_iff in H as [H | H]);
    try discriminate H;
    try (apply Ascii.eqb_eq in H; subst; by (left + right));
    left; by apply (string_of_uint_digits c d).
Qed.

Lemma FormatInt_no_char (c : ascii) (n : Z) :
  digit_of c = None -> c <> "-"%char -> has_char c (FormatInt n) = false.
Proof.
  intros Hd Hm. destruct (has_char c (FormatInt n)) eqn:H; [| done].
  by destruct (FormatInt_chars c n H).
Qed.

Lemma to_int_nonnil (n : Z) :
  Z.to_int n <> Decimal.Pos Decimal.Nil /\ Z.to_int n <> Decimal.Neg Decimal.Nil.
Proof.
  destruct n as [|p|p]; cbn; split; try discriminate;
    intros [= H]; by apply (Unsigned.to_uint_nonnil p).
Qed.

(** [FormatInt] gives different numerals to different integers. *)
Lemma FormatInt_inj (n m : Z) : FormatInt n = FormatInt m -> n = m.
Proof.
  unfold FormatInt. intros H.
  destruct (to_int_nonnil n) as [Hn1 Hn2]. destruct (to_int_nonnil m) as [Hm1 Hm2].
  pose proof (NilZero.isi (Z.to_int n) Hn1 Hn2) as Hin.
  pose proof (NilZero.isi (Z.to_int m) Hm1 Hm2) as Him.
  rewrite H, Him in Hin. injection Hin as Hin.
  symmetry. by apply DecimalZ.to_int_inj.
Qed.

(** ** [GetRedisAddr] *)

(** The address tells host and port apart: two configurations with the
    same address have the same host and the same port, whatever the
    host is made of, colons included. *)
Theorem GetRedisAddr_injective (c1 c2 : RedisConfig) :
  GetRedisAddr c1 = GetRedisAddr c2 ->
  Redis_Host c1 = Redis_Host c2 /\ Redis_Port c1 = Redis_Port c2.
Proof.
  unfold GetRedisAddr. intros H.
  change (Redis_Host c1 +:+ String ":" (FormatInt (Redis_Port c1))
          = Redis_Host c2 +:+ String ":" (FormatInt (Redis_Port c2))) in H.
  apply cut_at_last in H as [Hh Hp];
    [| by apply FormatInt_no_char | by apply FormatInt_no_char].
  split; [done | by apply FormatInt_inj].
Qed.

(** ** [GetDSN] *)

Lemma GetDSN_fields (c1 c2 : DatabaseConfig) :
  has_char " " (Database_Host c1) = false ->
  has_char " " (Database_Host c2) = false ->
  has_char " " (Database_User c1) = false ->
  has_char " " (Database_User c2) = false ->
  has_char " " (Database_Password c1) = false ->
  has_char " " (Database_Password c2) = false ->
  has_char " " (Database_DBName c1) = false ->
  has_char " " (Database_DBName c2) = false ->
  GetDSN c1 = GetDSN c2 ->
  Database_Host c1 = Database_Host c2
  /\ Database_Port c1 = Database_Port c2
  /\ Database_User c1 = Database_User c2
  /\ Database_Password c1 = Database_Password c2
  /\ Database_DBName c1 = Database_DBName c2
  /\ Database_SSLMode c1 = Database_SSLMode c2.
Proof.
  intros Hh1 Hh2 Hu1 Hu2 Hp1 Hp2 Hd1 Hd2. unfold GetDSN. intros H.
  (* host *)
  injection H as H.
  change (Database_Host c1 +:+ String " " ("port=" +:+ FormatInt (Database_Port c1)
            +:+ " user=" +:+ Database_User c1
            +:+ " password=" +:+ Database_Password c1
            +:+ " dbname=" +:+ Database_DBName c1
            +:+ " sslmode=" +:+ Database_SSLMode c1)
          = Database_Host c2 +:+ String " " ("port=" +:+ FormatInt (Database_Port c2)
            +:+ " user=" +:+ Database_User c2
            +:+ " password=" +:+ Database_Password c2
            +:+ " dbname=" +:+ Database_DBName c2
            +:+ " sslmode=" +:+ Database_SSLMode c2)) in H.
  apply cut_at_first in H as [Hhost H]; [| done | done].
  (* port *)
  injection H as H.
  change (FormatInt (Database_Port c1) +:+ String " " ("user=" +:+ Database_User c1
            +:+ " password=" +:+ Database_Password c1
            +:+ " dbname=" +:+ Database_DBName c1
            +:+ " sslmode=" +:+ Database_SSLMode c1)
          = FormatInt (Database_Port c2) +:+ String " " ("user=" +:+ Database_User c2
            +:+ " password=" +:+ Database_Password c2
            +:+ " dbname=" +:+ Database_DBName c2
            +:+ " sslmode=" +:+ Database_SSLMode c2)) in H.
  apply cut_at_first in H as [Hport H];
    [| by apply FormatInt_no_char | by apply FormatInt_no_char].
  apply FormatInt_inj in Hport.
  (* user *)
  injection H as H.
  change (Database_User c1 +:+ String " " ("password=" +:+ Database_Password c1
            +:+ " dbname=" +:+ Database_DBName c1
            +:+ " sslmode=" +:+ Database_SSLMode c1)
          = Database_User c2 +:+ String " " ("password=" +:+ Database_Password c2
            +:+ " dbname=" +:+ Database_DBName c2
            +:+ " sslmode=" +:+ Database_SSLMode c2)) in H.
  apply cut_at_first in H as [Huser H]; [| done | done].
  (* password *)
  injection H as H.
  change (Database_Password c1 +:+ String " " ("dbname=" +:+ Database_DBName c1
            +:+ " sslmode=" +:+ Database_SSLMode c1)
          = Database_Password c2 +:+ String " " ("dbname=" +:+ Database_DBName c2
            +:+ " sslmode=" +:+ Database_SSLMode c2)) in H.
  apply cut_at_first in H as [Hpass H]; [| done | done].
  (* dbname and sslmode *)
  injection H as H.
  change (Database_DBName c1 +:+ String " " ("sslmode=" +:+ Database_SSLMode c1)
          = Database_DBName c2 +:+ String " " ("sslmode=" +:+ Database_SSLMode c2))
    in H.
  apply cut_at_first in H as [Hdb H]; [| done | done].
  injection H as H.
  by repeat split.
Qed.

(** When host, user, password and database name hold no space, the
    connection string determines all six settings it is made from. *)
Theorem GetDSN_injective_without_spaces (c1 c2 : DatabaseConfig) :
  has_char " " (Database_Host c1) = false ->
  has_char " " (Database_Host c2) = false ->
  has_char " " (Database_User c1) = false ->
  has_char " " (Database_User c2) = false ->
  has_char " " (Database_Password c1) = false ->
  has_char " " (Database_Password c2) = false ->
  has_char " " (Database_DBName c1) = false ->
  has_char " " (Database_DBName c2) = false ->
  GetDSN c1 = GetDSN c2 ->
  Database_Host c1 = Database_Host c2
  /\ Database_Port c1 = Database_Port c2
  /\ Database_User c1 = Database_User c2
  /\ Database_Password c1 = Database_Password c2
  /\ Database_DBName c1 = Database_DBName c2
  /\ Database_SSLMode c1 = Database_SSLMode c2.
Proof. exact (GetDSN_fields c1 c2). Qed.

Lemma string_app_length (a b : string) :
  String.length (a +:+ b) = (String.length a + String.length b)%nat.
Proof. induction a as [|x a IH]; [done |]. cbn. by rewrite <- IH. Qed.

(** [GetDSN] does not quote what it prints.  A password that holds a
    space is not told apart from the setting that follows it: the
    configuration whose password ends in " dbname=d" has the connection
    string of the configuration whose database name starts with
    "d dbname=", although their passwords differ. *)
Theorem GetDSN_does_not_quote (c : DatabaseConfig) (d : string) :
  let c1 := with_Password (Database_Password c +:+ " dbname=" +:+ d) c in
  let c2 := with_DBName (d +:+ " dbname=" +:+ Database_DBName c) c in
  GetDSN c1 = GetDSN c2
  /\ Database_Password c1 <> Database_Password c2.
Proof.
  cbn zeta. split.
  - unfold GetDSN, with_Password, with_DBName.
    cbn [Database_Host Database_Port Database_User Database_Password
         Database_DBName Database_SSLMode].
    by rewrite !string_app_assoc.
  - cbn [with_Password with_DBName Database_Password]. intros H.
    apply (f_equal String.length) in H. rewrite !string_app_length in H.
    cbn [String.length] in H. lia.
Qed.

End AddressFacts.

Section LoadFacts.
Import Config.

Variable ParseInt : string -> option Z.
Variable ParseDuration : string -> option Z.

(** ** The fields of a decoded configuration *)

Lemma result_bind_inr {A B} (f : A -> result B) (m : result A) (b : B) :
  m ≫= f = inr b -> exists a, m = inr a /\ f a = inr b.
Proof. destruct m as [e|a]; [intros [=] | intros H; by exists a]. Qed.

Ltac decode_all :=
  repeat match goal with
         | H : @mbind _ _ _ _ _ _ = inr _ |- _ =>
             apply result_bind_inr in H as (? & ? & H)
         | H : @mret _ _ _ _ = inr _ |- _ => injection H as <-
         end.

Lemma Unmarshal_fields (os : OS) (v : Viper) (cfg : Config) :
  Unmarshal ParseInt ParseDuration os v = inr cfg ->
  Forall (fun '(key, proj) =>
            decodeString key (setting os v key) = inr (proj cfg)) string_fields
  /\ Forall (fun '(key, proj) =>
               decodeInt ParseInt key (setting os v key) = inr (proj cfg))
       int_fields.
Proof.
  intros H.
  unfold Unmarshal, unmarshalServer, unmarshalTLS, unmarshalDatabase,
    unmarshalAuth, unmarshalJWT, unmarshalKeycloak, unmarshalOIDC,
    unmarshalBuiltIn, unmarshalAuthSecurity, unmarshalNATS, unmarshalRedis,
    unmarshalAI, unmarshalLogging, unmarshalCache, unmarshalSecurity,
    unmarshalMetrics in H.
  decode_all. unfold str, int in *.
  split; repeat (apply List.Forall_cons; [assumption |]); apply List.Forall_nil.
Qed.

(** ** The registry [Load] decodes *)

Lemma getEnv_configured (os : OS) (v : Viper) (key : string) :
  envPrefix v = "BPMS" ->
  envKeyReplacer v = Some (NewReplacer "." "_") ->
  getEnv os v (mergeWithEnvPrefix v key) = env_value os key.
Proof.
  intros Hp Hr. unfold getEnv, mergeWithEnvPrefix, env_value, env_name.
  by rewrite Hp, Hr.
Qed.

Lemma setting_known (os : OS) (v : Viper) (key : string) :
  envPrefix v = "BPMS" ->
  envKeyReplacer v = Some (NewReplacer "." "_") ->
  automaticEnvApplied v = true ->
  setting os v key =
  match config v !! key, defaults v !! key with
  | None, None => None
  | f, d =>
      match env_value os key with
      | Some s => Some (VString s)
      | None =>
          if String.eqb (isPathShadowedInAutoEnv os v key) "" then
            match f with
            | Some val => Some val
            | None =>
                if String.eqb (isPathShadowedInDeepMap (config v) key) ""
                then d else None
            end
          else None
      end
  end.
Proof.
  intros Hp Hr Ha. unfold setting, AllKeys, Get.
  rewrite Ha, (getEnv_configured os v key Hp Hr).
  destruct (decide (key ∈ dom (config v) ∪ dom (defaults v))) as [Hin | Hout].
  - apply elem_of_union in Hin. rewrite !elem_of_dom in Hin.
    destruct (config v !! key) as [f|]; [done |].
    destruct (defaults v !! key) as [d|]; [done |].
    destruct Hin as [[? [=]] | [? [=]]].
  - rewrite not_elem_of_union, !not_elem_of_dom in Hout.
    destruct Hout as [-> ->]. done.
Qed.

(** ** Shadowed keys *)

Lemma shadowedInAutoEnv_clear (os : OS) (v : Viper) (parents : list string) :
  envPrefix v = "BPMS" ->
  envKeyReplacer v = Some (NewReplacer "." "_") ->
  Forall (fun parentKey => env_value os parentKey = None) parents ->
  shadowedInAutoEnv os v parents = "".
Proof.
  intros Hp Hr Hall. induction Hall as [|p parents Hnone _ IH]; [done |].
  cbn [shadowedInAutoEnv].
  by rewrite (getEnv_configured os v p Hp Hr), Hnone.
Qed.

Lemma shadowedInAutoEnv_shadowed (os : OS) (v : Viper) (parents : list string) :
  envPrefix v = "BPMS" ->
  envKeyReplacer v = Some (NewReplacer "." "_") ->
  Forall (fun parentKey => parentKey <> "") parents ->
  Exists (fun parentKey => is_Some (env_value os parentKey)) parents ->
  String.eqb (shadowedInAutoEnv os v parents) "" = false.
Proof.
  intros Hp Hr Hne Hex. induction parents as [|p parents IH];
    [by apply Exists_nil in Hex |].
  apply Forall_cons in Hne as [Hp0 Hne]. cbn [shadowedInAutoEnv].
  rewrite (getEnv_configured os v p Hp Hr).
  destruct (env_value os p) as [val|] eqn:Hval.
  - by apply String.eqb_neq.
  - apply Exists_cons in Hex as [[x Hx] | Hex]; [congruence | by apply IH].
Qed.

Lemma shadowedInDeepMap_clear (m : gmap string Value) (parents : list string) :
  Forall (fun parentKey => m !! parentKey = None) parents ->
  shadowedInDeepMap m parents = "".
Proof.
  intros Hall. induction Hall as [|p parents Hnone _ IH]; [done |].
  cbn [shadowedInDeepMap]. by rewrite Hnone.
Qed.

(** No parent of the key of a field is the empty key. *)
Lemma string_fields_parents (key : string) (proj : Config -> string) :
  In (key, proj) string_fields ->
  Forall (fun parentKey => parentKey <> "") (parentKeys key).
Proof.
  intros Hin.
  assert (Hall : forallb (fun kp => forallb (fun p => negb (String.eqb p ""))
                                      (parentKeys (fst kp))) string_fields = true)
    by (vm_compute; reflexivity).
  rewrite forallb_forall in Hall. specialize (Hall _ Hin). cbn [fst] in Hall.
  rewrite forallb_forall in Hall. apply List.Forall_forall. intros p Hp.
  specialize (Hall p Hp). apply negb_true_iff in Hall.
  by apply String.eqb_neq.
Qed.

Lemma Load_success_inv (os : OS) (cfg : Config) :
  fst (Load ParseInt ParseDuration os viper_New) = (Some cfg, None) ->
  Unmarshal ParseInt ParseDuration os (loaded os) = inr cfg
  /\ forall key, config (loaded os) !! key = file_value os key.
Proof.
  rewrite Load_unfold. unfold loaded, file_value, ReadInConfig.
  rewrite configPaths_configured.
  destruct (findConfigFile os _) as [[settings|msg]|]; cbn [fst snd].
  - destruct (Unmarshal _ _ _ _) as [e|c] eqn:Hu; [intros [=] |].
    intros [= <-]. by split.
  - intros [=].
  - cbn [is_ConfigFileNotFoundError].
    destruct (Unmarshal _ _ _ _) as [e|c] eqn:Hu; [intros [=] |].
    intros [= <-]. split; [done |]. intros key. apply lookup_empty.
Qed.

Lemma loaded_env (os : OS) :
  envPrefix (loaded os) = "BPMS"
  /\ envKeyReplacer (loaded os) = Some (NewReplacer "." "_")
  /\ automaticEnvApplied (loaded os) = true
  /\ defaults (loaded os) = defaults (setDefaults viper_New).
Proof.
  unfold loaded, ReadInConfig. rewrite configPaths_configured.
  by destruct (findConfigFile os _) as [[settings|msg]|].
Qed.

Lemma setting_loaded (os : OS) (cfg : Config) (key : string) :
  fst (Load ParseInt ParseDuration os viper_New) = (Some cfg, None) ->
  setting os (loaded os) key =
  match file_value os key, default_of key with
  | None, None => None
  | f, d =>
      match env_value os key with
      | Some s => Some (VString s)
      | None =>
          if String.eqb (isPathShadowedInAutoEnv os (loaded os) key) "" then
            match f with
            | Some val => Some val
            | None =>
                if String.eqb
                     (isPathShadowedInDeepMap (config (loaded os)) key) ""
                then d else None
            end
          else None
      end
  end.
Proof.
  intros Hload. destruct (Load_success_inv os cfg Hload) as [_ Hfile].
  destruct (loaded_env os) as (Hp & Hr & Ha & Hd).
  rewrite (setting_known os (loaded os) key Hp Hr Ha), Hfile, Hd. done.
Qed.

Lemma loaded_env_clear (os : OS) (key : string) :
  env_clear os key ->
  String.eqb (isPathShadowedInAutoEnv os (loaded os) key) "" = true.
Proof.
  intros Hclear. destruct (loaded_env os) as (Hp & Hr & _).
  unfold isPathShadowedInAutoEnv.
  by rewrite (shadowedInAutoEnv_clear os (loaded os) _ Hp Hr Hclear).
Qed.

Lemma loaded_env_shadowed (os : OS) (key : string) (proj : Config -> string) :
  In (key, proj) string_fields ->
  env_shadowed os key ->
  String.eqb (isPathShadowedInAutoEnv os (loaded os) key) "" = false.
Proof.
  intros Hin Hsh. destruct (loaded_env os) as (Hp & Hr & _).
  apply (shadowedInAutoEnv_shadowed os (loaded os) _ Hp Hr
           (string_fields_parents key proj Hin) Hsh).
Qed.

Lemma loaded_file_clear (os : OS) (cfg : Config) (key : string) :
  fst (Load ParseInt ParseDuration os viper_New) = (Some cfg, None) ->
  file_clear os key ->
  String.eqb (isPathShadowedInDeepMap (config (loaded os)) key) "" = true.
Proof.
  intros Hload Hclear. destruct (Load_success_inv os cfg Hload) as [_ Hfile].
  unfold isPathShadowedInDeepMap. rewrite shadowedInDeepMap_clear; [done |].
  unfold file_clear in Hclear. rewrite List.Forall_forall in Hclear.
  apply List.Forall_forall. intros p Hp. rewrite Hfile. by apply Hclear.
Qed.

Lemma Load_string_field (os : OS) (cfg : Config) (key : string)
    (proj : Config -> string) :
  fst (Load ParseInt ParseDuration os viper_New) = (Some cfg, None) ->
  In (key, proj) string_fields ->
  decodeString key (setting os (loaded os) key) = inr (proj cfg).
Proof.
  intros Hload Hin. destruct (Load_success_inv os cfg Hload) as [Hu _].
  destruct (Unmarshal_fields _ _ _ Hu) as [Hs _].
  rewrite List.Forall_forall in Hs. specialize (Hs (key, proj) Hin).
  cbn beta iota in Hs. exact Hs.
Qed.

Lemma Load_int_field (os : OS) (cfg : Config) (key : string)
    (proj : Config -> Z) :
  fst (Load ParseInt ParseDuration os viper_New) = (Some cfg, None) ->
  In (key, proj) int_fields ->
  decodeInt ParseInt key (setting os (loaded os) key) = inr (proj cfg).
Proof.
  intros Hload Hin. destruct (Load_success_inv os cfg Hload) as [Hu _].
  destruct (Unmarshal_fields _ _ _ Hu) as [_ Hi].
  rewrite List.Forall_forall in Hi. specialize (Hi (key, proj) Hin).
  cbn beta iota in Hi. exact Hi.
Qed.

Lemma Load_precedence (os : OS) (cfg : Config) (key : string)
    (proj : Config -> string) :
  fst (Load ParseInt ParseDuration os viper_New) = (Some cfg, None) ->
  In (key, proj) string_fields ->
  (forall s, env_value os key = Some s ->
             is_Some (file_value os key) \/ is_Some (default_of key) ->
             proj cfg = s)
  /\ (env_value os key = None -> env_shadowed os key -> proj cfg = "")
  /\ (forall s, env_value os key = None -> env_clear os key ->
                file_value os key = Some (VString s) -> proj cfg = s)
  /\ (forall s, env_value os key = None -> env_clear os key ->
                file_value os key = None -> file_clear os key ->
                default_of key = Some (VString s) -> proj cfg = s).
Proof.
  intros Hload Hin.
  pose proof (Load_string_field os cfg key proj Hload Hin) as Hdec.
  rewrite (setting_loaded os cfg key Hload) in Hdec.
  pose proof (loaded_env_shadowed os key proj Hin) as Hshadow.
  pose proof (loaded_env_clear os key) as Hclear.
  pose proof (loaded_file_clear os cfg key Hload) as Hfclear.
  clear Hload Hin. split; [| split; [| split]].
  - intros s Henv Hknown. rewrite Henv in Hdec.
    destruct (file_value os key) as [f|];
      [cbn [decodeString] in Hdec; injection Hdec as Hdec; symmetry; exact Hdec |].
    destruct (default_of key) as [d|];
      [cbn [decodeString] in Hdec; injection Hdec as Hdec; symmetry; exact Hdec |].
    destruct Hknown as [[? [=]] | [? [=]]].
  - intros Henv Hsh. rewrite Henv, (Hshadow Hsh) in Hdec.
    destruct (file_value os key) as [f|];
      [cbn [decodeString] in Hdec; injection Hdec as Hdec; symmetry; exact Hdec |].
    destruct (default_of key) as [d|];
      cbn [decodeString] in Hdec; injection Hdec as Hdec; symmetry; exact Hdec.
  - intros s Henv Hcl Hfile. rewrite Henv, Hfile, (Hclear Hcl) in Hdec.
    cbn [decodeString] in Hdec. injection Hdec as Hdec. symmetry. exact Hdec.
  - intros s Henv Hcl Hfile Hfcl Hdef.
    rewrite Henv, Hfile, Hdef, (Hclear Hcl), (Hfclear Hfcl) in Hdec.
    cbn [decodeString] in Hdec. injection Hdec as Hdec. symmetry. exact Hdec.
Qed.

(** The order of precedence of [Load] for the settings of type string:
    the environment, then the configuration file, then the default.  In
    a configuration [Load] returned, a field holds the value of its
    BPMS_ variable when that is set to a non-empty string and the key
    has a default or is in the file.  Without such a variable, a
    variable set for a parent of the key (BPMS_SERVER for server.host)
    shadows the key and the field is empty, whatever file and defaults
    hold.  Without either, the field holds the string the file gives the
    key; otherwise, when the file gives no parent of the key a value of
    its own, the string of the default. *)
Theorem Load_string_precedence (os : OS) (cfg : Config) (key : string)
    (proj : Config -> string) :
  fst (Load ParseInt ParseDuration os viper_New) = (Some cfg, None) ->
  In (key, proj) string_fields ->
  (forall s, env_value os key = Some s ->
             is_Some (file_value os key) \/ is_Some (default_of key) ->
             proj cfg = s)
  /\ (env_value os key = None -> env_shadowed os key -> proj cfg = "")
  /\ (forall s, env_value os key = None -> env_clear os key ->
                file_value os key = Some (VString s) -> proj cfg = s)
  /\ (forall s, env_value os key = None -> env_clear os key ->
                file_value os key = None -> file_clear os key ->
                default_of key = Some (VString s) -> proj cfg = s).
Proof. exact (Load_precedence os cfg key proj). Qed.

(** A setting of type string that has no default and is not in the
    configuration file cannot be given through the environment: its
    field is empty in every configuration [Load] returns, whatever the
    BPMS_ variable of the key holds. *)
Theorem Load_ignores_env_of_unknown_key (os : OS) (cfg : Config) (key : string)
    (proj : Config -> string) :
  fst (Load ParseInt ParseDuration os viper_New) = (Some cfg, None) ->
  In (key, proj) string_fields ->
  file_value os key = None ->
  default_of key = None ->
  proj cfg = "".
Proof.
  intros Hload Hin Hfile Hdef.
  pose proof (Load_string_field os cfg key proj Hload Hin) as Hdec.
  rewrite (setting_loaded os cfg key Hload), Hfile, Hdef in Hdec.
  cbn [decodeString] in Hdec. injection Hdec as Hdec. symmetry. exact Hdec.
Qed.

(** A setting of type int read from the environment.  When the BPMS_
    variable of a key that has a default or is in the file holds a
    non-empty string, the field is what [strconv.ParseInt] makes of it;
    and when [strconv.ParseInt] rejects the string, [Load] returns no
    configuration and an error: it does not fall back on the file or
    the default. *)
Theorem Load_int_from_env (os : OS) (key : string) (proj : Config -> Z)
    (s : string) :
  In (key, proj) int_fields ->
  env_value os key = Some s ->
  is_Some (file_value os key) \/ is_Some (default_of key) ->
  (forall cfg n,
     fst (Load ParseInt ParseDuration os viper_New) = (Some cfg, None) ->
     ParseInt s = Some n -> proj cfg = n)
  /\ (ParseInt s = None ->
      exists e, fst (Load ParseInt ParseDuration os viper_New) = (None, Some e)).
Proof.
  intros Hin Henv Hknown.
  assert (Hne : String.eqb s "" = false).
  { unfold env_value in Henv.
    destruct (environ os !! env_name key) as [val|]; [| discriminate Henv].
    destruct (String.eqb val "") eqn:E; [discriminate Henv |].
    injection Henv as <-. exact E. }
  assert (Hdec : forall cfg,
             fst (Load ParseInt ParseDuration os viper_New) = (Some cfg, None) ->
             decodeInt ParseInt key (Some (VString s)) = inr (proj cfg)).
  { intros cfg Hload.
    pose proof (Load_int_field os cfg key proj Hload Hin) as Hdec.
    rewrite (setting_loaded os cfg key Hload), Henv in Hdec.
    destruct (file_value os key) as [f|]; [exact Hdec |].
    destruct (default_of key) as [d|]; [exact Hdec |].
    destruct Hknown as [[? [=]] | [? [=]]]. }
  split.
  - intros cfg n Hload Hn. specialize (Hdec cfg Hload).
    cbn [decodeInt] in Hdec. rewrite Hne, Hn in Hdec.
    injection Hdec as Hdec. symmetry. exact Hdec.
  - intros Hn.
    destruct (fst (Load ParseInt ParseDuration os viper_New)) as [[cfg|] [e|]] eqn:Hload.
    + exfalso. revert Hload. rewrite Load_unfold. unfold ReadInConfig.
      destruct (findConfigFile os _) as [[settings|msg]|];
        cbn [is_ConfigFileNotFoundError fst];
        try destruct (Unmarshal _ _ _ _); intros [=].
    + specialize (Hdec cfg eq_refl). cbn [decodeInt] in Hdec.
      rewrite Hne, Hn in Hdec. discriminate Hdec.
    + exists e. reflexivity.
    + exfalso. revert Hload. rewrite Load_unfold. unfold ReadInConfig.
      destruct (findConfigFile os _) as [[settings|msg]|];
        cbn [is_ConfigFileNotFoundError fst];
        try destruct (Unmarshal _ _ _ _); intros [=].
Qed.

End LoadFacts.
Lemma GetRedisAddr_injective_witness :
  Config.Redis_Host (Config.Redis Config.defaultConfig)
  = Config.Redis_Host (Config.Redis Config.defaultConfig)
  /\ Config.Redis_Port (Config.Redis Config.defaultConfig)
     = Config.Redis_Port (Config.Redis Config.defaultConfig).
Proof.
  apply (GetRedisAddr_injective (Config.Redis Config.defaultConfig)
           (Config.Redis Config.defaultConfig)).
  reflexivity.
Defined.

Example GetRedisAddr_default :
  Config.GetRedisAddr (Config.Redis Config.defaultConfig) = "localhost:6379".
Proof. reflexivity. Qed.

Example GetDSN_default :
  Config.GetDSN (Config.Database Config.defaultConfig)
  = "host=localhost port=5432 user=bpms_user password=bpms_pass dbname=ai_bpms sslmode=disable".
Proof. reflexivity. Qed.

Lemma GetDSN_injective_without_spaces_witness :
  let c := Config.Database Config.defaultConfig in
  Config.Database_Host c = Config.Database_Host c
  /\ Config.Database_Port c = Config.Database_Port c
  /\ Config.Database_User c = Config.Database_User c
  /\ Config.Database_Password c = Config.Database_Password c
  /\ Config.Database_DBName c = Config.Database_DBName c
  /\ Config.Database_SSLMode c = Config.Database_SSLMode c.
Proof.
  apply (GetDSN_injective_without_spaces
           (Config.Database Config.defaultConfig)
           (Config.Database Config.defaultConfig)); reflexivity.
Defined.

Lemma Load_sampleOS :
  fst (Config.Load Config.plainParseInt Config.plainParseDuration sampleOS
         Config.viper_New)
  = (Some sampleConfig, None).
Proof. vm_compute. reflexivity. Qed.

Lemma Load_shadowOS :
  fst (Config.Load Config.plainParseInt Config.plainParseDuration shadowOS
         Config.viper_New)
  = (Some shadowConfig, None).
Proof. vm_compute. reflexivity. Qed.

Lemma Load_string_precedence_witness :
  Config.Database_Host (Config.Database sampleConfig) = "db.internal"
  /\ Config.Server_Host (Config.Server shadowConfig) = ""
  /\ Config.Database_User (Config.Database sampleConfig) = "svc"
  /\ Config.Database_SSLMode (Config.Database sampleConfig) = "disable".
Proof.
  split; [| split; [| split]].
  - refine (proj1 (Load_string_precedence Config.plainParseInt
                     Config.plainParseDuration sampleOS sampleConfig
                     "database.host"
                     (fun c => Config.Database_Host (Config.Database c))
                     Load_sampleOS _) "db.internal" _ _).
    + unfold Config.string_fields. cbn [In]. do 3 right. left. reflexivity.
    + vm_compute. reflexivity.
    + left. exists (Config.VString "file-host"). vm_compute. reflexivity.
  - refine (proj1 (proj2 (Load_string_precedence Config.plainParseInt
                     Config.plainParseDuration shadowOS shadowConfig
                     "server.host"
                     (fun c => Config.Server_Host (Config.Server c))
                     Load_shadowOS _)) _ _).
    + unfold Config.string_fields. cbn [In]. left. reflexivity.
    + vm_compute. reflexivity.
    + unfold Config.env_shadowed.
      change (Config.parentKeys "server.host") with ["server"].
      apply Exists_cons_hd. exists "x". vm_compute. reflexivity.
  - refine (proj1 (proj2 (proj2 (Load_string_precedence Config.plainParseInt
                     Config.plainParseDuration sampleOS sampleConfig
                     "database.user"
                     (fun c => Config.Database_User (Config.Database c))
                     Load_sampleOS _))) "svc" _ _ _).
    + unfold Config.string_fields. cbn [In]. do 4 right. left. reflexivity.
    + vm_compute. reflexivity.
    + unfold Config.env_clear.
      change (Config.parentKeys "database.user") with ["database"].
      constructor; [vm_compute; reflexivity | constructor].
    + vm_compute. reflexivity.
  - refine (proj2 (proj2 (proj2 (Load_string_precedence Config.plainParseInt
                     Config.plainParseDuration sampleOS sampleConfig
                     "database.sslmode"
                     (fun c => Config.Database_SSLMode (Config.Database c))
                     Load_sampleOS _))) "disable" _ _ _ _ _).
    + unfold Config.string_fields. cbn [In]. do 7 right. left. reflexivity.
    + vm_compute. reflexivity.
    + unfold Config.env_clear.
      change (Config.parentKeys "database.sslmode") with ["database"].
      constructor; [vm_compute; reflexivity | constructor].
    + vm_compute. reflexivity.
    + unfold Config.file_clear.
      change (Config.parentKeys "database.sslmode") with ["database"].
      constructor; [vm_compute; reflexivity | constructor].
    + vm_compute. reflexivity.
Defined.

(** A variable set for a section empties the fields below it: with
    BPMS_SERVER set and nothing else, the host and the port of the
    server are the zero values, not the defaults. *)
Example Load_shadowed_section :
  Config.Server_Host (Config.Server shadowConfig) = ""
  /\ Config.Server_Port (Config.Server shadowConfig) = 0%Z
  /\ Config.Database_Host (Config.Database shadowConfig) = "localhost".
Proof. vm_compute. repeat split. Qed.

Example parentKeys_of_nested_key :
  Config.parentKeys "auth.jwt.secret" = ["auth"; "auth.jwt"].
Proof. reflexivity. Qed.

Lemma Load_ignores_env_of_unknown_key_witness :
  Config.env_value sampleOS "security.encryption.key" = Some "0123456789abcdef"
  /\ Config.Encryption_Key
       (Config.Security_Encryption (Config.Security sampleConfig)) = "".
Proof.
  split; [vm_compute; reflexivity |].
  apply (Load_ignores_env_of_unknown_key Config.plainParseInt
           Config.plainParseDuration sampleOS sampleConfig
           "security.encryption.key"
           (fun c => Config.Encryption_Key
                       (Config.Security_Encryption (Config.Security c)))).
  - exact Load_sampleOS.
  - unfold Config.string_fields. cbn [In]. do 36 right. left. reflexivity.
  - vm_compute. reflexivity.
  - vm_compute. reflexivity.
Defined.

Lemma Load_int_from_env_witness :
  Config.Server_Port (Config.Server sampleConfig) = 9000%Z.
Proof.
  refine (proj1 (Load_int_from_env Config.plainParseInt Config.plainParseDuration
                   sampleOS "server.port"
                   (fun c => Config.Server_Port (Config.Server c))
                   "9000" _ _ _) sampleConfig 9000%Z Load_sampleOS _).
  - unfold Config.int_fields. cbn [In]. left. reflexivity.
  - vm_compute. reflexivity.
  - right. exists (Config.VInt 8081). vm_compute. reflexivity.
  - vm_compute. reflexivity.
Defined.

(** A port that is no number stops [Load]. *)
Example Load_bad_port :
  fst (Config.Load Config.plainParseInt Config.plainParseDuration
         {| Config.files := fun _ => None;
            Config.environ := {["BPMS_SERVER_PORT" := "http"]} |}
         Config.viper_New)
  = (None, Some (Config.Errorf "failed to unmarshal config: %w"
                   (Config.DecodeError "server.port"))).
Proof. vm_compute. reflexivity. Qed.
Section HandlersFacts.
Import Config Middleware Handlers.

(** ** [joinStrings] *)

Lemma joinStrings_Join (strs : list string) (sep : string) :
  joinStrings strs sep = strings_Join strs sep.
Proof.
  destruct strs as [|s0 rest]; [reflexivity |].
  unfold joinStrings. rewrite joinStrings_loop.
  destruct rest; reflexivity.
Qed.

Lemma strings_Join_cons (s : string) (rest : list string) (sep : string) :
  rest <> [] ->
  strings_Join (s :: rest) sep = s +:+ sep +:+ strings_Join rest sep.
Proof. destruct rest; [congruence | reflexivity]. Qed.

Lemma strings_Join_app (l1 l2 : list string) (sep : string) :
  l1 <> [] -> l2 <> [] ->
  strings_Join (l1 ++ l2) sep
  = strings_Join l1 sep +:+ sep +:+ strings_Join l2 sep.
Proof.
  intros H1 H2. induction l1 as [|s l1 IH]; [congruence |].
  destruct l1 as [|s' l1].
  - cbn [app]. by rewrite strings_Join_cons.
  - change ((s :: s' :: l1) ++ l2) with (s :: (s' :: l1) ++ l2).
    rewrite strings_Join_cons by (cbn; congruence).
    rewrite IH by congruence.
    rewrite (strings_Join_cons s (s' :: l1)) by congruence.
    by rewrite !string_app_assoc.
Qed.

(** Joining two slices one after the other is joining each and putting
    the separator between the two results. *)
Theorem joinStrings_app (l1 l2 : list string) (sep : string) :
  l1 <> [] -> l2 <> [] ->
  joinStrings (l1 ++ l2) sep
  = joinStrings l1 sep +:+ sep +:+ joinStrings l2 sep.
Proof. rewrite !joinStrings_Join. apply strings_Join_app. Qed.

(** ** Splitting at the commas and joining again *)

Lemma string_app_nil_r (s : string) : s +:+ "" = s.
Proof. induction s as [|x s IH]; [done | exact (f_equal (String x) IH)]. Qed.

Lemma split_from_not_nil (sep : ascii) (cur s : string) :
  split_from sep cur s <> [].
Proof.
  revert cur. induction s as [|c s IH]; intros cur; cbn [split_from]; [done |].
  destruct (Ascii.eqb c sep); [done | apply IH].
Qed.

Lemma Join_split_from (cur s : string) :
  strings_Join (split_from "," cur s) "," = cur +:+ s.
Proof.
  revert cur. induction s as [|c s IH]; intros cur; cbn [split_from].
  - cbn. by rewrite string_app_nil_r.
  - destruct (Ascii.eqb c ",") eqn:E.
    + apply Ascii.eqb_eq in E as ->.
      rewrite strings_Join_cons by apply split_from_not_nil.
      by rewrite IH.
    + rewrite IH. by rewrite string_app_assoc.
Qed.

(** [joinStrings] undoes the splitting of a setting at its commas: the
    slice a string of the environment is decoded into, joined with a
    comma, is the string again. *)
Theorem joinStrings_StringToSlice (s : string) :
  joinStrings (StringToSlice s) "," = s.
Proof.
  rewrite joinStrings_Join. unfold StringToSlice.
  destruct (String.eqb s "") eqn:E.
  - apply String.eqb_eq in E as ->. reflexivity.
  - apply Join_split_from.
Qed.

(** ** The header of the response *)

Lemma Context_Header_base (key value : string) (c : FullContext) :
  base (Context_Header key value c) = base c
  /\ index (Context_Header key value c) = index c
  /\ uuids (Context_Header key value c) = uuids c
  /\ drawn (Context_Header key value c) = drawn c.
Proof. unfold Context_Header. by destruct (String.eqb value ""). Qed.

Lemma Context_Header_rest (key value : string) (c : FullContext) :
  rawQuery (Context_Header key value c) = rawQuery c
  /\ clientIP (Context_Header key value c) = clientIP c
  /\ logger (Context_Header key value c) = logger c.
Proof. unfold Context_Header. by destruct (String.eqb value ""). Qed.

Lemma Context_Header_lookup (key value : string) (c : FullContext) (k : string) :
  respHeader (Context_Header key value c) !! k
  = if decide (k = CanonicalMIMEHeaderKey key)
    then (if String.eqb value "" then None else Some [value])
    else respHeader c !! k.
Proof.
  unfold Context_Header, Header_Del, Header_Set.
  destruct (String.eqb value ""); cbn [respHeader set_respHeader];
    destruct (decide (k = CanonicalMIMEHeaderKey key)) as [-> | Hne].
  - apply lookup_delete_eq.
  - by apply lookup_delete_ne.
  - apply lookup_insert_eq.
  - by apply lookup_insert_ne.
Qed.

Lemma Header_Get_Context_Header (key value : string) (c : FullContext) :
  Header_Get key (respHeader (Context_Header key value c)) = value.
Proof.
  unfold Header_Get. rewrite Context_Header_lookup.
  destruct (decide _) as [_ | Hne]; [| by destruct Hne].
  destruct (String.eqb value "") eqn:E; [| done].
  apply String.eqb_eq in E. by subst.
Qed.

(** A lookup under a literal key after a write under another literal
    key. *)
Ltac other_key :=
  rewrite Context_Header_lookup;
  match goal with
  | |- context [decide (?a = CanonicalMIMEHeaderKey ?b)] =>
      let E := fresh "E" in
      destruct (decide (a = CanonicalMIMEHeaderKey b)) as [E | _];
      [exfalso; vm_compute in E; discriminate E |]
  end.

Ltac same_key :=
  rewrite Context_Header_lookup;
  match goal with
  | |- context [decide (?a = CanonicalMIMEHeaderKey ?b)] =>
      let E := fresh "E" in
      destruct (decide (a = CanonicalMIMEHeaderKey b)) as [_ | E];
      [| exfalso; apply E; vm_compute; reflexivity]
  end.

(** ** [CORS] *)


Lemma CORS_headers_base (corsConfig : CORSConfig) (c : FullContext) :
  base (CORS_headers corsConfig c) = base c
  /\ index (CORS_headers corsConfig c) = index c
  /\ uuids (CORS_headers corsConfig c) = uuids c
  /\ drawn (CORS_headers corsConfig c) = drawn c.
Proof.
  unfold CORS_headers. cbv zeta.
  destruct (existsb _ _);
    repeat match goal with
           | |- context [Context_Header ?k ?v ?c] =>
               let H := fresh in
               pose proof (Context_Header_base k v c) as H;
               destruct H as (-> & -> & -> & ->)
           end; done.
Qed.

Lemma CORS_unfold (corsConfig : CORSConfig) (Next : FullContext -> FullContext)
    (c : FullContext) :
  CORS corsConfig Next c
  = if is_preflight c
    then AbortWithStatus StatusNoContent (CORS_headers corsConfig c)
    else Next (CORS_headers corsConfig c).
Proof.
  unfold is_preflight.
  destruct (CORS_headers_base corsConfig c) as (Hb & _). rewrite <- Hb.
  reflexivity.
Qed.

(** A preflight request stops at [CORS].  For a request with the method
    OPTIONS the handlers that follow in the chain do not run, whatever
    they are and whether the origin is allowed or not: the chain is
    aborted, the header is written with status 204 unless a response
    was under way, and nothing is added to the body. *)
Theorem CORS_preflight_stops_chain (corsConfig : CORSConfig)
    (Next : FullContext -> FullContext) (c : FullContext) :
  is_preflight c = true ->
  let c' := CORS corsConfig Next c in
  (forall Next' : FullContext -> FullContext, CORS corsConfig Next' c = c')
  /\ IsAborted c' = true
  /\ Server.written (Server.Writer (base c')) = true
  /\ Server.body (Server.Writer (base c')) = Server.body (Server.Writer (base c))
  /\ (Server.written (Server.Writer (base c)) = false ->
      Server.status (Server.Writer (base c')) = 204).
Proof.
  intros Hpre. cbv zeta. rewrite CORS_unfold, Hpre.
  destruct (CORS_headers_base corsConfig c) as (Hb & _).
  split; [| split; [| split; [| split]]].
  - intros Next'. by rewrite CORS_unfold, Hpre.
  - reflexivity.
  - unfold AbortWithStatus, WriteHeaderNow. cbn [base Abort set_base Server.Writer].
    destruct (Server.written (Server.WriteHeader _ _)) eqn:E; [exact E | reflexivity].
  - unfold AbortWithStatus, WriteHeaderNow, Server.WriteHeader.
    cbn [base Abort set_base Server.Writer]. rewrite Hb.
    destruct (_ && _)%bool;
      destruct (Server.written (Server.Writer (base c))) eqn:E;
      cbn [Server.written Server.body]; rewrite ?E; reflexivity.
  - intros Hw. unfold AbortWithStatus, WriteHeaderNow, Server.WriteHeader.
    cbn [base Abort set_base Server.Writer]. rewrite Hb, Hw.
    unfold StatusNoContent.
    destruct (Z.eqb_spec (Server.status (Server.Writer (base c))) 204) as [E | E];
      cbn; rewrite ?Hw; cbn; [exact E | reflexivity].
Qed.


(** The lists [CORS] sends.  Read with [Header.Get], the headers
    Access-Control-Allow-Methods and Access-Control-Allow-Headers are
    the configured methods and headers joined with a comma and a space,
    as [strings.Join] joins them; an empty list leaves no header. *)
Theorem CORS_lists_methods_and_headers (corsConfig : CORSConfig)
    (Next : FullContext -> FullContext) (c : FullContext) :
  exists c1 : FullContext,
    CORS corsConfig Next c
    = (if is_preflight c then AbortWithStatus StatusNoContent c1 else Next c1)
    /\ Header_Get "Access-Control-Allow-Methods" (respHeader c1)
       = strings_Join (CORS_AllowedMethods corsConfig) ", "
    /\ Header_Get "Access-Control-Allow-Headers" (respHeader c1)
       = strings_Join (CORS_AllowedHeaders corsConfig) ", "
    /\ (CORS_AllowedMethods corsConfig = [] ->
        respHeader c1 !! "Access-Control-Allow-Methods" = None)
    /\ Header_Get "Access-Control-Max-Age" (respHeader c1) = "86400".
Proof.
  exists (CORS_headers corsConfig c).
  split; [apply CORS_unfold |].
  unfold CORS_headers. cbv zeta.
  split; [| split; [| split]].
  - unfold Header_Get. do 3 other_key. same_key.
    rewrite joinStrings_Join.
    destruct (String.eqb _ "") eqn:E; [| reflexivity].
    apply String.eqb_eq in E. by rewrite E.
  - unfold Header_Get. do 2 other_key. same_key.
    rewrite joinStrings_Join.
    destruct (String.eqb _ "") eqn:E; [| reflexivity].
    apply String.eqb_eq in E. by rewrite E.
  - intros ->. do 3 other_key. same_key. reflexivity.
  - apply Header_Get_Context_Header.
Qed.

(** ** [RequestID] *)

(** The request identifier is passed on unchanged and announced twice.
    [RequestID] hands the rest of the chain a context in which the key
    request_id holds the identifier of the request, the one the request
    came with in X-Request-ID or else a fresh one, and, unless that
    identifier is empty, the response header X-Request-Id holds the same
    identifier; a fresh identifier is drawn only for a request that
    brought none. *)
Theorem RequestID_announces_one_id (Next : FullContext -> FullContext) (c : FullContext) :
  exists c1 : FullContext,
    RequestID Next c = Next c1
    /\ Server.Keys (base c1) !! "request_id" = Some (request_id c)
    /\ (request_id c <> "" ->
        respHeader c1 !! "X-Request-Id" = Some [request_id c])
    /\ (Request_Header_Get "X-Request-ID" c <> "" ->
        request_id c = Request_Header_Get "X-Request-ID" c
        /\ drawn c1 = drawn c)
    /\ (Request_Header_Get "X-Request-ID" c = "" ->
        request_id c = uuids c (drawn c) /\ drawn c1 = S (drawn c))
    /\ Server.Writer (base c1) = Server.Writer (base c).
Proof.
  unfold RequestID, request_id. cbv zeta.
  destruct (String.eqb (Request_Header_Get "X-Request-ID" c) "") eqn:E.
  - apply String.eqb_eq in E. unfold uuid_New.
    eexists. split; [reflexivity |].
    split; [| split; [| split; [| split]]].
    + destruct (Context_Header_base "X-Request-ID" (uuids c (drawn c))
                  (Context_Set "request_id" (uuids c (drawn c))
                     (set_drawn (S (drawn c)) c))) as (-> & _).
      cbn. apply lookup_insert_eq.
    + intros Hne. same_key.
      destruct (String.eqb _ "") eqn:E'; [| reflexivity].
      apply String.eqb_eq in E'. by destruct Hne.
    + intros Hne. by destruct Hne.
    + intros _. split; [reflexivity |].
      by destruct (Context_Header_base "X-Request-ID" (uuids c (drawn c))
                  (Context_Set "request_id" (uuids c (drawn c))
                     (set_drawn (S (drawn c)) c))) as (_ & _ & _ & ->).
    + by destruct (Context_Header_base "X-Request-ID" (uuids c (drawn c))
                  (Context_Set "request_id" (uuids c (drawn c))
                     (set_drawn (S (drawn c)) c))) as (-> & _).
  - eexists. split; [reflexivity |].
    split; [| split; [| split; [| split]]].
    + destruct (Context_Header_base "X-Request-ID"
                  (Request_Header_Get "X-Request-ID" c)
                  (Context_Set "request_id"
                     (Request_Header_Get "X-Request-ID" c) c)) as (-> & _).
      cbn. apply lookup_insert_eq.
    + intros _. same_key. by rewrite E.
    + intros _. split; [reflexivity |].
      by destruct (Context_Header_base "X-Request-ID"
                  (Request_Header_Get "X-Request-ID" c)
                  (Context_Set "request_id"
                     (Request_Header_Get "X-Request-ID" c) c)) as (_ & _ & _ & ->).
    + intros Hnil. rewrite Hnil in E. discriminate E.
    + by destruct (Context_Header_base "X-Request-ID"
                  (Request_Header_Get "X-Request-ID" c)
                  (Context_Set "request_id"
                     (Request_Header_Get "X-Request-ID" c) c)) as (-> & _).
Qed.

(** ** [SecurityHeaders] *)

(** [SecurityHeaders] sets six headers and nothing else.  The context
    it hands to the rest of the chain has each of the six headers with
    its fixed value, whatever the header held before, every other key
    of the header as it was, and the request, the writer, the keys and
    the position in the chain untouched: it neither answers nor stops
    the chain. *)
Theorem SecurityHeaders_sets_six_headers (Next : FullContext -> FullContext)
    (c : FullContext) :
  exists c1 : FullContext,
    SecurityHeaders Next c = Next c1
    /\ base c1 = base c /\ index c1 = index c
    /\ (forall k v, In (k, v) security_headers -> respHeader c1 !! k = Some [v])
    /\ (forall k, k ∉ map fst security_headers ->
                  respHeader c1 !! k = respHeader c !! k).
Proof.
  unfold SecurityHeaders. cbv zeta. eexists. split; [reflexivity |].
  split; [| split; [| split]].
  - reflexivity.
  - reflexivity.
  - intros k v Hin. unfold security_headers in Hin. cbn [In] in Hin.
    repeat (destruct Hin as [[= <- <-] | Hin]); [.. | destruct Hin].
    + do 5 other_key. same_key. reflexivity.
    + do 4 other_key. same_key. reflexivity.
    + do 3 other_key. same_key. reflexivity.
    + do 2 other_key. same_key. reflexivity.
    + do 1 other_key. same_key. reflexivity.
    + same_key. reflexivity.
  - intros k Hk.
    assert (Hne : forall key, In key (map fst security_headers) -> k <> key).
    { intros key Hkey ->. apply Hk. by apply list_elem_of_In. }
    unfold security_headers in Hne. cbn [map fst In] in Hne.
    repeat (rewrite Context_Header_lookup;
            destruct (decide _) as [E | _];
            [exfalso; vm_compute in E; refine (Hne _ _ E);
             repeat first [left; reflexivity | right] |]).
    reflexivity.
Qed.

(** ** [SecurityHeaders] and [RequestID] together *)

Lemma Context_Set_respHeader (key value : string) (c : FullContext) :
  respHeader (Context_Set key value c) = respHeader c.
Proof. reflexivity. Qed.

Lemma Context_eq (c1 c2 : FullContext) :
  base c1 = base c2 -> respHeader c1 = respHeader c2 -> index c1 = index c2 ->
  uuids c1 = uuids c2 -> drawn c1 = drawn c2 ->
  rawQuery c1 = rawQuery c2 -> clientIP c1 = clientIP c2 ->
  logger c1 = logger c2 -> c1 = c2.
Proof. destruct c1, c2. cbn. by intros -> -> -> -> -> -> -> ->. Qed.

Ltac header_parts :=
  repeat match goal with
         | |- _ =>
             progress cbn [base index uuids drawn rawQuery clientIP logger
                           respHeader set_drawn set_base set_index set_logger
                           Context_Set]
         | |- context [base (Context_Header ?k ?v ?c)] =>
             rewrite (proj1 (Context_Header_base k v c))
         | |- context [index (Context_Header ?k ?v ?c)] =>
             rewrite (proj1 (proj2 (Context_Header_base k v c)))
         | |- context [uuids (Context_Header ?k ?v ?c)] =>
             rewrite (proj1 (proj2 (proj2 (Context_Header_base k v c))))
         | |- context [drawn (Context_Header ?k ?v ?c)] =>
             rewrite (proj2 (proj2 (proj2 (Context_Header_base k v c))))
         | |- context [rawQuery (Context_Header ?k ?v ?c)] =>
             rewrite (proj1 (Context_Header_rest k v c))
         | |- context [clientIP (Context_Header ?k ?v ?c)] =>
             rewrite (proj1 (proj2 (Context_Header_rest k v c)))
         | |- context [logger (Context_Header ?k ?v ?c)] =>
             rewrite (proj2 (proj2 (Context_Header_rest k v c)))
         end.

Lemma SecurityHeaders_RequestID (Next : FullContext -> FullContext) (c : FullContext) :
  SecurityHeaders (RequestID Next) c = RequestID (SecurityHeaders Next) c.
Proof.
  unfold SecurityHeaders, RequestID. cbv zeta.
  unfold Request_Header_Get. header_parts.
  fold (Request_Header_Get "X-Request-ID" c).
  destruct (String.eqb (Request_Header_Get "X-Request-ID" c) "");
    unfold uuid_New; header_parts; f_equal;
    (apply Context_eq; header_parts; try reflexivity);
    apply map_eq; intros k;
    repeat first [ rewrite Context_Header_lookup
                 | rewrite Context_Set_respHeader
                 | progress cbn [respHeader set_drawn] ];
    repeat match goal with
           | |- context [decide (k = ?key)] =>
               destruct (decide (k = key))
           end;
    try reflexivity;
    subst;
    match goal with
    | E : CanonicalMIMEHeaderKey _ = CanonicalMIMEHeaderKey _ |- _ =>
        vm_compute in E; discriminate E
    end.
Qed.

(** [SecurityHeaders] and [RequestID] can be installed in either order:
    with the one before the other or the other before the one, the rest
    of the chain receives the same context and the request gets the same
    answer. *)
Theorem SecurityHeaders_RequestID_commute (Next : FullContext -> FullContext)
    (c : FullContext) :
  SecurityHeaders (RequestID Next) c = RequestID (SecurityHeaders Next) c.
Proof. exact (SecurityHeaders_RequestID Next c). Qed.

End HandlersFacts.
Lemma joinStrings_app_witness :
  Middleware.joinStrings (["GET"; "POST"] ++ ["PUT"]) ", "
  = Middleware.joinStrings ["GET"; "POST"] ", " +:+ ", "
    +:+ Middleware.joinStrings ["PUT"] ", ".
Proof. apply joinStrings_app; discriminate. Defined.

Lemma CORS_preflight_stops_chain_witness :
  let c := requestContext "OPTIONS" in
  let corsConfig := Config.Security_CORS (Config.Security Config.defaultConfig) in
  let c' := Handlers.CORS corsConfig (Handlers.SecurityHeaders (fun c => c)) c in
  (forall Next' : Handlers.FullContext -> Handlers.FullContext,
      Handlers.CORS corsConfig Next' c = c')
  /\ Handlers.IsAborted c' = true
  /\ Server.written (Server.Writer (Handlers.base c')) = true
  /\ Server.body (Server.Writer (Handlers.base c'))
     = Server.body (Server.Writer (Handlers.base c))
  /\ (Server.written (Server.Writer (Handlers.base c)) = false ->
      Server.status (Server.Writer (Handlers.base c')) = 204%Z).
Proof.
  exact (CORS_preflight_stops_chain
           (Config.Security_CORS (Config.Security Config.defaultConfig))
           (Handlers.SecurityHeaders (fun c => c))
           (requestContext "OPTIONS") eq_refl).
Defined.

(** With the default configuration a request is named back its own
    origin, and a preflight is answered without the security headers. *)
Example CORS_default_reflects_origin :
  Handlers.respHeader
    (Handlers.CORS (Config.Security_CORS (Config.Security Config.defaultConfig))
       (fun c => c) (requestContext "GET"))
  = <["Access-Control-Allow-Origin" := ["https://app.example"]]>
      (<["Access-Control-Allow-Methods" := ["GET, POST, PUT, DELETE, OPTIONS"]]>
         (<["Access-Control-Allow-Headers" := ["*"]]>
            (<["Access-Control-Allow-Credentials" := ["true"]]>
               {["Access-Control-Max-Age" := ["86400"]]}))).
Proof. vm_compute. reflexivity. Qed.

Example preflight_without_security_headers :
  let c' := Handlers.CORS
              (Config.Security_CORS (Config.Security Config.defaultConfig))
              (Handlers.SecurityHeaders (Handlers.RequestID (fun c => c)))
              (requestContext "OPTIONS") in
  Server.status (Server.Writer (Handlers.base c')) = 204%Z
  /\ Handlers.respHeader c' !! "X-Frame-Options" = None
  /\ Server.Keys (Handlers.base c') !! "request_id" = None.
Proof. vm_compute. repeat split. Qed.

Example RequestID_fresh :
  let c' := Handlers.RequestID (fun c => c) (requestContext "GET") in
  Handlers.respHeader c' !! "X-Request-Id"
  = Some ["6ba7b810-9dad-11d1-80b4-00c04fd430c8"]
  /\ Handlers.respHeader c' !! "X-Request-ID" = None
  /\ Handlers.Header_Get "X-Request-ID" (Handlers.respHeader c')
     = "6ba7b810-9dad-11d1-80b4-00c04fd430c8".
Proof. vm_compute. repeat split. Qed.
Section ServerSetupFacts.
Import Config Middleware Handlers ServerSetup.

Variable RateLimit : RateLimitConfig -> MiddlewareFunc.

(** ** [RequestLogger] *)

Lemma RequestLogger_unfold (Next : FullContext -> FullContext) (c : FullContext) :
  RequestLogger Next c
  = set_logger
      (if IsLevelEnabled InfoLevel (logger (Next c))
       then {| level := level (logger (Next c));
               formatter := formatter (logger (Next c));
               out := out (logger (Next c));
               entries := entries (logger (Next c)) ++ [request_entry c (Next c)] |}
       else logger (Next c))
      (Next c).
Proof.
  unfold RequestLogger, WithFields_Info, request_entry. cbv zeta.
  destruct (IsLevelEnabled InfoLevel (logger (Next c))); [| reflexivity].
  by destruct (String.eqb (rawQuery c) "").
Qed.

Lemma RequestLogger_entries (Next : FullContext -> FullContext) (c : FullContext) :
  entries (logger (RequestLogger Next c))
  = if IsLevelEnabled InfoLevel (logger (Next c))
    then entries (logger (Next c)) ++ [request_entry c (Next c)]
    else entries (logger (Next c)).
Proof.
  rewrite RequestLogger_unfold. cbn [logger set_logger].
  by destruct (IsLevelEnabled InfoLevel (logger (Next c))).
Qed.

Lemma setupLogging_level (openFile : string -> bool) (cfg : LoggingConfig)
    (lg lg' : Logger) :
  setupLogging openFile cfg lg = Some lg' ->
  level lg'
  = if String.eqb (Logging_Level cfg) "debug" then DebugLevel
    else if String.eqb (Logging_Level cfg) "info" then InfoLevel
    else if String.eqb (Logging_Level cfg) "warn" then WarnLevel
    else if String.eqb (Logging_Level cfg) "error" then ErrorLevel
    else InfoLevel.
Proof.
  unfold setupLogging. cbv zeta.
  destruct (_ && _)%bool; [destruct (openFile _); [| intros [=]] |];
    intros [= <-];
    destruct (String.eqb (Logging_Format cfg) "json");
    destruct (String.eqb (Logging_Level cfg) "debug");
    destruct (String.eqb (Logging_Level cfg) "info");
    destruct (String.eqb (Logging_Level cfg) "warn");
    destruct (String.eqb (Logging_Level cfg) "error"); reflexivity.
Qed.

(** The level of the configuration decides whether requests are
    logged.  Under the logger [setupLogging] has set up, [RequestLogger]
    adds nothing of its own to the log when logging.level is "warn" or
    "error", and with any other level, the unknown ones included, it
    adds exactly one entry after the rest of the chain has run. *)
Theorem setupLogging_decides_request_log (openFile : string -> bool)
    (cfg : LoggingConfig) (lg lg' : Logger) (Next : FullContext -> FullContext)
    (c : FullContext) :
  setupLogging openFile cfg lg = Some lg' ->
  level (logger (Next c)) = level lg' ->
  (Logging_Level cfg = "warn" \/ Logging_Level cfg = "error" ->
   entries (logger (RequestLogger Next c)) = entries (logger (Next c)))
  /\ (Logging_Level cfg <> "warn" -> Logging_Level cfg <> "error" ->
      entries (logger (RequestLogger Next c))
      = entries (logger (Next c)) ++ [request_entry c (Next c)]).
Proof.
  intros Hset Hlevel. pose proof (setupLogging_level _ _ _ _ Hset) as Hl.
  rewrite RequestLogger_entries. unfold IsLevelEnabled. rewrite Hlevel, Hl.
  split.
  - intros [-> | ->]; reflexivity.
  - intros Hw He.
    destruct (String.eqb (Logging_Level cfg) "debug"); [reflexivity |].
    destruct (String.eqb (Logging_Level cfg) "info"); [reflexivity |].
    destruct (String.eqb_spec (Logging_Level cfg) "warn") as [E | _];
      [by destruct Hw |].
    destruct (String.eqb_spec (Logging_Level cfg) "error") as [E | _];
      [by destruct He |].
    reflexivity.
Qed.

(** ** The chain of [setupMiddleware] *)

Lemma serve_setupMiddleware (cfg : Config) (h : Server.HandlerFunc) (c : FullContext) :
  serve (setupMiddleware RateLimit [] cfg) h c
  = Recovery
      (RequestLogger
         (CORS (Security_CORS (Security cfg))
            (if RateLimit_Enabled (Security_RateLimit (Security cfg))
             then RateLimit (Security_RateLimit (Security cfg))
                    (SecurityHeaders (RequestID (last_handler h)))
             else SecurityHeaders (RequestID (last_handler h))))) c.
Proof.
  unfold serve, setupMiddleware, Use. cbv zeta.
  by destruct (RateLimit_Enabled _).
Qed.

Lemma CORS_headers_other (corsConfig : CORSConfig) (c : FullContext) (k : string) :
  k ∉ ["Access-Control-Allow-Origin"; "Access-Control-Allow-Methods";
       "Access-Control-Allow-Headers"; "Access-Control-Allow-Credentials";
       "Access-Control-Max-Age"] ->
  respHeader (CORS_headers corsConfig c) !! k = respHeader c !! k.
Proof.
  intros Hk.
  assert (Hne : forall key,
             In key ["Access-Control-Allow-Origin"; "Access-Control-Allow-Methods";
                     "Access-Control-Allow-Headers";
                     "Access-Control-Allow-Credentials";
                     "Access-Control-Max-Age"] -> k <> key).
  { intros key Hkey ->. apply Hk. by apply list_elem_of_In. }
  cbn [In] in Hne.
  unfold CORS_headers. cbv zeta.
  destruct (existsb _ _);
    repeat (rewrite Context_Header_lookup;
            destruct (decide _) as [E | _];
            [exfalso; vm_compute in E; refine (Hne _ _ E);
             repeat first [left; reflexivity | right] |]);
    reflexivity.
Qed.

Lemma security_key_not_CORS (k v : string) :
  In (k, v) security_headers ->
  k ∉ ["Access-Control-Allow-Origin"; "Access-Control-Allow-Methods";
       "Access-Control-Allow-Headers"; "Access-Control-Allow-Credentials";
       "Access-Control-Max-Age"].
Proof.
  unfold security_headers. cbn [In]. intros Hin.
  repeat (destruct Hin as [[= <- <-] | Hin]); [.. | destruct Hin];
    apply (bool_decide_unpack _); vm_compute; exact I.
Qed.

Lemma preflight_chain (cfg : Config) (h : Server.HandlerFunc) (c : FullContext) :
  is_preflight c = true ->
  let c' := serve (setupMiddleware RateLimit [] cfg) h c in
  Server.body (Server.Writer (base c')) = Server.body (Server.Writer (base c))
  /\ (Server.written (Server.Writer (base c)) = false ->
      Server.status (Server.Writer (base c')) = 204)
  /\ Server.Keys (base c') = Server.Keys (base c)
  /\ (forall k v, In (k, v) security_headers ->
                  respHeader c' !! k = respHeader c !! k)
  /\ (IsLevelEnabled InfoLevel (logger c) = true ->
      entries (logger c')
      = entries (logger c)
        ++ [request_entry c
              (AbortWithStatus StatusNoContent
                 (CORS_headers (Security_CORS (Security cfg)) c))]).
Proof.
  intros Hpre. cbv zeta. rewrite serve_setupMiddleware. unfold Recovery.
  rewrite RequestLogger_unfold, CORS_unfold, Hpre.
  set (c1 := CORS_headers (Security_CORS (Security cfg)) c).
  destruct (CORS_headers_base (Security_CORS (Security cfg)) c)
    as (Hb & Hi & Hu & Hd).
  fold c1 in Hb, Hi, Hu, Hd.
  assert (Hlog : logger c1 = logger c).
  { unfold c1, CORS_headers. cbv zeta.
    destruct (existsb _ _);
      repeat match goal with
             | |- context [logger (Context_Header ?k ?v ?x)] =>
                 rewrite (proj2 (proj2 (Context_Header_rest k v x)))
             end; reflexivity. }
  cbn [base logger respHeader set_logger AbortWithStatus Abort set_index set_base
       Server.Writer Server.Keys].
  rewrite Hb, Hlog.
  split; [| split; [| split; [| split]]].
  - unfold WriteHeaderNow, Server.WriteHeader.
    destruct (_ && _)%bool;
      destruct (Server.written (Server.Writer (base c))) eqn:E;
      cbn [Server.written Server.body]; rewrite ?E; reflexivity.
  - intros Hw. unfold WriteHeaderNow, Server.WriteHeader, StatusNoContent.
    rewrite Hw.
    destruct (Z.eqb_spec (Server.status (Server.Writer (base c))) 204) as [E | E];
      cbn; rewrite ?Hw; cbn; [exact E | reflexivity].
  - reflexivity.
  - intros k v Hin. apply CORS_headers_other.
    by apply (security_key_not_CORS k v).
  - intros Hen. rewrite Hen. reflexivity.
Qed.

(** A preflight request through the handlers of [setupMiddleware].
    For a request with the method OPTIONS the answer does not depend on
    the route, its handler or the rate limiter, which are never
    reached: the status is 204 unless a response was under way, the
    body is as it was, no request identifier is set, the six security
    headers are as they were, and a logger at level info or below
    writes one entry for the request. *)
Theorem setupMiddleware_preflight (cfg : Config) (h : Server.HandlerFunc)
    (c : FullContext) :
  is_preflight c = true ->
  let c' := serve (setupMiddleware RateLimit [] cfg) h c in
  Server.body (Server.Writer (base c')) = Server.body (Server.Writer (base c))
  /\ (Server.written (Server.Writer (base c)) = false ->
      Server.status (Server.Writer (base c')) = 204)
  /\ Server.Keys (base c') = Server.Keys (base c)
  /\ (forall k v, In (k, v) security_headers ->
                  respHeader c' !! k = respHeader c !! k)
  /\ (IsLevelEnabled InfoLevel (logger c) = true ->
      entries (logger c')
      = entries (logger c)
        ++ [request_entry c
              (AbortWithStatus StatusNoContent
                 (CORS_headers (Security_CORS (Security cfg)) c))]).
Proof. exact (preflight_chain cfg h c). Qed.

(** ** A request to the API through the chain *)

Ltac other_key :=
  rewrite Context_Header_lookup;
  match goal with
  | |- context [decide (?a = CanonicalMIMEHeaderKey ?b)] =>
      let E := fresh "E" in
      destruct (decide (a = CanonicalMIMEHeaderKey b)) as [E | _];
      [exfalso; vm_compute in E; discriminate E |]
  end.

Ltac same_key :=
  rewrite Context_Header_lookup;
  match goal with
  | |- context [decide (?a = CanonicalMIMEHeaderKey ?b)] =>
      let E := fresh "E" in
      destruct (decide (a = CanonicalMIMEHeaderKey b)) as [_ | E];
      [| exfalso; apply E; vm_compute; reflexivity]
  end.

Lemma RequestID_unfold (Next : FullContext -> FullContext) (c : FullContext) :
  RequestID Next c
  = Next (Context_Header "X-Request-ID" (request_id c)
            (Context_Set "request_id" (request_id c)
               (if String.eqb (Request_Header_Get "X-Request-ID" c) ""
                then set_drawn (S (drawn c)) c else c))).
Proof.
  unfold RequestID, request_id, uuid_New. cbv zeta.
  by destruct (String.eqb (Request_Header_Get "X-Request-ID" c) "").
Qed.

(** The context [SecurityHeaders] hands on. *)
Lemma SecurityHeaders_unfold (Next : FullContext -> FullContext) (c : FullContext) :
  exists c2 : FullContext,
    SecurityHeaders Next c = Next c2
    /\ base c2 = base c /\ uuids c2 = uuids c /\ drawn c2 = drawn c
    /\ logger c2 = logger c
    /\ forall k v, In (k, v) security_headers -> respHeader c2 !! k = Some [v].
Proof.
  unfold SecurityHeaders. cbv zeta. eexists. split; [reflexivity |].
  do 4 (split; [reflexivity |]).
  intros k v Hin. unfold security_headers in Hin. cbn [In] in Hin.
  repeat (destruct Hin as [[= <- <-] | Hin]); [.. | destruct Hin].
  - do 5 other_key. same_key. reflexivity.
  - do 4 other_key. same_key. reflexivity.
  - do 3 other_key. same_key. reflexivity.
  - do 2 other_key. same_key. reflexivity.
  - do 1 other_key. same_key. reflexivity.
  - same_key. reflexivity.
Qed.

Lemma security_key_not_request_id (k v : string) :
  In (k, v) security_headers -> k <> CanonicalMIMEHeaderKey "X-Request-ID".
Proof.
  unfold security_headers. cbn [In]. intros Hin.
  repeat (destruct Hin as [[= <- <-] | Hin]); [.. | destruct Hin];
    intros E; vm_compute in E; discriminate E.
Qed.

Lemma api_request_chain (swaggerHandler : Server.HandlerFunc) (DB : Type)
    (cfg : Config) (db : DB) (r : Server.Route) (c : FullContext) :
  RateLimit_Enabled (Security_RateLimit (Security cfg)) = false ->
  is_preflight c = false ->
  In r (Server.routes (Server.setupRoutes swaggerHandler Server.gin_New cfg db)) ->
  Server.under_api_v1 r = true ->
  Server.Writer (base c) = Server.freshWriter ->
  let c' := serve (setupMiddleware RateLimit [] cfg) (Server.route_handler r) c in
  Server.placeholder_response (Server.Writer (base c'))
  /\ has_security_headers c'
  /\ Server.Keys (base c') !! "request_id" = Some (request_id c)
  /\ (request_id c <> "" ->
      respHeader c' !! "X-Request-Id" = Some [request_id c])
  /\ (IsLevelEnabled InfoLevel (logger c) = true ->
      exists e : Entry,
        entries (logger c') = entries (logger c) ++ [e]
        /\ entry_fields e !! "status" = Some (FInt 200)
        /\ entry_fields e !! "request_id" = Some (FString (request_id c))).
Proof.
  intros Hrate Hpre Hin Hunder Hfresh. cbv zeta.
  pose proof (setupRoutes_stubs swaggerHandler DB cfg db) as Hall.
  rewrite List.Forall_forall in Hall.
  destruct (Hall r Hin Hunder) as (m & Hm & Hstub). clear Hall Hin Hunder.
  rewrite serve_setupMiddleware, Hrate. unfold Recovery.
  rewrite RequestLogger_unfold, CORS_unfold, Hpre.
  destruct (CORS_headers_base (Security_CORS (Security cfg)) c)
    as (Hb1 & _ & Hu1 & Hd1).
  assert (Hlog1 : logger (CORS_headers (Security_CORS (Security cfg)) c)
                  = logger c).
  { unfold CORS_headers. cbv zeta.
    destruct (existsb _ _);
      repeat match goal with
             | |- context [logger (Context_Header ?k ?v ?x)] =>
                 rewrite (proj2 (proj2 (Context_Header_rest k v x)))
             end; reflexivity. }
  remember (CORS_headers (Security_CORS (Security cfg)) c) as c1 eqn:Hc1.
  clear Hc1.
  destruct (SecurityHeaders_unfold (RequestID (last_handler (Server.route_handler r))) c1)
    as (c2 & -> & Hb2 & Hu2 & Hd2 & Hlog2 & Hsec).
  rewrite RequestID_unfold.
  assert (Hid : request_id c2 = request_id c).
  { unfold request_id, Request_Header_Get. by rewrite Hb2, Hb1, Hu2, Hu1, Hd2, Hd1. }
  assert (Hget : Request_Header_Get "X-Request-ID" c2
                 = Request_Header_Get "X-Request-ID" c).
  { unfold Request_Header_Get. by rewrite Hb2, Hb1. }
  rewrite Hid, Hget.
  remember (Context_Header "X-Request-ID" (request_id c)
              (Context_Set "request_id" (request_id c)
                 (if String.eqb (Request_Header_Get "X-Request-ID" c) ""
                  then set_drawn (S (drawn c2)) c2 else c2))) as c3 eqn:Hc3.
  assert (Hb3 : base c3
                = {| Server.Request_ := Server.Request_ (base c);
                     Server.Writer := Server.freshWriter;
                     Server.Keys := <["request_id" := request_id c]>
                                      (Server.Keys (base c));
                     Server.Now := Server.Now (base c) |}).
  { rewrite Hc3. rewrite (proj1 (Context_Header_base _ _ _)).
    destruct (String.eqb _ ""); cbn; by rewrite Hb2, Hb1, Hfresh. }
  assert (Hlog3 : logger c3 = logger c).
  { rewrite Hc3. rewrite (proj2 (proj2 (Context_Header_rest _ _ _))).
    destruct (String.eqb _ ""); cbn; by rewrite Hlog2, Hlog1. }
  assert (Hh3 : forall k, k <> CanonicalMIMEHeaderKey "X-Request-ID" ->
                          respHeader c3 !! k = respHeader c2 !! k).
  { intros k Hk. rewrite Hc3. rewrite Context_Header_lookup.
    destruct (decide _) as [E | _]; [by destruct Hk |].
    by destruct (String.eqb _ ""). }
  assert (Hc4 : base (last_handler (Server.route_handler r) c3)
                = {| Server.Request_ := Server.Request_ (base c);
                     Server.Writer :=
                       {| Server.status := 200; Server.written := true;
                          Server.body := [ {["message" := Server.JString m]} ] |};
                     Server.Keys := <["request_id" := request_id c]>
                                      (Server.Keys (base c));
                     Server.Now := Server.Now (base c) |}).
  { unfold last_handler. cbn [base set_base]. rewrite Hstub, Hb3. reflexivity. }
  assert (Hlog4 : logger (last_handler (Server.route_handler r) c3) = logger c).
  { unfold last_handler. cbn [logger set_base]. exact Hlog3. }
  cbn [base respHeader logger set_logger].
  split; [| split; [| split; [| split]]].
  - rewrite Hc4. cbn [Server.Writer]. split; [reflexivity |].
    exists m. split; [reflexivity | exact Hm].
  - intros k v Hkv. unfold last_handler. cbn [respHeader set_base set_logger].
    rewrite (Hh3 k (security_key_not_request_id k v Hkv)). by apply Hsec.
  - rewrite Hc4. cbn [Server.Keys]. apply lookup_insert_eq.
  - intros Hne. unfold last_handler. cbn [respHeader set_base set_logger]. rewrite Hc3.
    same_key. destruct (String.eqb (request_id c) "") eqn:E; [| reflexivity].
    apply String.eqb_eq in E. by destruct Hne.
  - intros Hen. cbn [logger set_logger]. rewrite Hlog4, Hen. cbn [entries].
    eexists. split; [reflexivity |]. unfold request_entry. cbn [entry_fields].
    unfold GetString. rewrite Hc4. cbn [Server.Writer Server.status Server.Keys].
    split.
    + apply lookup_insert_eq.
    + rewrite lookup_insert_eq. cbn [default].
      do 6 (rewrite lookup_insert_ne by discriminate).
      apply lookup_singleton_eq.
Qed.

(** A request to the API through the handlers of [setupMiddleware] and
    the route.  With rate limiting off, a request that is no preflight
    and meets a route under /api/v1 is answered with status 200 and the
    one message of the placeholder; the response carries the six
    security headers; the request identifier, brought along or fresh,
    is under the key request_id and in the header X-Request-Id; and the
    entry a logger at level info or below writes for the request
    records status 200 and that same identifier. *)
Theorem setupMiddleware_api_request (swaggerHandler : Server.HandlerFunc)
    (DB : Type) (cfg : Config) (db : DB) (r : Server.Route) (c : FullContext) :
  RateLimit_Enabled (Security_RateLimit (Security cfg)) = false ->
  is_preflight c = false ->
  In r (Server.routes (Server.setupRoutes swaggerHandler Server.gin_New cfg db)) ->
  Server.under_api_v1 r = true ->
  Server.Writer (base c) = Server.freshWriter ->
  let c' := serve (setupMiddleware RateLimit [] cfg) (Server.route_handler r) c in
  Server.placeholder_response (Server.Writer (base c'))
  /\ has_security_headers c'
  /\ Server.Keys (base c') !! "request_id" = Some (request_id c)
  /\ (request_id c <> "" ->
      respHeader c' !! "X-Request-Id" = Some [request_id c])
  /\ (IsLevelEnabled InfoLevel (logger c) = true ->
      exists e : Entry,
        entries (logger c') = entries (logger c) ++ [e]
        /\ entry_fields e !! "status" = Some (FInt 200)
        /\ entry_fields e !! "request_id" = Some (FString (request_id c))).
Proof. exact (api_request_chain swaggerHandler DB cfg db r c). Qed.

End ServerSetupFacts.
Lemma setupLogging_decides_request_log_witness :
  Handlers.entries (Handlers.logger (Handlers.RequestLogger (fun c => c) quietContext))
  = Handlers.entries (Handlers.logger quietContext).
Proof.
  refine (proj1 (setupLogging_decides_request_log (fun _ => true) warnLogging
                   Handlers.logrus_New warnLogger (fun c => c) quietContext
                   _ _) _).
  - vm_compute. reflexivity.
  - reflexivity.
  - left. reflexivity.
Defined.

Lemma setupMiddleware_preflight_witness :
  let c := requestContext "OPTIONS" in
  let c' := ServerSetup.serve
              (ServerSetup.setupMiddleware openLimiter [] Config.defaultConfig)
              Server.loginHandler c in
  Server.body (Server.Writer (Handlers.base c'))
  = Server.body (Server.Writer (Handlers.base c))
  /\ (Server.written (Server.Writer (Handlers.base c)) = false ->
      Server.status (Server.Writer (Handlers.base c')) = 204%Z)
  /\ Server.Keys (Handlers.base c') = Server.Keys (Handlers.base c)
  /\ (forall k v, In (k, v) Handlers.security_headers ->
                  Handlers.respHeader c' !! k = Handlers.respHeader c !! k)
  /\ (Handlers.IsLevelEnabled Handlers.InfoLevel (Handlers.logger c) = true ->
      Handlers.entries (Handlers.logger c')
      = Handlers.entries (Handlers.logger c)
        ++ [Handlers.request_entry c
              (Handlers.AbortWithStatus Handlers.StatusNoContent
                 (Handlers.CORS_headers
                    (Config.Security_CORS (Config.Security Config.defaultConfig))
                    c))]).
Proof.
  exact (setupMiddleware_preflight openLimiter Config.defaultConfig
           Server.loginHandler (requestContext "OPTIONS") eq_refl).
Defined.

Lemma setupMiddleware_api_request_witness :
  let c := requestContext "POST" in
  let c' := ServerSetup.serve
              (ServerSetup.setupMiddleware openLimiter [] noLimitConfig)
              (Server.route_handler loginRoute) c in
  Server.placeholder_response (Server.Writer (Handlers.base c'))
  /\ ServerSetup.has_security_headers c'
  /\ Server.Keys (Handlers.base c') !! "request_id"
     = Some (Handlers.request_id c)
  /\ (Handlers.request_id c <> "" ->
      Handlers.respHeader c' !! "X-Request-Id" = Some [Handlers.request_id c])
  /\ (Handlers.IsLevelEnabled Handlers.InfoLevel (Handlers.logger c) = true ->
      exists e : Handlers.Entry,
        Handlers.entries (Handlers.logger c')
        = Handlers.entries (Handlers.logger c) ++ [e]
        /\ Handlers.entry_fields e !! "status" = Some (Handlers.FInt 200)
        /\ Handlers.entry_fields e !! "request_id"
           = Some (Handlers.FString (Handlers.request_id c))).
Proof.
  apply (setupMiddleware_api_request openLimiter (fun c => c) unit noLimitConfig
           tt loginRoute (requestContext "POST")).
  - reflexivity.
  - reflexivity.
  - cbv [Server.setupRoutes noLimitConfig Config.defaultConfig Config.Metrics
         Config.Metrics_Enabled Config.Metrics_Path Server.GET Server.POST
         Server.PUT Server.DELETE Server.handle Server.Group Server.root
         Server.routes Server.gin_New Server.basePath app].
    do 3 right. left. reflexivity.
  - reflexivity.
  - reflexivity.
Defined.

(** The log of a request to the login route. *)
Example logged_login_request :
  let c' := ServerSetup.serve
              (ServerSetup.setupMiddleware openLimiter [] Config.defaultConfig)
              Server.loginHandler (requestContext "POST") in
  (fun e => (Handlers.entry_message e,
             Handlers.entry_fields e !! "path",
             Handlers.entry_fields e !! "status"))
    <$> Handlers.entries (Handlers.logger c')
  = [("HTTP Request",
      Some (Handlers.FString "/api/v1/tasks?status=open"),
      Some (Handlers.FInt 200))].
Proof. vm_compute. reflexivity. Qed.
Section ServerMoreFacts.
Import Config Server.

(** A route that is neither the health check nor the documentation. *)
Ltac placeholder_case :=
  intros Hh Hs;
  first
    [ exfalso; apply Hh; reflexivity
    | exfalso; apply Hs; reflexivity
    | clear Hh Hs; cbn [route_handler];
      lazymatch goal with
      | |- exists m, _ /\ stub m ?h =>
          let b := eval cbv delta [h] beta in h in
          lazymatch b with
          | (fun c => JSON _ {[ _ := JString ?m ]} c) => exists m
          end
      end;
      split; [vm_compute; reflexivity | intros c; reflexivity] ].

Lemma setupRoutes_placeholders (swaggerHandler : HandlerFunc) (DB : Type)
    (cfg : Config) (db : DB) :
  Forall (fun r =>
            route_path r <> "/health" -> route_path r <> "/swagger/*any" ->
            exists m : string,
              Contains m "TODO: Implement" = true /\ stub m (route_handler r))
    (routes (setupRoutes swaggerHandler gin_New cfg db)).
Proof.
  unfold setupRoutes.
  destruct (Metrics_Enabled (Metrics cfg));
    cbv [GET POST PUT DELETE handle Group root routes gin_New basePath app];
    repeat (apply List.Forall_cons; [cbn [route_path]; placeholder_case |]);
    apply List.Forall_nil.
Qed.

(** Outside /api/v1 too, the handlers are placeholders.  Every route
    of [setupRoutes] other than the health check and the documentation,
    the metrics route and the two WebSocket routes included, answers any
    request with status 200 and one JSON message that carries the to-do
    mark, and leaves the request, the keys and the clock as they were:
    no connection is upgraded and no metric is reported. *)
Theorem routes_outside_api_are_placeholders (swaggerHandler : HandlerFunc)
    (DB : Type) (cfg : Config) (db : DB) (r : Route) :
  In r (routes (setupRoutes swaggerHandler gin_New cfg db)) ->
  route_path r <> "/health" ->
  route_path r <> "/swagger/*any" ->
  exists m : string,
    Contains m "TODO: Implement" = true
    /\ forall req keys now,
         Writer (route_handler r (newContext req keys now))
         = {| status := 200; written := true;
              body := [ {["message" := JString m]} ] |}
         /\ same_request_state (newContext req keys now)
              (route_handler r (newContext req keys now)).
Proof.
  intros Hin Hh Hs.
  pose proof (setupRoutes_placeholders swaggerHandler DB cfg db) as Hall.
  rewrite List.Forall_forall in Hall.
  destruct (Hall r Hin Hh Hs) as (m & Hm & Hstub).
  exists m. split; [exact Hm |]. intros req keys now.
  rewrite Hstub. split; [reflexivity | apply JSON_same_request_state].
Qed.

End ServerMoreFacts.

Lemma routes_outside_api_are_placeholders_witness :
  exists m : string,
    Server.Contains m "TODO: Implement" = true
    /\ forall req keys now,
         Server.Writer (Server.wsTasks (Server.newContext req keys now))
         = {| Server.status := 200; Server.written := true;
              Server.body := [ {["message" := Server.JString m]} ] |}
         /\ Server.same_request_state (Server.newContext req keys now)
              (Server.wsTasks (Server.newContext req keys now)).
Proof.
  apply (routes_outside_api_are_placeholders (fun c => c) unit
           Config.defaultConfig tt
           {| Server.route_method := "GET"; Server.route_path := "/ws/tasks";
              Server.route_handler := Server.wsTasks |}).
  - cbv [Server.setupRoutes Config.defaultConfig Config.Metrics
         Config.Metrics_Enabled Config.Metrics_Path Server.GET Server.POST
         Server.PUT Server.DELETE Server.handle Server.Group Server.root
         Server.routes Server.gin_New Server.basePath app].
    do 39 right. left. reflexivity.
  - discriminate.
  - discriminate.
Defined.
